(** * dsm: point-and-click distance measurement, three app variants

    A shallow embedding of the application state and the event handlers of
    the three JavaScript classes of the repository:

    - [Linear] : [DistanceMeasurementApp], version 1.0, a two-point linear
                 scale factor;
    - [OpenCV] : [AccurateDistanceMeasurementApp] of [scripts/app.js], a
                 four-corner perspective transform through OpenCV.js;
    - [Hybrid] : [AccurateDistanceMeasurementApp], version 2.2, which keeps
                 the OpenCV state in the object and falls back to an enhanced
                 two-point mode.

    JavaScript numbers are kept behind the interface [JSNumber].  It has two
    instances: IEEE-754 binary64 ([PrimFloat.float], the arithmetic a browser
    runs, used to execute the handlers on concrete inputs) and the reals
    extended with the non-finite values ([xreal], exact arithmetic, used for
    the statements that quantify over all inputs).

    Handlers are functions from a state to a state and the list of effects
    they had on the outside world (messages, modals, calls into OpenCV.js,
    downloads).  Canvas drawing, sounds, console output and the text of
    buttons and labels are presentation and are left out. *)

From Stdlib Require Import Bool List String ZArith Lia.
From Stdlib Require PrimFloat Uint63.
From Stdlib Require Import Reals Lra Psatz.
Import ListNotations.

Set Implicit Arguments.
Open Scope string_scope.
Open Scope list_scope.

(** ** JavaScript numbers *)

Class JSNumber (num : Type) : Type := {
  (** integer literals and array lengths *)
  of_Z : Z -> num;
  (** the decimal literal [n / d], [d] a power of ten *)
  decimal : Z -> Z -> num;
  num_add : num -> num -> num;
  num_sub : num -> num -> num;
  num_mul : num -> num -> num;
  num_div : num -> num -> num;
  Math_sqrt : num -> num;
  (** [NaN], which is also what [undefined] becomes in arithmetic *)
  NaN : num;
  Infinity : num;
  is_nan : num -> bool;
  (** [Number.isFinite] *)
  is_finite : num -> bool;
  (** [a < b] *)
  num_ltb : num -> num -> bool;
  (** [a === b] *)
  num_eqb : num -> num -> bool
}.

Declare Scope js_scope.
Delimit Scope js_scope with js.
Infix "+" := num_add : js_scope.
Infix "-" := num_sub : js_scope.
Infix "*" := num_mul : js_scope.
Infix "/" := num_div : js_scope.
Infix "<?" := num_ltb : js_scope.

Section Numbers.

Context {num : Type} `{JSNumber num}.
Local Open Scope js_scope.

(** [Math.pow(x, 2)] *)
Definition Math_pow2 (x : num) : num := x * x.

(** Truthiness of a number: everything but [0] and [NaN]. *)
Definition truthy (x : num) : bool := negb (is_nan x || num_eqb x (of_Z 0)).

(** [a || b] on properties that may be [undefined] ([None]). *)
Definition or_else (a b : option num) : option num :=
  match a with
  | Some x => if truthy x then Some x else b
  | None => b
  end.

(** A possibly [undefined] value used as an operand. *)
Definition to_number (a : option num) : num :=
  match a with Some x => x | None => NaN end.

Definition min2 (a b : num) : num :=
  if is_nan a || is_nan b then NaN else if b <? a then b else a.

Definition max2 (a b : num) : num :=
  if is_nan a || is_nan b then NaN else if a <? b then b else a.

(** [Math.min(...l)] and [Math.max(...l)]; zeros of either sign count as
    equal. *)
Definition Math_min (l : list num) : num := fold_left min2 l Infinity.

Definition Math_max (l : list num) : num :=
  fold_left max2 l (of_Z 0 - Infinity).

(** [a <= b] *)
Definition num_leb (a b : num) : bool := (a <? b) || num_eqb a b.

End Numbers.

(** *** IEEE-754 binary64 *)

Module Float.

Definition of_Z (z : Z) : PrimFloat.float :=
  match z with
  | Z0 => PrimFloat.zero
  | Zpos _ => PrimFloat.of_uint63 (Uint63.of_Z z)
  | Zneg p => PrimFloat.opp (PrimFloat.of_uint63 (Uint63.of_Z (Zpos p)))
  end.

(** Numerator and denominator of the literals of the sources are below
    2^53, so both convert exactly and the correctly rounded quotient is the
    double the literal denotes. *)
Definition decimal (n d : Z) : PrimFloat.float :=
  PrimFloat.div (of_Z n) (of_Z d).

End Float.

#[export] Instance float_JSNumber : JSNumber PrimFloat.float := {
  of_Z := Float.of_Z;
  decimal := Float.decimal;
  num_add := PrimFloat.add;
  num_sub := PrimFloat.sub;
  num_mul := PrimFloat.mul;
  num_div := PrimFloat.div;
  Math_sqrt := PrimFloat.sqrt;
  NaN := PrimFloat.nan;
  Infinity := PrimFloat.infinity;
  is_nan := PrimFloat.is_nan;
  is_finite := PrimFloat.is_finite;
  num_ltb := PrimFloat.ltb;
  num_eqb := PrimFloat.eqb
}.

(** *** Extended reals *)

Inductive xreal : Type :=
| Fin (r : R)
| PInf
| NInf
| XNaN.

Module XReal.

Local Open Scope R_scope.

Definition Rsign (r : R) : comparison :=
  if Rlt_dec 0 r then Gt else if Rlt_dec r 0 then Lt else Eq.

Definition signed_inf (c : comparison) : xreal :=
  match c with Gt => PInf | Lt => NInf | Eq => XNaN end.

Definition sign (a : xreal) : comparison :=
  match a with
  | Fin r => Rsign r
  | PInf => Gt
  | NInf => Lt
  | XNaN => Eq
  end.

Definition opp (a : xreal) : xreal :=
  match a with
  | Fin r => Fin (- r)
  | PInf => NInf
  | NInf => PInf
  | XNaN => XNaN
  end.

Definition sign_mul (c1 c2 : comparison) : comparison :=
  match c1, c2 with
  | Eq, _ | _, Eq => Eq
  | Gt, Gt | Lt, Lt => Gt
  | _, _ => Lt
  end.

Definition add (a b : xreal) : xreal :=
  match a, b with
  | XNaN, _ | _, XNaN => XNaN
  | Fin x, Fin y => Fin (x + y)
  | PInf, NInf | NInf, PInf => XNaN
  | PInf, _ | _, PInf => PInf
  | NInf, _ | _, NInf => NInf
  end.

Definition sub (a b : xreal) : xreal := add a (opp b).

Definition mul (a b : xreal) : xreal :=
  match a, b with
  | XNaN, _ | _, XNaN => XNaN
  | Fin x, Fin y => Fin (x * y)
  | _, _ => signed_inf (sign_mul (sign a) (sign b))
  end.

(** The zero of [xreal] has no sign; a zero divisor is taken to be [+0],
    which is what [Math.sqrt] and a sum of squares return. *)
Definition div (a b : xreal) : xreal :=
  match a, b with
  | XNaN, _ | _, XNaN => XNaN
  | Fin x, Fin y => if Req_dec_T y 0 then signed_inf (Rsign x) else Fin (x / y)
  | Fin _, _ => Fin 0
  | PInf, Fin y => if Rlt_dec y 0 then NInf else PInf
  | NInf, Fin y => if Rlt_dec y 0 then PInf else NInf
  | _, _ => XNaN
  end.

Definition sqrt (a : xreal) : xreal :=
  match a with
  | Fin x => if Rlt_dec x 0 then XNaN else Fin (R_sqrt.sqrt x)
  | PInf => PInf
  | NInf | XNaN => XNaN
  end.

Definition is_nan (a : xreal) : bool :=
  match a with XNaN => true | _ => false end.

Definition is_finite (a : xreal) : bool :=
  match a with Fin _ => true | _ => false end.

Definition ltb (a b : xreal) : bool :=
  match a, b with
  | XNaN, _ | _, XNaN => false
  | Fin x, Fin y => if Rlt_dec x y then true else false
  | NInf, NInf | PInf, _ | _, NInf => false
  | _, _ => true
  end.

Definition eqb (a b : xreal) : bool :=
  match a, b with
  | Fin x, Fin y => if Req_dec_T x y then true else false
  | PInf, PInf | NInf, NInf => true
  | _, _ => false
  end.

End XReal.

#[export] Instance xreal_JSNumber : JSNumber xreal := {
  of_Z := fun z => Fin (IZR z);
  decimal := fun n d => Fin (IZR n / IZR d);
  num_add := XReal.add;
  num_sub := XReal.sub;
  num_mul := XReal.mul;
  num_div := XReal.div;
  Math_sqrt := XReal.sqrt;
  NaN := XNaN;
  Infinity := PInf;
  is_nan := XReal.is_nan;
  is_finite := XReal.is_finite;
  num_ltb := XReal.ltb;
  num_eqb := XReal.eqb
}.

(** ** Record update and handlers *)

Class Setter {R T : Type} (proj : R -> T) : Type := set : (T -> T) -> R -> R.
Arguments set {R T} proj {Setter} _ _.

Notation "s <| p := v |>" := (set p (fun _ => v) s)
  (at level 1, left associativity, p at level 0, format "s  <| p  :=  v |>").

(** A handler maps the state to the new state and the effects it had, in
    the order in which they happened. *)
Definition Handler (State Effect : Type) : Type :=
  State -> State * list Effect.

Section Handlers.

Context {State Effect : Type}.

Definition skip : Handler State Effect := fun s => (s, []).

Definition emit (e : Effect) : Handler State Effect := fun s => (s, [e]).

Definition modify (f : State -> State) : Handler State Effect :=
  fun s => (f s, []).

Definition andThen (a b : Handler State Effect) : Handler State Effect :=
  fun s => let (s1, e1) := a s in let (s2, e2) := b s1 in (s2, e1 ++ e2).

(** [if (c) { a } else { b }] *)
Definition ifS (c : State -> bool) (a b : Handler State Effect)
  : Handler State Effect :=
  fun s => if c s then a s else b s.

(** [if (c) { a }] *)
Definition when (c : State -> bool) (a : Handler State Effect)
  : Handler State Effect :=
  ifS c a skip.

(** A block that may throw: [inl] when it ran to its end, [inr] with the
    state and the effects reached when the exception was thrown. *)
Definition Try : Type := State -> (State * list Effect) + (State * list Effect).

(** [try { body } catch (error) { handler }] *)
Definition try_catch (body : Try) (handler : Handler State Effect)
  : Handler State Effect :=
  fun s =>
    match body s with
    | inl r => r
    | inr (s1, e1) => let (s2, e2) := handler s1 in (s2, e1 ++ e2)
    end.

(** Runs a list of handlers one after the other. *)
Fixpoint run (hs : list (Handler State Effect)) : Handler State Effect :=
  match hs with
  | [] => skip
  | h :: hs' => andThen h (run hs')
  end.

End Handlers.

Arguments Try State Effect : clear implicits.

Notation "a ;; b" := (andThen a b) (at level 61, right associativity).

(** ** Data shared by the three variants *)

(** The keys of [this.units]. *)
Inductive Unit : Type := U_mm | U_cm | U_m | U_in | U_ft.

(** The modals and panels the handlers open and close. *)
Inductive Modal : Type :=
| calibrationModal
| precisionCalibrationModal
| basicCalibrationModal
| calibrationStatus
| resultsPanel
| settingsModal
| helpModal.

Section Data.

Context {num : Type} `{JSNumber num}.
Local Open Scope js_scope.

(** [this.units[u].factor] *)
Definition unit_factor (u : Unit) : num :=
  match u with
  | U_mm => of_Z 1
  | U_cm => decimal 1 10
  | U_m => decimal 1 1000
  | U_in => decimal 393701 10000000
  | U_ft => decimal 328084 100000000
  end.

(** A measurement click [{ x, y, timestamp }]. *)
Record Point : Type := {
  p_x : num;
  p_y : num;
  p_timestamp : Z
}.

(** A calibration click [{ x, y, step }]. *)
Record CalibrationPoint : Type := {
  c_x : num;
  c_y : num;
  c_step : nat
}.

(** [this.canvas], of which the handlers read [width] and [height]. *)
Record Canvas : Type := {
  canvas_width : num;
  canvas_height : num
}.

(** An entry of [this.referenceObjects]; a property the entry does not
    have is [None]. *)
Record ReferenceObject : Type := {
  ref_name : string;
  ref_width : option num;
  ref_height : option num;
  ref_diameter : option num
}.

Definition rectangle (name : string) (w h : num) : ReferenceObject :=
  {| ref_name := name; ref_width := Some w; ref_height := Some h;
     ref_diameter := None |}.

Definition disc (name : string) (d : num) : ReferenceObject :=
  {| ref_name := name; ref_width := None; ref_height := None;
     ref_diameter := Some d |}.

(** [select?.value || 'credit_card'] for a select element that may be
    missing ([None]) or hold the empty string. *)
Definition referenceKey (select : option string) : string :=
  match select with
  | Some "" | None => "credit_card"
  | Some k => k
  end.

(** [Math.sqrt(Math.pow(x2 - x1, 2) + Math.pow(y2 - y1, 2))] *)
Definition euclid (x1 y1 x2 y2 : num) : num :=
  Math_sqrt (Math_pow2 (x2 - x1) + Math_pow2 (y2 - y1)).

Definition pixelDistance (p1 p2 : Point) : num :=
  euclid (p_x p1) (p_y p1) (p_x p2) (p_y p2).

(** The measurement record.  [m_mode] is [None] when the value is [null];
    the other optional fields are [None] when the variant's object literal
    has no such property. *)
Record Measurement : Type := {
  m_id : Z;
  m_distance : num;
  m_displayDistance : num;
  m_unit : Unit;
  m_timestamp : Z;
  m_points : list Point;
  m_correctedPoints : option (list (num * num));
  m_mode : option string;
  m_accuracy : option string;
  m_method : option string;
  m_calibrationFactor : option num
}.

(** An element of [exportData.measurements]. *)
Record ExportEntry : Type := {
  e_id : Z;
  e_distance_mm : num;
  e_distance_display : num;
  e_unit : Unit;
  e_timestamp : Z;
  e_mode : option string;
  e_accuracy : option string;
  e_method : option string;
  e_points : option (list Point)
}.

(** [exportData.summary]; [accuracyMode] is written by one variant only. *)
Record Summary : Type := {
  totalMeasurements : nat;
  averageDistance : num;
  minDistance : num;
  maxDistance : num;
  accuracyMode : option (option string)
}.

(** [exportData]: the application name and version, the export time, the
    calibration flag, the entries and the summary.  The device and settings
    blocks are left out. *)
Record ExportData : Type := {
  appName : string;
  version : string;
  exportDate : Z;
  export_isCalibrated : bool;
  export_measurements : list ExportEntry;
  summary : Summary
}.

Definition distances (ms : list Measurement) : list num :=
  map m_distance ms.

(** [ms.reduce((sum, m) => sum + m.distance, 0)] *)
Definition sumDistances (ms : list Measurement) : num :=
  fold_left (fun sum m => sum + m_distance m) ms (of_Z 0).

(** The four summary fields that all variants compute alike. *)
Definition summarize (ms : list Measurement)
  (mode : option (option string)) : Summary :=
  {| totalMeasurements := List.length ms;
     averageDistance := sumDistances ms / of_Z (Z.of_nat (List.length ms));
     minDistance := Math_min (distances ms);
     maxDistance := Math_max (distances ms);
     accuracyMode := mode |}.

(** Effects of a handler on the outside world.  [Mat] is the type of the
    matrices OpenCV.js hands out. *)
Inductive Effect (Mat : Type) : Type :=
| ShowMessage (msg : string)
| ShowError (msg : string)
| ShowModal (m : Modal)
| HideModal (m : Modal)
| DisplayDistance (d : num) (u : Unit)
| CvMatFromArray (rows cols : nat) (data : list num)
| CvNewMat
| CvGetPerspectiveTransform (src dst : list num)
| CvPerspectiveTransform (src : list num) (M : Mat)
| CvDeleteTemporary
| CvDeleteMatrix (M : Mat)
| Download (prefix : string) (doc : ExportData).

(** Whether an effect is a call into OpenCV.js. *)
Definition is_cv_call {Mat : Type} (e : Effect Mat) : bool :=
  match e with
  | CvMatFromArray _ _ _ _ | CvNewMat _ | CvGetPerspectiveTransform _ _ _
  | CvPerspectiveTransform _ _ | CvDeleteTemporary _ | CvDeleteMatrix _ =>
      true
  | _ => false
  end.

(** The two entry points of OpenCV.js that compute; [None] stands for a
    thrown exception.  [perspectiveTransform] returns the [data32F] of the
    destination matrix. *)
Record OpenCVjs (Mat : Type) : Type := {
  getPerspectiveTransform : list num -> list num -> option Mat;
  perspectiveTransform : list num -> Mat -> option (list num)
}.

(** [data32F[i]], [NaN] standing for [undefined]. *)
Definition data32F (data : list num) (i : nat) : num := nth i data NaN.

End Data.

Arguments Point num : clear implicits.
Arguments CalibrationPoint num : clear implicits.
Arguments Canvas num : clear implicits.
Arguments ReferenceObject num : clear implicits.
Arguments Measurement num : clear implicits.
Arguments ExportEntry num : clear implicits.
Arguments Summary num : clear implicits.
Arguments ExportData num : clear implicits.
Arguments Effect num Mat : clear implicits.
Arguments ShowMessage {num Mat} msg.
Arguments ShowError {num Mat} msg.
Arguments ShowModal {num Mat} m.
Arguments HideModal {num Mat} m.
Arguments DisplayDistance {num Mat} d u.
Arguments CvMatFromArray {num Mat} rows cols data.
Arguments CvNewMat {num Mat}.
Arguments CvGetPerspectiveTransform {num Mat} src dst.
Arguments CvPerspectiveTransform {num Mat} src M.
Arguments CvDeleteTemporary {num Mat}.
Arguments CvDeleteMatrix {num Mat} M.
Arguments Download {num Mat} prefix doc.
Arguments OpenCVjs num Mat : clear implicits.

(** ** The two-point linear variant ([DistanceMeasurementApp]) *)

Module Linear.

Inductive Mode : Type := ar | camera.

Definition mode_name (m : Mode) : string :=
  match m with ar => "ar" | camera => "camera" end.

Section App.

Context {num : Type} `{JSNumber num}.
Local Open Scope js_scope.

(** The fields of [this] that the handlers read and write; [canvas] is
    [None] while [this.canvas] is [null], and [referenceSelect] is the value
    of the select element of the calibration modal. *)
Record State : Type := {
  currentMode : option Mode;
  isCalibrated : bool;
  calibrationFactor : num;
  measurements : list (Measurement num);
  measurementPoints : list (Point num);
  currentUnit : Unit;
  isMeasuring : bool;
  isCalibrationMode : bool;
  canvas : option (Canvas num);
  referenceSelect : option string
}.

#[global] Instance set_currentMode : Setter currentMode := fun f s =>
  {| currentMode := f (currentMode s); isCalibrated := isCalibrated s;
     calibrationFactor := calibrationFactor s;
     measurements := measurements s;
     measurementPoints := measurementPoints s; currentUnit := currentUnit s;
     isMeasuring := isMeasuring s; isCalibrationMode := isCalibrationMode s;
     canvas := canvas s; referenceSelect := referenceSelect s |}.

#[global] Instance set_isCalibrated : Setter isCalibrated := fun f s =>
  {| currentMode := currentMode s; isCalibrated := f (isCalibrated s);
     calibrationFactor := calibrationFactor s;
     measurements := measurements s;
     measurementPoints := measurementPoints s; currentUnit := currentUnit s;
     isMeasuring := isMeasuring s; isCalibrationMode := isCalibrationMode s;
     canvas := canvas s; referenceSelect := referenceSelect s |}.

#[global] Instance set_calibrationFactor : Setter calibrationFactor := fun f s =>
  {| currentMode := currentMode s; isCalibrated := isCalibrated s;
     calibrationFactor := f (calibrationFactor s);
     measurements := measurements s;
     measurementPoints := measurementPoints s; currentUnit := currentUnit s;
     isMeasuring := isMeasuring s; isCalibrationMode := isCalibrationMode s;
     canvas := canvas s; referenceSelect := referenceSelect s |}.

#[global] Instance set_measurements : Setter measurements := fun f s =>
  {| currentMode := currentMode s; isCalibrated := isCalibrated s;
     calibrationFactor := calibrationFactor s;
     measurements := f (measurements s);
     measurementPoints := measurementPoints s; currentUnit := currentUnit s;
     isMeasuring := isMeasuring s; isCalibrationMode := isCalibrationMode s;
     canvas := canvas s; referenceSelect := referenceSelect s |}.

#[global] Instance set_measurementPoints : Setter measurementPoints := fun f s =>
  {| currentMode := currentMode s; isCalibrated := isCalibrated s;
     calibrationFactor := calibrationFactor s;
     measurements := measurements s;
     measurementPoints := f (measurementPoints s);
     currentUnit := currentUnit s; isMeasuring := isMeasuring s;
     isCalibrationMode := isCalibrationMode s; canvas := canvas s;
     referenceSelect := referenceSelect s |}.

#[global] Instance set_currentUnit : Setter currentUnit := fun f s =>
  {| currentMode := currentMode s; isCalibrated := isCalibrated s;
     calibrationFactor := calibrationFactor s;
     measurements := measurements s;
     measurementPoints := measurementPoints s;
     currentUnit := f (currentUnit s); isMeasuring := isMeasuring s;
     isCalibrationMode := isCalibrationMode s; canvas := canvas s;
     referenceSelect := referenceSelect s |}.

#[global] Instance set_isMeasuring : Setter isMeasuring := fun f s =>
  {| currentMode := currentMode s; isCalibrated := isCalibrated s;
     calibrationFactor := calibrationFactor s;
     measurements := measurements s;
     measurementPoints := measurementPoints s; currentUnit := currentUnit s;
     isMeasuring := f (isMeasuring s);
     isCalibrationMode := isCalibrationMode s; canvas := canvas s;
     referenceSelect := referenceSelect s |}.

#[global] Instance set_isCalibrationMode : Setter isCalibrationMode := fun f s =>
  {| currentMode := currentMode s; isCalibrated := isCalibrated s;
     calibrationFactor := calibrationFactor s;
     measurements := measurements s;
     measurementPoints := measurementPoints s; currentUnit := currentUnit s;
     isMeasuring := isMeasuring s;
     isCalibrationMode := f (isCalibrationMode s); canvas := canvas s;
     referenceSelect := referenceSelect s |}.

#[global] Instance set_canvas : Setter canvas := fun f s =>
  {| currentMode := currentMode s; isCalibrated := isCalibrated s;
     calibrationFactor := calibrationFactor s;
     measurements := measurements s;
     measurementPoints := measurementPoints s; currentUnit := currentUnit s;
     isMeasuring := isMeasuring s; isCalibrationMode := isCalibrationMode s;
     canvas := f (canvas s); referenceSelect := referenceSelect s |}.

#[global] Instance set_referenceSelect : Setter referenceSelect := fun f s =>
  {| currentMode := currentMode s; isCalibrated := isCalibrated s;
     calibrationFactor := calibrationFactor s;
     measurements := measurements s;
     measurementPoints := measurementPoints s; currentUnit := currentUnit s;
     isMeasuring := isMeasuring s; isCalibrationMode := isCalibrationMode s;
     canvas := canvas s; referenceSelect := f (referenceSelect s) |}.

Definition Eff : Type := Effect num Empty_set.

(** The state the constructor leaves. *)
Definition constructor : State :=
  {| currentMode := None; isCalibrated := false; calibrationFactor := of_Z 1;
     measurements := []; measurementPoints := []; currentUnit := U_m;
     isMeasuring := false; isCalibrationMode := false; canvas := None;
     referenceSelect := None |}.

(** [this.referenceObjects[key]] *)
Definition referenceObjects (key : string) : option (ReferenceObject num) :=
  if String.eqb key "credit_card" then
    Some (rectangle "Credit Card" (decimal 856 10) (decimal 5398 100))
  else if String.eqb key "quarter" then
    Some (disc "US Quarter" (decimal 2426 100))
  else if String.eqb key "iphone" then
    Some (rectangle "iPhone Standard" (decimal 673 10) (decimal 1384 10))
  else if String.eqb key "a4_paper" then
    Some (rectangle "A4 Paper" (of_Z 210) (of_Z 297))
  else if String.eqb key "business_card" then
    Some (rectangle "Business Card" (of_Z 89) (of_Z 51))
  else None.

(** [cam] is the outcome of opening the camera: the canvas element when the
    stream was obtained, [None] when [getUserMedia] was rejected. *)
Definition initializeCameraMode (cam : option (Canvas num))
  : Handler State Eff :=
  match cam with
  | Some c =>
      modify (fun s => s <| canvas := Some c |>) ;;
      when (fun s => negb (isCalibrated s)) (emit (ShowModal calibrationModal))
  | None =>
      emit (ShowError
        "Failed to access camera. Please check permissions and try again.")
  end.

Definition initializeARMode (cam : option (Canvas num)) : Handler State Eff :=
  emit (ShowMessage "AR mode is being prepared. Using enhanced camera mode.") ;;
  initializeCameraMode cam.

Definition selectMode (mode : Mode) (cam : option (Canvas num))
  : Handler State Eff :=
  modify (fun s => s <| currentMode := Some mode |>) ;;
  match mode with
  | ar => initializeARMode cam
  | camera => initializeCameraMode cam
  end.

(** [loadedmetadata] and [resize]: the canvas takes the size of the video. *)
Definition setupCanvas (w h : num) : Handler State Eff :=
  modify (fun s =>
    match canvas s with
    | Some _ => s <| canvas := Some {| canvas_width := w; canvas_height := h |} |>
    | None => s
    end).

Definition startCalibration : Handler State Eff :=
  emit (HideModal calibrationModal) ;;
  modify (fun s => s <| measurementPoints := [] |>
                     <| isCalibrationMode := true |>
                     <| isMeasuring := true |>) ;;
  emit (ShowMessage "Click on both ends of your reference object to calibrate").

Definition completeCalibration : Handler State Eff :=
  fun s =>
    match referenceObjects (referenceKey (referenceSelect s)),
          measurementPoints s with
    | Some reference, [p1; p2] =>
        let realSize := or_else (ref_width reference) (ref_diameter reference) in
        (s <| calibrationFactor := to_number realSize / pixelDistance p1 p2 |>
           <| isCalibrated := true |>
           <| isCalibrationMode := false |>
           <| isMeasuring := false |>
           <| measurementPoints := [] |>,
         [ShowMessage
            "Calibration successful! You can now measure objects accurately."])
    | _, _ => (s, [])
    end.

Definition startMeasuring : Handler State Eff :=
  modify (fun s => s <| isMeasuring := true |> <| measurementPoints := [] |>) ;;
  emit (ShowMessage "Measurement mode active. Click two points to measure.").

Definition stopMeasuring : Handler State Eff :=
  modify (fun s => s <| isMeasuring := false |> <| measurementPoints := [] |>).

Definition toggleMeasurement : Handler State Eff :=
  fun s =>
    match isCalibrated s, currentMode s with
    | false, Some camera => emit (ShowModal calibrationModal) s
    | _, _ => ifS isMeasuring stopMeasuring startMeasuring s
    end.

(** [now] is the reading of the clock, for [Date.now()] and [new Date()]. *)
Definition calculateDistance (now : Z) : Handler State Eff :=
  fun s =>
    match measurementPoints s with
    | [p1; p2] =>
        let distanceInMM := pixelDistance p1 p2 * calibrationFactor s in
        let distanceInUnit := distanceInMM * unit_factor (currentUnit s) in
        let measurement :=
          {| m_id := now;
             m_distance := distanceInMM;
             m_displayDistance := distanceInUnit;
             m_unit := currentUnit s;
             m_timestamp := now;
             m_points := measurementPoints s;
             m_correctedPoints := None;
             m_mode := option_map mode_name (currentMode s);
             m_accuracy := None;
             m_method := None;
             m_calibrationFactor := Some (calibrationFactor s) |} in
        (s <| measurements := measurements s ++ [measurement] |>
           <| measurementPoints := [] |>
           <| isMeasuring := false |>,
         [DisplayDistance distanceInUnit (currentUnit s);
          ShowModal resultsPanel])
    | _ => (s, [])
    end.

(** A click on the canvas at the canvas coordinates [(x, y)]. *)
Definition handleCanvasClick (x y : num) (now : Z) : Handler State Eff :=
  fun s =>
    match isMeasuring s, canvas s with
    | true, Some _ =>
        let s := s <| measurementPoints :=
                        measurementPoints s ++
                        [{| p_x := x; p_y := y; p_timestamp := now |}] |> in
        if isCalibrationMode s && (List.length (measurementPoints s) =? 2)%nat
        then completeCalibration s
        else if negb (isCalibrationMode s)
                && (List.length (measurementPoints s) =? 2)%nat
        then calculateDistance now s
        else (s, [])
    | _, _ => (s, [])
    end.

Definition clearMeasurements : Handler State Eff :=
  modify (fun s => s <| measurementPoints := [] |>
                     <| measurements := [] |>
                     <| isMeasuring := false |>) ;;
  emit (HideModal resultsPanel) ;;
  emit (ShowMessage "All measurements cleared").

Definition exportEntry (m : Measurement num) : ExportEntry num :=
  {| e_id := m_id m;
     e_distance_mm := m_distance m;
     e_distance_display := m_displayDistance m;
     e_unit := m_unit m;
     e_timestamp := m_timestamp m;
     e_mode := m_mode m;
     e_accuracy := None;
     e_method := None;
     e_points := Some (m_points m) |}.

Definition exportMeasurements (now : Z) : Handler State Eff :=
  fun s =>
    if (List.length (measurements s) =? 0)%nat then
      (s, [ShowError "No measurements to export"])
    else
      let exportData :=
        {| appName := "Distance Measurement App";
           version := "1.0";
           exportDate := now;
           export_isCalibrated := isCalibrated s;
           export_measurements := map exportEntry (measurements s);
           summary := summarize (measurements s) None |} in
      (s, [Download "distance-measurements" exportData;
           ShowMessage "Measurements exported successfully"]).

Definition startNewMeasurement : Handler State Eff := clearMeasurements.

Definition goBack : Handler State Eff :=
  modify (fun s => s <| currentMode := None |>
                     <| isMeasuring := false |>
                     <| measurementPoints := [] |>) ;;
  emit (HideModal calibrationModal) ;;
  emit (HideModal resultsPanel) ;;
  emit (HideModal helpModal).

(** What can happen to the application: the listeners set up by
    [setupEventListeners] and [initializeCameraMode]. *)
Inductive Event : Type :=
| UnitChange (u : Unit)
| ReferenceChange (key : string)
| SelectMode (mode : Mode) (cam : option (Canvas num))
| VideoMetadata (w h : num)
| StartCalibration
| CanvasClick (x y : num) (now : Z)
| ToggleMeasurement
| ClearMeasurements
| ExportMeasurements (now : Z)
| StartNewMeasurement
| GoBack.

Definition handle (e : Event) : Handler State Eff :=
  match e with
  | UnitChange u => modify (fun s => s <| currentUnit := u |>)
  | ReferenceChange key => modify (fun s => s <| referenceSelect := Some key |>)
  | SelectMode mode cam => selectMode mode cam
  | VideoMetadata w h => setupCanvas w h
  | StartCalibration => startCalibration
  | CanvasClick x y now => handleCanvasClick x y now
  | ToggleMeasurement => toggleMeasurement
  | ClearMeasurements => clearMeasurements
  | ExportMeasurements now => exportMeasurements now
  | StartNewMeasurement => startNewMeasurement
  | GoBack => goBack
  end.

Definition showHelp : Handler State Eff := emit (ShowModal helpModal).

Definition hideHelp : Handler State Eff := emit (HideModal helpModal).

(** What [handleKeyboard] reads of a [keydown] event: the tag of the
    element in focus, the key code and the two modifiers. *)
Record KeyboardEvent : Type := {
  target_tagName : string;
  code : string;
  ctrlKey : bool;
  metaKey : bool
}.

(** The [keydown] listener of the document. *)
Definition handleKeyboard (event : KeyboardEvent) (now : Z)
  : Handler State Eff :=
  if String.eqb (target_tagName event) "INPUT"
     || String.eqb (target_tagName event) "SELECT"
  then skip
  else if String.eqb (code event) "Space" then toggleMeasurement
  else if String.eqb (code event) "Escape" then goBack
  else if String.eqb (code event) "KeyC" then
    when (fun _ => ctrlKey event || metaKey event) clearMeasurements
  else if String.eqb (code event) "KeyE" then
    when (fun _ => ctrlKey event || metaKey event) (exportMeasurements now)
  else if String.eqb (code event) "F1" then showHelp
  else skip.

End App.

Arguments State num : clear implicits.
Arguments Event num : clear implicits.

End Linear.

(** ** The OpenCV variant ([AccurateDistanceMeasurementApp], scripts/app.js) *)

Module OpenCV.

Inductive Mode : Type := precision | ar | basic.

Definition mode_name (m : Mode) : string :=
  match m with precision => "precision" | ar => "ar" | basic => "basic" end.

Section App.

Context {num : Type} `{JSNumber num}.

(** The matrices of OpenCV.js are opaque to the application, and so is the
    library that computes with them. *)
Context {Mat : Type}.
Variable cv : OpenCVjs num Mat.

Local Open Scope js_scope.

(** [this.calibrationData] as [completePrecisionCalibration] builds it. *)
Record CalibrationData : Type := {
  pixelsPerMM : num;
  cd_perspectiveMatrix : Mat;
  cd_referenceObject : ReferenceObject num;
  scale : num;
  correctedWidth : num;
  correctedHeight : num
}.

(** The fields of [this] that the handlers read and write, the global
    [isOpenCVReady], and the value of the select element of the precision
    calibration modal. *)
Record State : Type := {
  currentMode : option Mode;
  isCalibrated : bool;
  calibrationData : option CalibrationData;
  measurements : list (Measurement num);
  measurementPoints : list (Point num);
  calibrationPoints : list (CalibrationPoint num);
  currentUnit : Unit;
  isMeasuring : bool;
  isCalibrationMode : bool;
  referenceObject : option (ReferenceObject num);
  perspectiveMatrix : option Mat;
  currentStep : nat;
  canvas : option (Canvas num);
  isOpenCVReady : bool;
  precisionReferenceSelect : option string
}.

#[global] Instance set_currentMode : Setter currentMode := fun f s =>
  {| currentMode := f (currentMode s); isCalibrated := isCalibrated s;
     calibrationData := calibrationData s; measurements := measurements s;
     measurementPoints := measurementPoints s;
     calibrationPoints := calibrationPoints s; currentUnit := currentUnit s;
     isMeasuring := isMeasuring s; isCalibrationMode := isCalibrationMode s;
     referenceObject := referenceObject s;
     perspectiveMatrix := perspectiveMatrix s; currentStep := currentStep s;
     canvas := canvas s; isOpenCVReady := isOpenCVReady s;
     precisionReferenceSelect := precisionReferenceSelect s |}.

#[global] Instance set_isCalibrated : Setter isCalibrated := fun f s =>
  {| currentMode := currentMode s; isCalibrated := f (isCalibrated s);
     calibrationData := calibrationData s; measurements := measurements s;
     measurementPoints := measurementPoints s;
     calibrationPoints := calibrationPoints s; currentUnit := currentUnit s;
     isMeasuring := isMeasuring s; isCalibrationMode := isCalibrationMode s;
     referenceObject := referenceObject s;
     perspectiveMatrix := perspectiveMatrix s; currentStep := currentStep s;
     canvas := canvas s; isOpenCVReady := isOpenCVReady s;
     precisionReferenceSelect := precisionReferenceSelect s |}.

#[global] Instance set_calibrationData : Setter calibrationData := fun f s =>
  {| currentMode := currentMode s; isCalibrated := isCalibrated s;
     calibrationData := f (calibrationData s);
     measurements := measurements s;
     measurementPoints := measurementPoints s;
     calibrationPoints := calibrationPoints s; currentUnit := currentUnit s;
     isMeasuring := isMeasuring s; isCalibrationMode := isCalibrationMode s;
     referenceObject := referenceObject s;
     perspectiveMatrix := perspectiveMatrix s; currentStep := currentStep s;
     canvas := canvas s; isOpenCVReady := isOpenCVReady s;
     precisionReferenceSelect := precisionReferenceSelect s |}.

#[global] Instance set_measurements : Setter measurements := fun f s =>
  {| currentMode := currentMode s; isCalibrated := isCalibrated s;
     calibrationData := calibrationData s;
     measurements := f (measurements s);
     measurementPoints := measurementPoints s;
     calibrationPoints := calibrationPoints s; currentUnit := currentUnit s;
     isMeasuring := isMeasuring s; isCalibrationMode := isCalibrationMode s;
     referenceObject := referenceObject s;
     perspectiveMatrix := perspectiveMatrix s; currentStep := currentStep s;
     canvas := canvas s; isOpenCVReady := isOpenCVReady s;
     precisionReferenceSelect := precisionReferenceSelect s |}.

#[global] Instance set_measurementPoints : Setter measurementPoints := fun f s =>
  {| currentMode := currentMode s; isCalibrated := isCalibrated s;
     calibrationData := calibrationData s; measurements := measurements s;
     measurementPoints := f (measurementPoints s);
     calibrationPoints := calibrationPoints s; currentUnit := currentUnit s;
     isMeasuring := isMeasuring s; isCalibrationMode := isCalibrationMode s;
     referenceObject := referenceObject s;
     perspectiveMatrix := perspectiveMatrix s; currentStep := currentStep s;
     canvas := canvas s; isOpenCVReady := isOpenCVReady s;
     precisionReferenceSelect := precisionReferenceSelect s |}.

#[global] Instance set_calibrationPoints : Setter calibrationPoints := fun f s =>
  {| currentMode := currentMode s; isCalibrated := isCalibrated s;
     calibrationData := calibrationData s; measurements := measurements s;
     measurementPoints := measurementPoints s;
     calibrationPoints := f (calibrationPoints s);
     currentUnit := currentUnit s; isMeasuring := isMeasuring s;
     isCalibrationMode := isCalibrationMode s;
     referenceObject := referenceObject s;
     perspectiveMatrix := perspectiveMatrix s; currentStep := currentStep s;
     canvas := canvas s; isOpenCVReady := isOpenCVReady s;
     precisionReferenceSelect := precisionReferenceSelect s |}.

#[global] Instance set_currentUnit : Setter currentUnit := fun f s =>
  {| currentMode := currentMode s; isCalibrated := isCalibrated s;
     calibrationData := calibrationData s; measurements := measurements s;
     measurementPoints := measurementPoints s;
     calibrationPoints := calibrationPoints s;
     currentUnit := f (currentUnit s); isMeasuring := isMeasuring s;
     isCalibrationMode := isCalibrationMode s;
     referenceObject := referenceObject s;
     perspectiveMatrix := perspectiveMatrix s; currentStep := currentStep s;
     canvas := canvas s; isOpenCVReady := isOpenCVReady s;
     precisionReferenceSelect := precisionReferenceSelect s |}.

#[global] Instance set_isMeasuring : Setter isMeasuring := fun f s =>
  {| currentMode := currentMode s; isCalibrated := isCalibrated s;
     calibrationData := calibrationData s; measurements := measurements s;
     measurementPoints := measurementPoints s;
     calibrationPoints := calibrationPoints s; currentUnit := currentUnit s;
     isMeasuring := f (isMeasuring s);
     isCalibrationMode := isCalibrationMode s;
     referenceObject := referenceObject s;
     perspectiveMatrix := perspectiveMatrix s; currentStep := currentStep s;
     canvas := canvas s; isOpenCVReady := isOpenCVReady s;
     precisionReferenceSelect := precisionReferenceSelect s |}.

#[global] Instance set_isCalibrationMode : Setter isCalibrationMode := fun f s =>
  {| currentMode := currentMode s; isCalibrated := isCalibrated s;
     calibrationData := calibrationData s; measurements := measurements s;
     measurementPoints := measurementPoints s;
     calibrationPoints := calibrationPoints s; currentUnit := currentUnit s;
     isMeasuring := isMeasuring s;
     isCalibrationMode := f (isCalibrationMode s);
     referenceObject := referenceObject s;
     perspectiveMatrix := perspectiveMatrix s; currentStep := currentStep s;
     canvas := canvas s; isOpenCVReady := isOpenCVReady s;
     precisionReferenceSelect := precisionReferenceSelect s |}.

#[global] Instance set_referenceObject : Setter referenceObject := fun f s =>
  {| currentMode := currentMode s; isCalibrated := isCalibrated s;
     calibrationData := calibrationData s; measurements := measurements s;
     measurementPoints := measurementPoints s;
     calibrationPoints := calibrationPoints s; currentUnit := currentUnit s;
     isMeasuring := isMeasuring s; isCalibrationMode := isCalibrationMode s;
     referenceObject := f (referenceObject s);
     perspectiveMatrix := perspectiveMatrix s; currentStep := currentStep s;
     canvas := canvas s; isOpenCVReady := isOpenCVReady s;
     precisionReferenceSelect := precisionReferenceSelect s |}.

#[global] Instance set_perspectiveMatrix : Setter perspectiveMatrix := fun f s =>
  {| currentMode := currentMode s; isCalibrated := isCalibrated s;
     calibrationData := calibrationData s; measurements := measurements s;
     measurementPoints := measurementPoints s;
     calibrationPoints := calibrationPoints s; currentUnit := currentUnit s;
     isMeasuring := isMeasuring s; isCalibrationMode := isCalibrationMode s;
     referenceObject := referenceObject s;
     perspectiveMatrix := f (perspectiveMatrix s);
     currentStep := currentStep s; canvas := canvas s;
     isOpenCVReady := isOpenCVReady s;
     precisionReferenceSelect := precisionReferenceSelect s |}.

#[global] Instance set_currentStep : Setter currentStep := fun f s =>
  {| currentMode := currentMode s; isCalibrated := isCalibrated s;
     calibrationData := calibrationData s; measurements := measurements s;
     measurementPoints := measurementPoints s;
     calibrationPoints := calibrationPoints s; currentUnit := currentUnit s;
     isMeasuring := isMeasuring s; isCalibrationMode := isCalibrationMode s;
     referenceObject := referenceObject s;
     perspectiveMatrix := perspectiveMatrix s;
     currentStep := f (currentStep s); canvas := canvas s;
     isOpenCVReady := isOpenCVReady s;
     precisionReferenceSelect := precisionReferenceSelect s |}.

#[global] Instance set_canvas : Setter canvas := fun f s =>
  {| currentMode := currentMode s; isCalibrated := isCalibrated s;
     calibrationData := calibrationData s; measurements := measurements s;
     measurementPoints := measurementPoints s;
     calibrationPoints := calibrationPoints s; currentUnit := currentUnit s;
     isMeasuring := isMeasuring s; isCalibrationMode := isCalibrationMode s;
     referenceObject := referenceObject s;
     perspectiveMatrix := perspectiveMatrix s; currentStep := currentStep s;
     canvas := f (canvas s); isOpenCVReady := isOpenCVReady s;
     precisionReferenceSelect := precisionReferenceSelect s |}.

#[global] Instance set_isOpenCVReady : Setter isOpenCVReady := fun f s =>
  {| currentMode := currentMode s; isCalibrated := isCalibrated s;
     calibrationData := calibrationData s; measurements := measurements s;
     measurementPoints := measurementPoints s;
     calibrationPoints := calibrationPoints s; currentUnit := currentUnit s;
     isMeasuring := isMeasuring s; isCalibrationMode := isCalibrationMode s;
     referenceObject := referenceObject s;
     perspectiveMatrix := perspectiveMatrix s; currentStep := currentStep s;
     canvas := canvas s; isOpenCVReady := f (isOpenCVReady s);
     precisionReferenceSelect := precisionReferenceSelect s |}.

#[global] Instance set_precisionReferenceSelect : Setter precisionReferenceSelect := fun f s =>
  {| currentMode := currentMode s; isCalibrated := isCalibrated s;
     calibrationData := calibrationData s; measurements := measurements s;
     measurementPoints := measurementPoints s;
     calibrationPoints := calibrationPoints s; currentUnit := currentUnit s;
     isMeasuring := isMeasuring s; isCalibrationMode := isCalibrationMode s;
     referenceObject := referenceObject s;
     perspectiveMatrix := perspectiveMatrix s; currentStep := currentStep s;
     canvas := canvas s; isOpenCVReady := isOpenCVReady s;
     precisionReferenceSelect := f (precisionReferenceSelect s) |}.

Definition Eff : Type := Effect num Mat.

(** The state the constructor leaves, OpenCV.js not yet loaded. *)
Definition constructor : State :=
  {| currentMode := None; isCalibrated := false; calibrationData := None;
     measurements := []; measurementPoints := []; calibrationPoints := [];
     currentUnit := U_m; isMeasuring := false; isCalibrationMode := false;
     referenceObject := None; perspectiveMatrix := None; currentStep := 0;
     canvas := None; isOpenCVReady := false;
     precisionReferenceSelect := None |}.

(** [this.referenceObjects[key]] *)
Definition referenceObjects (key : string) : option (ReferenceObject num) :=
  if String.eqb key "credit_card" then
    Some (rectangle "Credit Card" (decimal 856 10) (decimal 5398 100))
  else if String.eqb key "business_card" then
    Some (rectangle "Business Card" (of_Z 89) (of_Z 51))
  else if String.eqb key "a4_paper" then
    Some (rectangle "A4 Paper" (of_Z 210) (of_Z 297))
  else if String.eqb key "letter_paper" then
    Some (rectangle "US Letter" (of_Z 216) (of_Z 279))
  else if String.eqb key "post_it" then
    Some (rectangle "Post-it Note" (of_Z 76) (of_Z 76))
  else None.

Definition onOpenCvReady : Handler State Eff :=
  modify (fun s => s <| isOpenCVReady := true |>).

Definition showBasicCalibration : Handler State Eff :=
  emit (ShowMessage
    "Basic calibration not implemented in this demo. Use precision mode.").

Definition resetCalibration : Handler State Eff :=
  modify (fun s => s <| isCalibrated := false |>
                     <| calibrationData := None |>
                     <| calibrationPoints := [] |>
                     <| perspectiveMatrix := None |>
                     <| currentStep := 0 |>) ;;
  emit (HideModal calibrationStatus).

Definition goBack : Handler State Eff :=
  (fun s =>
     match perspectiveMatrix s with
     | Some M => (s <| perspectiveMatrix := None |>, [CvDeleteMatrix M])
     | None => (s, [])
     end) ;;
  resetCalibration ;;
  modify (fun s => s <| currentMode := None |>
                     <| isMeasuring := false |>
                     <| measurementPoints := [] |>) ;;
  emit (HideModal precisionCalibrationModal) ;;
  emit (HideModal resultsPanel) ;;
  emit (HideModal settingsModal).

(** [cam] is the outcome of opening the camera: the canvas element when the
    stream was obtained, [None] when [getUserMedia] was rejected. *)
Definition initializeCamera (cam : option (Canvas num)) : Handler State Eff :=
  match cam with
  | Some c => modify (fun s => s <| canvas := Some c |>)
  | None =>
      emit (ShowError
        "Failed to access camera. Please check permissions and try again.")
  end.

Definition initializePrecisionMode (cam : option (Canvas num))
  : Handler State Eff :=
  ifS isOpenCVReady
    (initializeCamera cam ;; emit (ShowModal precisionCalibrationModal))
    (emit (ShowError "OpenCV.js is still loading. Please wait and try again.") ;;
     goBack).

Definition initializeARMode (cam : option (Canvas num)) : Handler State Eff :=
  emit (ShowMessage "AR mode is in development. Using precision mode instead.") ;;
  initializePrecisionMode cam.

Definition initializeBasicMode (cam : option (Canvas num))
  : Handler State Eff :=
  initializeCamera cam ;; showBasicCalibration.

Definition selectMode (mode : Mode) (cam : option (Canvas num))
  : Handler State Eff :=
  modify (fun s => s <| currentMode := Some mode |>) ;;
  match mode with
  | precision => initializePrecisionMode cam
  | ar => initializeARMode cam
  | basic => initializeBasicMode cam
  end.

(** [loadedmetadata]: the canvas takes the size of the video. *)
Definition setupCanvas (w h : num) : Handler State Eff :=
  modify (fun s =>
    match canvas s with
    | Some _ => s <| canvas := Some {| canvas_width := w; canvas_height := h |} |>
    | None => s
    end).

Definition startPrecisionCalibration : Handler State Eff :=
  emit (HideModal precisionCalibrationModal) ;;
  modify (fun s =>
    s <| referenceObject :=
           referenceObjects (referenceKey (precisionReferenceSelect s)) |>
      <| calibrationPoints := [] |>
      <| isCalibrationMode := true |>
      <| isMeasuring := true |>
      <| currentStep := 1 |>) ;;
  emit (ShowModal calibrationStatus).

(** [points.map(p => [p.x, p.y]).flat()] *)
Definition flatPoints (points : list (CalibrationPoint num)) : list num :=
  flat_map (fun p => [c_x p; c_y p]) points.

(** The destination rectangle of the transform, flattened. *)
Definition dstPoints (refWidth refHeight scale : num) : list num :=
  [of_Z 0; of_Z 0;
   refWidth * scale; of_Z 0;
   refWidth * scale; refHeight * scale;
   of_Z 0; refHeight * scale].

(** The [try] block of [completePrecisionCalibration], entered with four
    calibration points.  Reading the width of a missing reference object
    and the call into OpenCV.js are what can throw. *)
Definition computePerspective (c1 c2 : CalibrationPoint num)
  : Try State Eff :=
  fun s =>
    match referenceObject s with
    | None => inr (s, [])
    | Some reference =>
        let srcPoints := flatPoints (calibrationPoints s) in
        let refWidth := to_number (ref_width reference) in
        let refHeight := to_number (ref_height reference) in
        let scale := of_Z 10 in
        let dst := dstPoints refWidth refHeight scale in
        let calls :=
          [CvMatFromArray 4 1 srcPoints; CvMatFromArray 4 1 dst;
           CvGetPerspectiveTransform srcPoints dst] in
        match getPerspectiveTransform cv srcPoints dst with
        | None => inr (s, calls)
        | Some M =>
            let pixelDistance := euclid (c_x c1) (c_y c1) (c_x c2) (c_y c2) in
            inl (s <| perspectiveMatrix := Some M |>
                   <| calibrationData :=
                        Some {| pixelsPerMM := pixelDistance / refWidth;
                                cd_perspectiveMatrix := M;
                                cd_referenceObject := reference;
                                scale := scale;
                                correctedWidth := refWidth * scale;
                                correctedHeight := refHeight * scale |} |>
                   <| isCalibrated := true |>
                   <| isCalibrationMode := false |>
                   <| isMeasuring := false |>
                   <| calibrationPoints := [] |>,
                 calls ++
                 [CvDeleteTemporary; CvDeleteTemporary;
                  HideModal calibrationStatus;
                  ShowMessage "Precision calibration successful! Accuracy improved to +-2-5%"])
        end
    end.

Definition completePrecisionCalibration : Handler State Eff :=
  fun s =>
    match calibrationPoints s, isOpenCVReady s with
    | [c1; c2; _; _], true =>
        try_catch (computePerspective c1 c2)
          (emit (ShowError
             "Calibration failed. Please try again with clearer corner points.") ;;
           resetCalibration) s
    | _, _ => (s, [ShowError "Calibration incomplete or OpenCV not ready"])
    end.

Definition handleCalibrationClick (x y : num) : Handler State Eff :=
  modify (fun s =>
    s <| calibrationPoints :=
           calibrationPoints s ++
           [{| c_x := x; c_y := y; c_step := currentStep s |}] |>) ;;
  ifS (fun s => currentStep s <? 4)%nat
    (modify (fun s => s <| currentStep := S (currentStep s) |>))
    completePrecisionCalibration.

Definition resetMeasurementState : Handler State Eff :=
  modify (fun s => s <| measurementPoints := [] |> <| isMeasuring := false |>).

(** Entered with two measurement points; the call into OpenCV.js and
    reading the scale of missing calibration data are what can throw. *)
Definition calculateDistanceWithPerspectiveCorrection (now : Z)
  : Try State Eff :=
  fun s =>
    match measurementPoints s, perspectiveMatrix s with
    | p1 :: p2 :: _, Some M =>
        let srcPoints := [p_x p1; p_y p1; p_x p2; p_y p2] in
        let calls :=
          [CvMatFromArray 2 1 srcPoints; CvNewMat;
           CvPerspectiveTransform srcPoints M] in
        match perspectiveTransform cv srcPoints M, calibrationData s with
        | Some dst, Some data =>
            let correctedP1 := (data32F dst 0, data32F dst 1) in
            let correctedP2 := (data32F dst 2, data32F dst 3) in
            let correctedDistance :=
              euclid (fst correctedP1) (snd correctedP1)
                     (fst correctedP2) (snd correctedP2) in
            let distanceInMM := correctedDistance / scale data in
            let distanceInUnit := distanceInMM * unit_factor (currentUnit s) in
            let measurement :=
              {| m_id := now;
                 m_distance := distanceInMM;
                 m_displayDistance := distanceInUnit;
                 m_unit := currentUnit s;
                 m_timestamp := now;
                 m_points := measurementPoints s;
                 m_correctedPoints := Some [correctedP1; correctedP2];
                 m_mode := Some "precision";
                 m_accuracy := Some "high";
                 m_method := Some "perspective_correction";
                 m_calibrationFactor := None |} in
            let (s', e) :=
              resetMeasurementState
                (s <| measurements := measurements s ++ [measurement] |>) in
            inl (s',
                 calls ++
                 [DisplayDistance distanceInUnit (currentUnit s);
                  ShowModal resultsPanel] ++ e ++
                 [CvDeleteTemporary; CvDeleteTemporary])
        | _, _ => inr (s, calls)
        end
    | _, _ => inr (s, [])
    end.

Definition calculateBasicDistance (now : Z) : Try State Eff :=
  fun s =>
    match measurementPoints s, calibrationData s with
    | p1 :: p2 :: _, Some data =>
        let distanceInMM := pixelDistance p1 p2 / pixelsPerMM data in
        let distanceInUnit := distanceInMM * unit_factor (currentUnit s) in
        let measurement :=
          {| m_id := now;
             m_distance := distanceInMM;
             m_displayDistance := distanceInUnit;
             m_unit := currentUnit s;
             m_timestamp := now;
             m_points := measurementPoints s;
             m_correctedPoints := None;
             m_mode := Some "basic";
             m_accuracy := Some "medium";
             m_method := Some "triangle_similarity";
             m_calibrationFactor := None |} in
        let (s', e) :=
          resetMeasurementState
            (s <| measurements := measurements s ++ [measurement] |>) in
        inl (s',
             [DisplayDistance distanceInUnit (currentUnit s);
              ShowModal resultsPanel] ++ e)
    | _, _ => inr (s, [])
    end.

Definition calculatePreciseDistance (now : Z) : Handler State Eff :=
  fun s =>
    match measurementPoints s, isCalibrated s with
    | [_; _], true =>
        try_catch
          (match currentMode s, perspectiveMatrix s with
           | Some precision, Some _ =>
               calculateDistanceWithPerspectiveCorrection now
           | _, _ => calculateBasicDistance now
           end)
          (emit (ShowError "Distance calculation failed. Please try again.")) s
    | _, _ => (s, [])
    end.

Definition handleMeasurementClick (x y : num) (now : Z) : Handler State Eff :=
  modify (fun s =>
    s <| measurementPoints :=
           measurementPoints s ++
           [{| p_x := x; p_y := y; p_timestamp := now |}] |>) ;;
  when (fun s => List.length (measurementPoints s) =? 2)%nat
    (calculatePreciseDistance now).

(** A click on the canvas at the canvas coordinates [(x, y)].  Without a
    canvas the handler throws before it changes anything. *)
Definition handleCanvasClick (x y : num) (now : Z) : Handler State Eff :=
  fun s =>
    match isMeasuring s, canvas s with
    | true, Some _ =>
        if isCalibrationMode s then handleCalibrationClick x y s
        else handleMeasurementClick x y now s
    | _, _ => (s, [])
    end.

Definition startMeasuring : Handler State Eff :=
  modify (fun s => s <| isMeasuring := true |> <| measurementPoints := [] |>).

Definition stopMeasuring : Handler State Eff := resetMeasurementState.

Definition toggleMeasurement : Handler State Eff :=
  fun s =>
    if negb (isCalibrated s) then
      match currentMode s with
      | Some precision => emit (ShowModal precisionCalibrationModal) s
      | _ => showBasicCalibration s
      end
    else ifS isMeasuring stopMeasuring startMeasuring s.

Definition undoLastPoint : Handler State Eff :=
  when (fun s => 0 <? List.length (measurementPoints s))%nat
    (modify (fun s =>
       s <| measurementPoints := removelast (measurementPoints s) |>) ;;
     emit (ShowMessage "Last point removed")).

Definition clearMeasurements : Handler State Eff :=
  modify (fun s => s <| measurementPoints := [] |> <| measurements := [] |>) ;;
  resetMeasurementState ;;
  emit (HideModal resultsPanel) ;;
  emit (ShowMessage "All measurements cleared").

Definition exportEntry (m : Measurement num) : ExportEntry num :=
  {| e_id := m_id m;
     e_distance_mm := m_distance m;
     e_distance_display := m_displayDistance m;
     e_unit := m_unit m;
     e_timestamp := m_timestamp m;
     e_mode := m_mode m;
     e_accuracy := m_accuracy m;
     e_method := m_method m;
     e_points := None |}.

Definition exportMeasurements (now : Z) : Handler State Eff :=
  fun s =>
    if (List.length (measurements s) =? 0)%nat then
      (s, [ShowError "No measurements to export"])
    else
      let exportData :=
        {| appName := "Accurate Distance Measurement App";
           version := "2.0 (OpenCV Enhanced)";
           exportDate := now;
           export_isCalibrated := isCalibrated s;
           export_measurements := map exportEntry (measurements s);
           summary :=
             summarize (measurements s)
               (Some (option_map mode_name (currentMode s))) |} in
      (s, [Download "accurate-measurements" exportData;
           ShowMessage "Measurements exported successfully"]).

Definition startNewMeasurement : Handler State Eff :=
  modify (fun s => s <| measurementPoints := [] |>) ;;
  resetMeasurementState.

Definition showRecalibration : Handler State Eff :=
  fun s =>
    match currentMode s with
    | Some precision =>
        (resetCalibration ;; emit (ShowModal precisionCalibrationModal)) s
    | _ => showBasicCalibration s
    end.

Definition showSettings : Handler State Eff :=
  emit (ShowModal settingsModal).

(** What can happen to the application: the OpenCV.js callback and the
    listeners set up by [setupEventListeners] and [initializeCamera]. *)
Inductive Event : Type :=
| OpenCvReady
| UnitChange (u : Unit)
| ReferenceChange (key : string)
| SelectMode (mode : Mode) (cam : option (Canvas num))
| VideoMetadata (w h : num)
| StartPrecisionCalibration
| CanvasClick (x y : num) (now : Z)
| ToggleMeasurement
| ClearMeasurements
| UndoLastPoint
| ExportMeasurements (now : Z)
| StartNewMeasurement
| ShowRecalibration
| ShowSettings
| GoBack.

Definition handle (e : Event) : Handler State Eff :=
  match e with
  | OpenCvReady => onOpenCvReady
  | UnitChange u => modify (fun s => s <| currentUnit := u |>)
  | ReferenceChange key =>
      modify (fun s => s <| precisionReferenceSelect := Some key |>)
  | SelectMode mode cam => selectMode mode cam
  | VideoMetadata w h => setupCanvas w h
  | StartPrecisionCalibration => startPrecisionCalibration
  | CanvasClick x y now => handleCanvasClick x y now
  | ToggleMeasurement => toggleMeasurement
  | ClearMeasurements => clearMeasurements
  | UndoLastPoint => undoLastPoint
  | ExportMeasurements now => exportMeasurements now
  | StartNewMeasurement => startNewMeasurement
  | ShowRecalibration => showRecalibration
  | ShowSettings => showSettings
  | GoBack => goBack
  end.

End App.

Arguments State num Mat : clear implicits.
Arguments CalibrationData num Mat : clear implicits.
Arguments Event num : clear implicits.

End OpenCV.

(** ** The hybrid variant ([AccurateDistanceMeasurementApp], version 2.2) *)

Module Hybrid.

Inductive Mode : Type := precision | ar | basic.

Definition mode_name (m : Mode) : string :=
  match m with precision => "precision" | ar => "ar" | basic => "basic" end.

Section App.

Context {num : Type} `{JSNumber num}.

(** [this.cv] and its matrices, opaque to the application. *)
Context {Mat : Type}.
Variable cv : OpenCVjs num Mat.

Local Open Scope js_scope.

(** [this.calibrationData]: the union of the properties written by
    [completePrecisionCalibration] and by [completeBasicCalibration]; a
    property the object does not have is [None]. *)
Record CalibrationData : Type := {
  cd_calibrationFactor : option num;
  cd_perspectiveMatrix : option Mat;
  cd_referenceObject : ReferenceObject num;
  cd_scale : option num;
  cd_mode : string;
  cd_distanceCorrection : option num
}.

(** The fields of [this] that the handlers read and write, and the values
    of the select elements of the two calibration modals. *)
Record State : Type := {
  currentMode : option Mode;
  isCalibrated : bool;
  calibrationData : option CalibrationData;
  measurements : list (Measurement num);
  measurementPoints : list (Point num);
  calibrationPoints : list (CalibrationPoint num);
  currentUnit : Unit;
  isMeasuring : bool;
  isCalibrationMode : bool;
  referenceObject : option (ReferenceObject num);
  currentStep : nat;
  isOpenCVReady : bool;
  openCVFailed : bool;
  perspectiveMatrix : option Mat;
  canvas : option (Canvas num);
  precisionReferenceSelect : option string;
  basicReferenceSelect : option string
}.

#[global] Instance set_currentMode : Setter currentMode := fun f s =>
  {| currentMode := f (currentMode s); isCalibrated := isCalibrated s;
     calibrationData := calibrationData s; measurements := measurements s;
     measurementPoints := measurementPoints s;
     calibrationPoints := calibrationPoints s; currentUnit := currentUnit s;
     isMeasuring := isMeasuring s; isCalibrationMode := isCalibrationMode s;
     referenceObject := referenceObject s; currentStep := currentStep s;
     isOpenCVReady := isOpenCVReady s; openCVFailed := openCVFailed s;
     perspectiveMatrix := perspectiveMatrix s; canvas := canvas s;
     precisionReferenceSelect := precisionReferenceSelect s;
     basicReferenceSelect := basicReferenceSelect s |}.

#[global] Instance set_isCalibrated : Setter isCalibrated := fun f s =>
  {| currentMode := currentMode s; isCalibrated := f (isCalibrated s);
     calibrationData := calibrationData s; measurements := measurements s;
     measurementPoints := measurementPoints s;
     calibrationPoints := calibrationPoints s; currentUnit := currentUnit s;
     isMeasuring := isMeasuring s; isCalibrationMode := isCalibrationMode s;
     referenceObject := referenceObject s; currentStep := currentStep s;
     isOpenCVReady := isOpenCVReady s; openCVFailed := openCVFailed s;
     perspectiveMatrix := perspectiveMatrix s; canvas := canvas s;
     precisionReferenceSelect := precisionReferenceSelect s;
     basicReferenceSelect := basicReferenceSelect s |}.

#[global] Instance set_calibrationData : Setter calibrationData := fun f s =>
  {| currentMode := currentMode s; isCalibrated := isCalibrated s;
     calibrationData := f (calibrationData s);
     measurements := measurements s;
     measurementPoints := measurementPoints s;
     calibrationPoints := calibrationPoints s; currentUnit := currentUnit s;
     isMeasuring := isMeasuring s; isCalibrationMode := isCalibrationMode s;
     referenceObject := referenceObject s; currentStep := currentStep s;
     isOpenCVReady := isOpenCVReady s; openCVFailed := openCVFailed s;
     perspectiveMatrix := perspectiveMatrix s; canvas := canvas s;
     precisionReferenceSelect := precisionReferenceSelect s;
     basicReferenceSelect := basicReferenceSelect s |}.

#[global] Instance set_measurements : Setter measurements := fun f s =>
  {| currentMode := currentMode s; isCalibrated := isCalibrated s;
     calibrationData := calibrationData s;
     measurements := f (measurements s);
     measurementPoints := measurementPoints s;
     calibrationPoints := calibrationPoints s; currentUnit := currentUnit s;
     isMeasuring := isMeasuring s; isCalibrationMode := isCalibrationMode s;
     referenceObject := referenceObject s; currentStep := currentStep s;
     isOpenCVReady := isOpenCVReady s; openCVFailed := openCVFailed s;
     perspectiveMatrix := perspectiveMatrix s; canvas := canvas s;
     precisionReferenceSelect := precisionReferenceSelect s;
     basicReferenceSelect := basicReferenceSelect s |}.

#[global] Instance set_measurementPoints : Setter measurementPoints := fun f s =>
  {| currentMode := currentMode s; isCalibrated := isCalibrated s;
     calibrationData := calibrationData s; measurements := measurements s;
     measurementPoints := f (measurementPoints s);
     calibrationPoints := calibrationPoints s; currentUnit := currentUnit s;
     isMeasuring := isMeasuring s; isCalibrationMode := isCalibrationMode s;
     referenceObject := referenceObject s; currentStep := currentStep s;
     isOpenCVReady := isOpenCVReady s; openCVFailed := openCVFailed s;
     perspectiveMatrix := perspectiveMatrix s; canvas := canvas s;
     precisionReferenceSelect := precisionReferenceSelect s;
     basicReferenceSelect := basicReferenceSelect s |}.

#[global] Instance set_calibrationPoints : Setter calibrationPoints := fun f s =>
  {| currentMode := currentMode s; isCalibrated := isCalibrated s;
     calibrationData := calibrationData s; measurements := measurements s;
     measurementPoints := measurementPoints s;
     calibrationPoints := f (calibrationPoints s);
     currentUnit := currentUnit s; isMeasuring := isMeasuring s;
     isCalibrationMode := isCalibrationMode s;
     referenceObject := referenceObject s; currentStep := currentStep s;
     isOpenCVReady := isOpenCVReady s; openCVFailed := openCVFailed s;
     perspectiveMatrix := perspectiveMatrix s; canvas := canvas s;
     precisionReferenceSelect := precisionReferenceSelect s;
     basicReferenceSelect := basicReferenceSelect s |}.

#[global] Instance set_currentUnit : Setter currentUnit := fun f s =>
  {| currentMode := currentMode s; isCalibrated := isCalibrated s;
     calibrationData := calibrationData s; measurements := measurements s;
     measurementPoints := measurementPoints s;
     calibrationPoints := calibrationPoints s;
     currentUnit := f (currentUnit s); isMeasuring := isMeasuring s;
     isCalibrationMode := isCalibrationMode s;
     referenceObject := referenceObject s; currentStep := currentStep s;
     isOpenCVReady := isOpenCVReady s; openCVFailed := openCVFailed s;
     perspectiveMatrix := perspectiveMatrix s; canvas := canvas s;
     precisionReferenceSelect := precisionReferenceSelect s;
     basicReferenceSelect := basicReferenceSelect s |}.

#[global] Instance set_isMeasuring : Setter isMeasuring := fun f s =>
  {| currentMode := currentMode s; isCalibrated := isCalibrated s;
     calibrationData := calibrationData s; measurements := measurements s;
     measurementPoints := measurementPoints s;
     calibrationPoints := calibrationPoints s; currentUnit := currentUnit s;
     isMeasuring := f (isMeasuring s);
     isCalibrationMode := isCalibrationMode s;
     referenceObject := referenceObject s; currentStep := currentStep s;
     isOpenCVReady := isOpenCVReady s; openCVFailed := openCVFailed s;
     perspectiveMatrix := perspectiveMatrix s; canvas := canvas s;
     precisionReferenceSelect := precisionReferenceSelect s;
     basicReferenceSelect := basicReferenceSelect s |}.

#[global] Instance set_isCalibrationMode : Setter isCalibrationMode := fun f s =>
  {| currentMode := currentMode s; isCalibrated := isCalibrated s;
     calibrationData := calibrationData s; measurements := measurements s;
     measurementPoints := measurementPoints s;
     calibrationPoints := calibrationPoints s; currentUnit := currentUnit s;
     isMeasuring := isMeasuring s;
     isCalibrationMode := f (isCalibrationMode s);
     referenceObject := referenceObject s; currentStep := currentStep s;
     isOpenCVReady := isOpenCVReady s; openCVFailed := openCVFailed s;
     perspectiveMatrix := perspectiveMatrix s; canvas := canvas s;
     precisionReferenceSelect := precisionReferenceSelect s;
     basicReferenceSelect := basicReferenceSelect s |}.

#[global] Instance set_referenceObject : Setter referenceObject := fun f s =>
  {| currentMode := currentMode s; isCalibrated := isCalibrated s;
     calibrationData := calibrationData s; measurements := measurements s;
     measurementPoints := measurementPoints s;
     calibrationPoints := calibrationPoints s; currentUnit := currentUnit s;
     isMeasuring := isMeasuring s; isCalibrationMode := isCalibrationMode s;
     referenceObject := f (referenceObject s); currentStep := currentStep s;
     isOpenCVReady := isOpenCVReady s; openCVFailed := openCVFailed s;
     perspectiveMatrix := perspectiveMatrix s; canvas := canvas s;
     precisionReferenceSelect := precisionReferenceSelect s;
     basicReferenceSelect := basicReferenceSelect s |}.

#[global] Instance set_currentStep : Setter currentStep := fun f s =>
  {| currentMode := currentMode s; isCalibrated := isCalibrated s;
     calibrationData := calibrationData s; measurements := measurements s;
     measurementPoints := measurementPoints s;
     calibrationPoints := calibrationPoints s; currentUnit := currentUnit s;
     isMeasuring := isMeasuring s; isCalibrationMode := isCalibrationMode s;
     referenceObject := referenceObject s; currentStep := f (currentStep s);
     isOpenCVReady := isOpenCVReady s; openCVFailed := openCVFailed s;
     perspectiveMatrix := perspectiveMatrix s; canvas := canvas s;
     precisionReferenceSelect := precisionReferenceSelect s;
     basicReferenceSelect := basicReferenceSelect s |}.

#[global] Instance set_isOpenCVReady : Setter isOpenCVReady := fun f s =>
  {| currentMode := currentMode s; isCalibrated := isCalibrated s;
     calibrationData := calibrationData s; measurements := measurements s;
     measurementPoints := measurementPoints s;
     calibrationPoints := calibrationPoints s; currentUnit := currentUnit s;
     isMeasuring := isMeasuring s; isCalibrationMode := isCalibrationMode s;
     referenceObject := referenceObject s; currentStep := currentStep s;
     isOpenCVReady := f (isOpenCVReady s); openCVFailed := openCVFailed s;
     perspectiveMatrix := perspectiveMatrix s; canvas := canvas s;
     precisionReferenceSelect := precisionReferenceSelect s;
     basicReferenceSelect := basicReferenceSelect s |}.

#[global] Instance set_openCVFailed : Setter openCVFailed := fun f s =>
  {| currentMode := currentMode s; isCalibrated := isCalibrated s;
     calibrationData := calibrationData s; measurements := measurements s;
     measurementPoints := measurementPoints s;
     calibrationPoints := calibrationPoints s; currentUnit := currentUnit s;
     isMeasuring := isMeasuring s; isCalibrationMode := isCalibrationMode s;
     referenceObject := referenceObject s; currentStep := currentStep s;
     isOpenCVReady := isOpenCVReady s; openCVFailed := f (openCVFailed s);
     perspectiveMatrix := perspectiveMatrix s; canvas := canvas s;
     precisionReferenceSelect := precisionReferenceSelect s;
     basicReferenceSelect := basicReferenceSelect s |}.

#[global] Instance set_perspectiveMatrix : Setter perspectiveMatrix := fun f s =>
  {| currentMode := currentMode s; isCalibrated := isCalibrated s;
     calibrationData := calibrationData s; measurements := measurements s;
     measurementPoints := measurementPoints s;
     calibrationPoints := calibrationPoints s; currentUnit := currentUnit s;
     isMeasuring := isMeasuring s; isCalibrationMode := isCalibrationMode s;
     referenceObject := referenceObject s; currentStep := currentStep s;
     isOpenCVReady := isOpenCVReady s; openCVFailed := openCVFailed s;
     perspectiveMatrix := f (perspectiveMatrix s); canvas := canvas s;
     precisionReferenceSelect := precisionReferenceSelect s;
     basicReferenceSelect := basicReferenceSelect s |}.

#[global] Instance set_canvas : Setter canvas := fun f s =>
  {| currentMode := currentMode s; isCalibrated := isCalibrated s;
     calibrationData := calibrationData s; measurements := measurements s;
     measurementPoints := measurementPoints s;
     calibrationPoints := calibrationPoints s; currentUnit := currentUnit s;
     isMeasuring := isMeasuring s; isCalibrationMode := isCalibrationMode s;
     referenceObject := referenceObject s; currentStep := currentStep s;
     isOpenCVReady := isOpenCVReady s; openCVFailed := openCVFailed s;
     perspectiveMatrix := perspectiveMatrix s; canvas := f (canvas s);
     precisionReferenceSelect := precisionReferenceSelect s;
     basicReferenceSelect := basicReferenceSelect s |}.

#[global] Instance set_precisionReferenceSelect : Setter precisionReferenceSelect := fun f s =>
  {| currentMode := currentMode s; isCalibrated := isCalibrated s;
     calibrationData := calibrationData s; measurements := measurements s;
     measurementPoints := measurementPoints s;
     calibrationPoints := calibrationPoints s; currentUnit := currentUnit s;
     isMeasuring := isMeasuring s; isCalibrationMode := isCalibrationMode s;
     referenceObject := referenceObject s; currentStep := currentStep s;
     isOpenCVReady := isOpenCVReady s; openCVFailed := openCVFailed s;
     perspectiveMatrix := perspectiveMatrix s; canvas := canvas s;
     precisionReferenceSelect := f (precisionReferenceSelect s);
     basicReferenceSelect := basicReferenceSelect s |}.

#[global] Instance set_basicReferenceSelect : Setter basicReferenceSelect := fun f s =>
  {| currentMode := currentMode s; isCalibrated := isCalibrated s;
     calibrationData := calibrationData s; measurements := measurements s;
     measurementPoints := measurementPoints s;
     calibrationPoints := calibrationPoints s; currentUnit := currentUnit s;
     isMeasuring := isMeasuring s; isCalibrationMode := isCalibrationMode s;
     referenceObject := referenceObject s; currentStep := currentStep s;
     isOpenCVReady := isOpenCVReady s; openCVFailed := openCVFailed s;
     perspectiveMatrix := perspectiveMatrix s; canvas := canvas s;
     precisionReferenceSelect := precisionReferenceSelect s;
     basicReferenceSelect := f (basicReferenceSelect s) |}.

Definition Eff : Type := Effect num Mat.

(** The state the constructor leaves. *)
Definition constructor : State :=
  {| currentMode := None; isCalibrated := false; calibrationData := None;
     measurements := []; measurementPoints := []; calibrationPoints := [];
     currentUnit := U_m; isMeasuring := false; isCalibrationMode := false;
     referenceObject := None; currentStep := 0; isOpenCVReady := false;
     openCVFailed := false; perspectiveMatrix := None; canvas := None;
     precisionReferenceSelect := None; basicReferenceSelect := None |}.

(** [this.referenceObjects[key]] *)
Definition referenceObjects (key : string) : option (ReferenceObject num) :=
  if String.eqb key "credit_card" then
    Some (rectangle "Credit Card" (decimal 856 10) (decimal 5398 100))
  else if String.eqb key "business_card" then
    Some (rectangle "Business Card" (of_Z 89) (of_Z 51))
  else if String.eqb key "a4_paper" then
    Some (rectangle "A4 Paper" (of_Z 210) (of_Z 297))
  else if String.eqb key "letter_paper" then
    Some (rectangle "US Letter" (of_Z 216) (of_Z 279))
  else if String.eqb key "post_it" then
    Some (rectangle "Post-it Note" (of_Z 76) (of_Z 76))
  else if String.eqb key "quarter" then
    Some (disc "US Quarter" (decimal 2426 100))
  else None.

Definition onOpenCVReady : Handler State Eff :=
  modify (fun s => s <| isOpenCVReady := true |>).

Definition onOpenCVFailed : Handler State Eff :=
  modify (fun s => s <| openCVFailed := true |>).

(** The timer of [startLoadingSequence]. *)
Definition loadingTimeout : Handler State Eff :=
  when (fun s => negb (isOpenCVReady s) && negb (openCVFailed s))
    onOpenCVFailed.

Definition resetMeasurementState : Handler State Eff :=
  modify (fun s => s <| measurementPoints := [] |> <| isMeasuring := false |>).

Definition deletePerspectiveMatrix : Handler State Eff :=
  fun s =>
    match perspectiveMatrix s with
    | Some M => (s <| perspectiveMatrix := None |>, [CvDeleteMatrix M])
    | None => (s, [])
    end.

Definition resetCalibration : Handler State Eff :=
  modify (fun s => s <| isCalibrated := false |>
                     <| calibrationData := None |>
                     <| calibrationPoints := [] |>) ;;
  deletePerspectiveMatrix ;;
  modify (fun s => s <| currentStep := 0 |>) ;;
  emit (HideModal calibrationStatus).

Definition goBack : Handler State Eff :=
  deletePerspectiveMatrix ;;
  resetCalibration ;;
  modify (fun s => s <| currentMode := None |>
                     <| isMeasuring := false |>
                     <| measurementPoints := [] |>) ;;
  emit (HideModal precisionCalibrationModal) ;;
  emit (HideModal basicCalibrationModal) ;;
  emit (HideModal resultsPanel).

(** [cam] is the outcome of opening the camera: the canvas element when the
    stream was obtained, [None] when [getUserMedia] was rejected. *)
Definition initializeCamera (cam : option (Canvas num)) : Handler State Eff :=
  match cam with
  | Some c => modify (fun s => s <| canvas := Some c |>)
  | None =>
      emit (ShowError
        "Failed to access camera. Please check permissions and try again.")
  end.

Definition initializePrecisionMode (cam : option (Canvas num))
  : Handler State Eff :=
  initializeCamera cam ;; emit (ShowModal precisionCalibrationModal).

Definition initializeBasicMode (cam : option (Canvas num))
  : Handler State Eff :=
  initializeCamera cam ;; emit (ShowModal basicCalibrationModal).

Definition selectMode (mode : Mode) (cam : option (Canvas num))
  : Handler State Eff :=
  modify (fun s => s <| currentMode := Some mode |>) ;;
  match mode with
  | precision =>
      ifS (fun s => negb (isOpenCVReady s))
        (emit (ShowMessage
           "OpenCV.js not available. Using enhanced basic mode instead.") ;;
         initializeBasicMode cam)
        (initializePrecisionMode cam)
  | ar =>
      emit (ShowMessage "AR mode in development. Using best available mode.") ;;
      initializeBasicMode cam
  | basic => initializeBasicMode cam
  end.

(** [loadedmetadata]: the canvas takes the size of the video. *)
Definition setupCanvas (w h : num) : Handler State Eff :=
  modify (fun s =>
    match canvas s with
    | Some _ => s <| canvas := Some {| canvas_width := w; canvas_height := h |} |>
    | None => s
    end).

Definition startPrecisionCalibration : Handler State Eff :=
  emit (HideModal precisionCalibrationModal) ;;
  modify (fun s =>
    s <| referenceObject :=
           referenceObjects (referenceKey (precisionReferenceSelect s)) |>
      <| calibrationPoints := [] |>
      <| isCalibrationMode := true |>
      <| isMeasuring := true |>
      <| currentStep := 1 |>) ;;
  emit (ShowModal calibrationStatus).

Definition startBasicCalibration : Handler State Eff :=
  emit (HideModal basicCalibrationModal) ;;
  modify (fun s =>
    s <| referenceObject :=
           referenceObjects (referenceKey (basicReferenceSelect s)) |>
      <| calibrationPoints := [] |>
      <| isCalibrationMode := true |>
      <| isMeasuring := true |>).

Definition completeCalibration : Handler State Eff :=
  modify (fun s => s <| isCalibrated := true |>
                     <| isCalibrationMode := false |>
                     <| isMeasuring := false |>
                     <| calibrationPoints := [] |>) ;;
  emit (HideModal calibrationStatus) ;;
  emit (ShowMessage "Calibration successful!").

(** [avgDistance / canvasCenter] of [completeBasicCalibration] *)
Definition distanceRatio (cnv : Canvas num) (p1 p2 : CalibrationPoint num)
  : num :=
  let avgDistance :=
    Math_sqrt (c_x p1 * c_x p1 + c_y p1 * c_y p1
               + c_x p2 * c_x p2 + c_y p2 * c_y p2) / of_Z 2 in
  let canvasCenter :=
    Math_sqrt (canvas_width cnv * canvas_width cnv
               + canvas_height cnv * canvas_height cnv) / of_Z 2 in
  avgDistance / canvasCenter.

(** The factor [completeBasicCalibration] multiplies the scale with. *)
Definition perspectiveFactor (cnv : Canvas num)
  (p1 p2 : CalibrationPoint num) : num :=
  of_Z 1 + distanceRatio cnv p1 p2 * decimal 1 10.

(** Without two points, a reference object or a canvas the function throws
    before it changes anything, and nothing catches the exception. *)
Definition completeBasicCalibration : Handler State Eff :=
  fun s =>
    match calibrationPoints s, referenceObject s, canvas s with
    | p1 :: p2 :: _, Some reference, Some cnv =>
        let pixelDistance := euclid (c_x p1) (c_y p1) (c_x p2) (c_y p2) in
        let realSize := or_else (ref_width reference) (ref_diameter reference) in
        let calibrationFactor := to_number realSize / pixelDistance in
        let calibrationFactor := calibrationFactor * perspectiveFactor cnv p1 p2 in
        completeCalibration
          (s <| calibrationData :=
                  Some {| cd_calibrationFactor := Some calibrationFactor;
                          cd_perspectiveMatrix := None;
                          cd_referenceObject := reference;
                          cd_scale := None;
                          cd_mode := "enhanced_basic";
                          cd_distanceCorrection :=
                            Some (distanceRatio cnv p1 p2) |} |>)
    | _, _, _ => (s, [])
    end.

(** [points.map(p => [p.x, p.y]).flat()] *)
Definition flatPoints (points : list (CalibrationPoint num)) : list num :=
  flat_map (fun p => [c_x p; c_y p]) points.

(** The destination rectangle of the transform, flattened. *)
Definition dstPoints (refWidth refHeight scale : num) : list num :=
  [of_Z 0; of_Z 0;
   refWidth * scale; of_Z 0;
   refWidth * scale; refHeight * scale;
   of_Z 0; refHeight * scale].

(** The [try] block of [completePrecisionCalibration]. *)
Definition computePerspective : Try State Eff :=
  fun s =>
    match referenceObject s with
    | None => inr (s, [])
    | Some reference =>
        let srcPoints := flatPoints (calibrationPoints s) in
        let refWidth := to_number (ref_width reference) in
        let refHeight := to_number (ref_height reference) in
        let scale := of_Z 10 in
        let dst := dstPoints refWidth refHeight scale in
        let calls :=
          [CvMatFromArray 4 1 srcPoints; CvMatFromArray 4 1 dst;
           CvGetPerspectiveTransform srcPoints dst] in
        match getPerspectiveTransform cv srcPoints dst with
        | None => inr (s, calls)
        | Some M =>
            let (s', e) :=
              completeCalibration
                (s <| perspectiveMatrix := Some M |>
                   <| calibrationData :=
                        Some {| cd_calibrationFactor := None;
                                cd_perspectiveMatrix := Some M;
                                cd_referenceObject := reference;
                                cd_scale := Some scale;
                                cd_mode := "precision";
                                cd_distanceCorrection := None |} |>) in
            inl (s', calls ++ [CvDeleteTemporary; CvDeleteTemporary] ++ e)
        end
    end.

Definition completePrecisionCalibration : Handler State Eff :=
  fun s =>
    if negb (List.length (calibrationPoints s) =? 4)%nat
       || negb (isOpenCVReady s)
    then (s, [ShowError "Precision calibration requires 4 corners and OpenCV"])
    else
      try_catch computePerspective
        (emit (ShowError
           "Precision calibration failed. Using enhanced basic mode.") ;;
         completeBasicCalibration) s.

Definition handlePrecisionCalibrationClick : Handler State Eff :=
  ifS (fun s => currentStep s <? 4)%nat
    (modify (fun s => s <| currentStep := S (currentStep s) |>))
    completePrecisionCalibration.

Definition handleBasicCalibrationClick : Handler State Eff :=
  when (fun s => List.length (calibrationPoints s) =? 2)%nat
    completeBasicCalibration.

Definition handleCalibrationClick (x y : num) : Handler State Eff :=
  modify (fun s =>
    s <| calibrationPoints :=
           calibrationPoints s ++
           [{| c_x := x; c_y := y; c_step := currentStep s |}] |>) ;;
  (fun s =>
     match currentMode s, isOpenCVReady s with
     | Some precision, true => handlePrecisionCalibrationClick s
     | _, _ => handleBasicCalibrationClick s
     end).

Definition storeMeasurement (now : Z) (distanceInMM distanceInUnit : num)
  (mode accuracy : string) : Handler State Eff :=
  fun s =>
    let measurement :=
      {| m_id := now;
         m_distance := distanceInMM;
         m_displayDistance := distanceInUnit;
         m_unit := currentUnit s;
         m_timestamp := now;
         m_points := measurementPoints s;
         m_correctedPoints := None;
         m_mode := Some mode;
         m_accuracy := Some accuracy;
         m_method := None;
         m_calibrationFactor := None |} in
    (modify (fun s => s <| measurements := measurements s ++ [measurement] |>) ;;
     emit (DisplayDistance distanceInUnit (currentUnit s)) ;;
     emit (ShowModal resultsPanel) ;;
     resetMeasurementState) s.

(** Entered with two measurement points and a matrix; the call into
    OpenCV.js and reading the scale of missing calibration data are what can
    throw. *)
Definition calculatePreciseDistance (now : Z) : Try State Eff :=
  fun s =>
    match measurementPoints s, perspectiveMatrix s with
    | p1 :: p2 :: _, Some M =>
        let srcPoints := [p_x p1; p_y p1; p_x p2; p_y p2] in
        let calls :=
          [CvMatFromArray 2 1 srcPoints; CvNewMat;
           CvPerspectiveTransform srcPoints M] in
        match perspectiveTransform cv srcPoints M, calibrationData s with
        | Some dst, Some data =>
            let correctedP1 := (data32F dst 0, data32F dst 1) in
            let correctedP2 := (data32F dst 2, data32F dst 3) in
            let correctedDistance :=
              euclid (fst correctedP1) (snd correctedP1)
                     (fst correctedP2) (snd correctedP2) in
            let distanceInMM := correctedDistance / to_number (cd_scale data) in
            let distanceInUnit := distanceInMM * unit_factor (currentUnit s) in
            let (s', e) :=
              storeMeasurement now distanceInMM distanceInUnit
                "precision" "high" s in
            inl (s', calls ++ e ++ [CvDeleteTemporary; CvDeleteTemporary])
        | _, _ => inr (s, calls)
        end
    | _, _ => inr (s, [])
    end.

(** [1 + (distanceFromCenter / maxDistance) * 0.15] of
    [calculateEnhancedBasicDistance] *)
Definition correction (cnv : Canvas num) (p1 p2 : Point num) : num :=
  let centerX := canvas_width cnv / of_Z 2 in
  let centerY := canvas_height cnv / of_Z 2 in
  let avgX := (p_x p1 + p_x p2) / of_Z 2 in
  let avgY := (p_y p1 + p_y p2) / of_Z 2 in
  let distanceFromCenter :=
    Math_sqrt (Math_pow2 (avgX - centerX) + Math_pow2 (avgY - centerY)) in
  let maxDistance := Math_sqrt (centerX * centerX + centerY * centerY) in
  of_Z 1 + (distanceFromCenter / maxDistance) * decimal 15 100.

(** Whether [calculateEnhancedBasicDistance] applies the correction. *)
Definition corrects (data : CalibrationData) : bool :=
  match cd_distanceCorrection data with
  | Some r => truthy r
  | None => false
  end.

(** Reading the size of a missing canvas is what can throw. *)
Definition calculateEnhancedBasicDistance (now : Z) : Try State Eff :=
  fun s =>
    match measurementPoints s, calibrationData s with
    | p1 :: p2 :: _, Some data =>
        let distanceInMM :=
          pixelDistance p1 p2 * to_number (cd_calibrationFactor data) in
        if corrects data then
          match canvas s with
          | Some cnv =>
              let distanceInMM := distanceInMM * correction cnv p1 p2 in
              let distanceInUnit :=
                distanceInMM * unit_factor (currentUnit s) in
              inl (storeMeasurement now distanceInMM distanceInUnit
                     "enhanced_basic" "medium" s)
          | None => inr (s, [])
          end
        else
          let distanceInUnit := distanceInMM * unit_factor (currentUnit s) in
          inl (storeMeasurement now distanceInMM distanceInUnit
                 "enhanced_basic" "medium" s)
    | _, _ => inr (s, [])
    end.

Definition calculateDistance (now : Z) : Handler State Eff :=
  fun s =>
    if negb (List.length (measurementPoints s) =? 2)%nat
       || negb (isCalibrated s)
    then (s, [])
    else
      try_catch
        (fun s =>
           match calibrationData s with
           | None => inr (s, [])
           | Some data =>
               match String.eqb (cd_mode data) "precision",
                     perspectiveMatrix s with
               | true, Some _ => calculatePreciseDistance now s
               | _, _ => calculateEnhancedBasicDistance now s
               end
           end)
        (emit (ShowError "Distance calculation failed. Please try again.")) s.

Definition handleMeasurementClick (x y : num) (now : Z) : Handler State Eff :=
  modify (fun s =>
    s <| measurementPoints :=
           measurementPoints s ++
           [{| p_x := x; p_y := y; p_timestamp := now |}] |>) ;;
  when (fun s => List.length (measurementPoints s) =? 2)%nat
    (calculateDistance now).

(** A click on the canvas at the canvas coordinates [(x, y)].  Without a
    canvas the handler throws before it changes anything. *)
Definition handleCanvasClick (x y : num) (now : Z) : Handler State Eff :=
  fun s =>
    match isMeasuring s, canvas s with
    | true, Some _ =>
        if isCalibrationMode s then handleCalibrationClick x y s
        else handleMeasurementClick x y now s
    | _, _ => (s, [])
    end.

Definition startMeasuring : Handler State Eff :=
  modify (fun s => s <| isMeasuring := true |> <| measurementPoints := [] |>).

Definition stopMeasuring : Handler State Eff := resetMeasurementState.

Definition toggleMeasurement : Handler State Eff :=
  fun s =>
    if negb (isCalibrated s) then
      match currentMode s, isOpenCVReady s with
      | Some precision, true => emit (ShowModal precisionCalibrationModal) s
      | _, _ => emit (ShowModal basicCalibrationModal) s
      end
    else ifS isMeasuring stopMeasuring startMeasuring s.

Definition undoLastPoint : Handler State Eff :=
  when (fun s => 0 <? List.length (measurementPoints s))%nat
    (modify (fun s =>
       s <| measurementPoints := removelast (measurementPoints s) |>) ;;
     emit (ShowMessage "Last point removed")).

Definition clearMeasurements : Handler State Eff :=
  modify (fun s => s <| measurementPoints := [] |> <| measurements := [] |>) ;;
  resetMeasurementState ;;
  emit (HideModal resultsPanel) ;;
  emit (ShowMessage "All measurements cleared").

Definition exportEntry (m : Measurement num) : ExportEntry num :=
  {| e_id := m_id m;
     e_distance_mm := m_distance m;
     e_distance_display := m_displayDistance m;
     e_unit := m_unit m;
     e_timestamp := m_timestamp m;
     e_mode := m_mode m;
     e_accuracy := m_accuracy m;
     e_method := None;
     e_points := None |}.

Definition exportMeasurements (now : Z) : Handler State Eff :=
  fun s =>
    if (List.length (measurements s) =? 0)%nat then
      (s, [ShowError "No measurements to export"])
    else
      let exportData :=
        {| appName := "Enhanced Distance Measurement App";
           version := "2.2 (Fixed)";
           exportDate := now;
           export_isCalibrated := isCalibrated s;
           export_measurements := map exportEntry (measurements s);
           summary := summarize (measurements s) None |} in
      (s, [Download "enhanced-measurements" exportData;
           ShowMessage "Measurements exported successfully"]).

Definition startNewMeasurement : Handler State Eff :=
  modify (fun s => s <| measurementPoints := [] |>) ;;
  resetMeasurementState.

Definition showRecalibration : Handler State Eff :=
  fun s =>
    match currentMode s, isOpenCVReady s with
    | Some precision, true =>
        (resetCalibration ;; emit (ShowModal precisionCalibrationModal)) s
    | _, _ => (resetCalibration ;; emit (ShowModal basicCalibrationModal)) s
    end.

(** What can happen to the application: the two OpenCV.js callbacks, the
    loading timer, and the listeners set up by [setupEventListeners] and
    [initializeCamera]. *)
Inductive Event : Type :=
| OpenCVReady
| OpenCVFailed
| LoadingTimeout
| UnitChange (u : Unit)
| PrecisionReferenceChange (key : string)
| BasicReferenceChange (key : string)
| SelectMode (mode : Mode) (cam : option (Canvas num))
| VideoMetadata (w h : num)
| StartPrecisionCalibration
| StartBasicCalibration
| CanvasClick (x y : num) (now : Z)
| ToggleMeasurement
| ClearMeasurements
| UndoLastPoint
| ExportMeasurements (now : Z)
| StartNewMeasurement
| ShowRecalibration
| GoBack.

Definition handle (e : Event) : Handler State Eff :=
  match e with
  | OpenCVReady => onOpenCVReady
  | OpenCVFailed => onOpenCVFailed
  | LoadingTimeout => loadingTimeout
  | UnitChange u => modify (fun s => s <| currentUnit := u |>)
  | PrecisionReferenceChange key =>
      modify (fun s => s <| precisionReferenceSelect := Some key |>)
  | BasicReferenceChange key =>
      modify (fun s => s <| basicReferenceSelect := Some key |>)
  | SelectMode mode cam => selectMode mode cam
  | VideoMetadata w h => setupCanvas w h
  | StartPrecisionCalibration => startPrecisionCalibration
  | StartBasicCalibration => startBasicCalibration
  | CanvasClick x y now => handleCanvasClick x y now
  | ToggleMeasurement => toggleMeasurement
  | ClearMeasurements => clearMeasurements
  | UndoLastPoint => undoLastPoint
  | ExportMeasurements now => exportMeasurements now
  | StartNewMeasurement => startNewMeasurement
  | ShowRecalibration => showRecalibration
  | GoBack => goBack
  end.

End App.

Arguments State num Mat : clear implicits.
Arguments CalibrationData num Mat : clear implicits.
Arguments Event num : clear implicits.

End Hybrid.

(** ** Vocabulary of the properties *)

Section Vocabulary.

Context {num : Type} `{JSNumber num}.
Local Open Scope js_scope.


(** A measurement taken between two points with a linear scale factor. *)
Definition measuredWith (factor : num) (m : Measurement num) : Prop :=
  exists q1 q2, m_points m = [q1; q2] /\
                m_distance m = pixelDistance q1 q2 * factor.




(** The calls into OpenCV.js that compute a transform or apply one. *)
Definition transformCalls {Mat : Type} (es : list (Effect num Mat))
  : list (Effect num Mat) :=
  filter (fun e => match e with
                   | CvGetPerspectiveTransform _ _
                   | CvPerspectiveTransform _ _ => true
                   | _ => false
                   end) es.

(** No effect of the list is a call into OpenCV.js. *)
Definition noCvCall {Mat : Type} (es : list (Effect num Mat)) : Prop :=
  existsb is_cv_call es = false.

(** The flattened corner list handed to [cv.getPerspectiveTransform]. *)
Definition corners (c1 c2 c3 c4 : CalibrationPoint num) : list num :=
  [c_x c1; c_y c1; c_x c2; c_y c2; c_x c3; c_y c3; c_x c4; c_y c4].

(** The rectangle (0,0), (W*10,0), (W*10,H*10), (0,H*10), flattened. *)
Definition rectangle10 (W Ht : num) : list num :=
  [of_Z 0; of_Z 0; W * of_Z 10; of_Z 0;
   W * of_Z 10; Ht * of_Z 10; of_Z 0; Ht * of_Z 10].

(** A camera canvas of 1920 by 1080 pixels. *)
Definition fullHD : Canvas num :=
  {| canvas_width := of_Z 1920; canvas_height := of_Z 1080 |}.

(** A stand-in for OpenCV.js on which the handlers can be run: the matrix
    records the two corner lists, and applying it doubles coordinates. *)
Definition doublingCv : OpenCVjs num (list num * list num) :=
  {| getPerspectiveTransform := fun src dst => Some (src, dst);
     perspectiveTransform := fun pts _ =>
       Some (map (fun c => c * of_Z 2) pts) |}.

(** A stand-in for OpenCV.js that delivers the matrix and throws when the
    matrix is applied. *)
Definition lostTransformCv : OpenCVjs num (list num * list num) :=
  {| getPerspectiveTransform := fun src dst => Some (src, dst);
     perspectiveTransform := fun _ _ => None |}.

End Vocabulary.

Definition linearStartsCalibration {num : Type} (e : Linear.Event num) : bool :=
  match e with Linear.StartCalibration => true | _ => false end.

(** The states the OpenCV variant can be in: what the constructor leaves,
    and what the handlers make of a state the variant can be in. *)
Inductive opencvReachable {num : Type} `{JSNumber num} {Mat : Type}
  (cv : OpenCVjs num Mat) : OpenCV.State num Mat -> Prop :=
| opencv_constructed : opencvReachable cv OpenCV.constructor
| opencv_handled (s : OpenCV.State num Mat) (e : OpenCV.Event num) :
    opencvReachable cv s -> opencvReachable cv (fst (OpenCV.handle cv e s)).

(** The states the hybrid variant can be in. *)
Inductive hybridReachable {num : Type} `{JSNumber num} {Mat : Type}
  (cv : OpenCVjs num Mat) : Hybrid.State num Mat -> Prop :=
| hybrid_constructed : hybridReachable cv Hybrid.constructor
| hybrid_handled (s : Hybrid.State num Mat) (e : Hybrid.Event num) :
    hybridReachable cv s -> hybridReachable cv (fst (Hybrid.handle cv e s)).

(** A matrix of the application came from OpenCV.js, and the calibration
    data that go with it have scale 10. *)
Definition opencvCalibrated {num : Type} `{JSNumber num} {Mat : Type}
  (cv : OpenCVjs num Mat) (s : OpenCV.State num Mat) : Prop :=
  forall M, OpenCV.perspectiveMatrix s = Some M ->
    (exists src dst, getPerspectiveTransform cv src dst = Some M) /\
    exists data, OpenCV.calibrationData s = Some data /\
                 OpenCV.scale data = of_Z 10.

(** The calibration click at [(x, y)] tagged with [step]. *)
Definition corner {num : Type} (x y : num) (step : nat)
  : CalibrationPoint num :=
  {| c_x := x; c_y := y; c_step := step |}.




(** A matrix of the hybrid application came from OpenCV.js, and calibration
    data in precision mode have scale 10. *)
Definition hybridCalibrated {num : Type} `{JSNumber num} {Mat : Type}
  (cv : OpenCVjs num Mat) (s : Hybrid.State num Mat) : Prop :=
  (forall M, Hybrid.perspectiveMatrix s = Some M ->
     exists src dst, getPerspectiveTransform cv src dst = Some M) /\
  (forall data, Hybrid.calibrationData s = Some data ->
     Hybrid.cd_mode data = "precision" ->
     Hybrid.cd_scale data = Some (of_Z 10)).

(** The hybrid application has had nothing from OpenCV.js: the library is
    not ready, there is no matrix, and calibration data, if any, are those
    of the enhanced basic mode. *)
Definition hybridWithoutCv {num : Type} {Mat : Type}
  (s : Hybrid.State num Mat) : Prop :=
  Hybrid.isOpenCVReady s = false /\
  Hybrid.perspectiveMatrix s = None /\
  (forall data, Hybrid.calibrationData s = Some data ->
     Hybrid.cd_mode data = "enhanced_basic").

(** ** Vocabulary of the further properties *)

Section Pointer.

Context {num : Type} `{JSNumber num}.
Local Open Scope js_scope.

(** What the click handlers read of [canvas.getBoundingClientRect()]. *)
Record DOMRect : Type := {
  rect_left : num;
  rect_top : num;
  rect_width : num;
  rect_height : num
}.

(** The canvas coordinates [handleCanvasClick] computes from the client
    coordinates of a click, in the three variants alike. *)
Definition canvasCoordinates (cnv : Canvas num) (rect : DOMRect)
  (clientX clientY : num) : num * num :=
  let scaleX := canvas_width cnv / rect_width rect in
  let scaleY := canvas_height cnv / rect_height rect in
  ((clientX - rect_left rect) * scaleX, (clientY - rect_top rect) * scaleY).

(** How many temporary matrices a list of effects creates
    ([cv.matFromArray], [new cv.Mat]) and how many it deletes. *)
Definition temporariesCreated {Mat : Type} (es : list (Effect num Mat)) : nat :=
  List.length (filter (fun e => match e with
                                | CvMatFromArray _ _ _ | CvNewMat => true
                                | _ => false
                                end) es).

Definition temporariesDeleted {Mat : Type} (es : list (Effect num Mat)) : nat :=
  List.length (filter (fun e => match e with
                                | CvDeleteTemporary => true
                                | _ => false
                                end) es).

(** The library answers every call. *)
Definition answers {Mat : Type} (cv : OpenCVjs num Mat) : Prop :=
  (forall src dst, getPerspectiveTransform cv src dst <> None) /\
  (forall pts M, perspectiveTransform cv pts M <> None).

End Pointer.

Arguments DOMRect num : clear implicits.

(** A change of the reference select of the linear variant to a key of
    the table; any other event. *)
Definition linearKnownKey {num : Type} `{JSNumber num}
  (e : Linear.Event num) : bool :=
  match e with
  | Linear.ReferenceChange key =>
      match Linear.referenceObjects (num := num) (referenceKey (Some key)) with
      | Some _ => true
      | None => false
      end
  | _ => true
  end.

(** The calibration of the OpenCV variant is of one piece: the flag, the
    matrix and the calibration data are there together or not at all, and
    only with OpenCV.js ready. *)
Definition opencvOfOnePiece {num : Type} {Mat : Type}
  (s : OpenCV.State num Mat) : Prop :=
  match OpenCV.isCalibrated s, OpenCV.perspectiveMatrix s,
        OpenCV.calibrationData s with
  | true, Some _, Some _ => OpenCV.isOpenCVReady s = true
  | false, None, None => True
  | _, _, _ => False
  end.

(** A canvas click of the OpenCV variant. *)
Definition opencvIsClick {num : Type} (e : OpenCV.Event num) : bool :=
  match e with OpenCV.CanvasClick _ _ _ => true | _ => false end.

(** * Properties *)

(** Unfolds the handler combinators. *)
Ltac handlers :=
  cbv beta delta [when andThen modify emit ifS skip try_catch] in *.

(** Unfolds the operations of [xreal]. *)
Ltac xreal_unfold :=
  cbv beta iota delta
    [truthy num_leb min2 max2 Math_pow2 euclid to_number
     num_add num_sub num_mul num_div Math_sqrt NaN Infinity is_nan is_finite
     num_ltb num_eqb of_Z decimal xreal_JSNumber
     XReal.add XReal.sub XReal.mul XReal.div XReal.sqrt XReal.ltb XReal.eqb
     XReal.is_nan XReal.is_finite XReal.opp XReal.sign XReal.sign_mul
     XReal.signed_inf XReal.Rsign orb andb negb] in *.

(** Decides the sign tests the operations of [xreal] make. *)
Ltac xreal_cases :=
  repeat (match goal with
          | |- context [Rlt_dec ?a ?b] => destruct (Rlt_dec a b)
          | |- context [Req_dec_T ?a ?b] => destruct (Req_dec_T a b)
          | H : context [Rlt_dec ?a ?b] |- _ => destruct (Rlt_dec a b)
          | H : context [Req_dec_T ?a ?b] |- _ => destruct (Req_dec_T a b)
          end; cbv beta iota delta [orb andb negb] in *).

Ltac xreal :=
  xreal_unfold; xreal_cases;
  try congruence; try (exfalso; lra); try (f_equal; lra).

(** ** Arithmetic on the extended reals *)

Section XRealFacts.

Local Open Scope R_scope.

Lemma sum_squares_nonneg (a b : R) : 0 <= a * a + b * b.
Proof. nra. Qed.

Lemma xreal_sub_self (x : R) : num_sub (Fin x) (Fin x) = Fin 0.
Proof. xreal. Qed.

Lemma xreal_euclid_fin (x1 y1 x2 y2 : R) :
  euclid (Fin x1) (Fin y1) (Fin x2) (Fin y2) =
  Fin (sqrt ((x2 + - x1) * (x2 + - x1) + (y2 + - y1) * (y2 + - y1))).
Proof.
  xreal_unfold.
  match goal with
  | |- context [Rlt_dec ?a 0] => destruct (Rlt_dec a 0) as [Hneg|_]
  end; [|reflexivity].
  pose proof (sum_squares_nonneg (x2 + - x1) (y2 + - y1)). lra.
Qed.

Lemma xreal_euclid_same (x y : R) :
  euclid (Fin x) (Fin y) (Fin x) (Fin y) = Fin 0.
Proof.
  rewrite xreal_euclid_fin. f_equal.
  replace ((x + - x) * (x + - x) + (y + - y) * (y + - y)) with 0 by lra.
  apply sqrt_0.
Qed.

(** A non-finite factor makes a non-finite product. *)
Lemma xreal_mul_not_finite_r (a b : xreal) :
  is_finite b = false -> is_finite (num_mul a b) = false.
Proof. destruct a, b; intros Hb; xreal; reflexivity. Qed.

Lemma xreal_mul_not_finite_l (a b : xreal) :
  is_finite a = false -> is_finite (num_mul a b) = false.
Proof. destruct a, b; intros Ha; xreal; reflexivity. Qed.

Lemma xreal_div_pos_zero (x : R) : 0 < x -> num_div (Fin x) (Fin 0) = PInf.
Proof. intros Hx. xreal. Qed.















End XRealFacts.

(** ** Export *)



(** ** The two-point linear variant *)

(** Splits on what the handlers branch on, innermost test first, until
    nothing is left to split. *)
Ltac branches :=
  repeat (cbn in *;
          match goal with
          | |- context [match ?x with _ => _ end] =>
              lazymatch x with
              | context [match _ with _ => _ end] => fail
              | _ => destruct x eqn:?
              end
          end);
  cbn in *.

(** Rewrites in [H] with the equations the case splits left. *)
Ltac keep_up H :=
  repeat match goal with
         | E : _ = _ |- _ => rewrite E in H
         end.

Ltac keep_up_goal :=
  repeat match goal with
         | E : _ = _ |- _ => rewrite E
         end.

Ltac linear_handlers :=
  cbv beta delta
    [Linear.selectMode Linear.initializeARMode Linear.initializeCameraMode
     Linear.setupCanvas Linear.startCalibration Linear.handleCanvasClick
     Linear.completeCalibration Linear.calculateDistance
     Linear.toggleMeasurement Linear.startMeasuring Linear.stopMeasuring
     Linear.startNewMeasurement Linear.clearMeasurements
     Linear.exportMeasurements Linear.goBack
     when andThen modify emit ifS skip try_catch] in *.

Lemma length_snoc_2 {A : Type} (l : list A) (a : A) :
  (List.length (l ++ [a]) =? 2)%nat = true -> exists b, l = [b].
Proof.
  destruct l as [|b [|c l]]; cbn; try discriminate; eauto.
  rewrite length_app. cbn. intros Hl. apply Nat.eqb_eq in Hl. lia.
Qed.

Section LinearFacts.

Context {num : Type} `{JSNumber num}.
Local Open Scope js_scope.

(** Two clicks after [startCalibration] set the scale factor. *)
Lemma linear_calibrate (s0 : Linear.State num) (x1 y1 : num) (t1 : Z)
  (x2 y2 : num) (t2 : Z) (reference : ReferenceObject num) :
  Linear.canvas s0 <> None ->
  Linear.referenceObjects (referenceKey (Linear.referenceSelect s0))
    = Some reference ->
  let p1 := {| p_x := x1; p_y := y1; p_timestamp := t1 |} in
  let p2 := {| p_x := x2; p_y := y2; p_timestamp := t2 |} in
  let s1 := fst (run [Linear.startCalibration;
                      Linear.handleCanvasClick x1 y1 t1;
                      Linear.handleCanvasClick x2 y2 t2] s0) in
  Linear.isCalibrated s1 = true /\ Linear.isCalibrationMode s1 = false /\
  Linear.calibrationFactor s1 =
    to_number (or_else (ref_width reference) (ref_diameter reference))
    / pixelDistance p1 p2 /\
  Linear.measurements s1 = Linear.measurements s0.
Proof.
  intros Hc Href p1 p2 s1. subst s1.
  destruct (Linear.canvas s0) as [c|] eqn:Ec; [|congruence].
  unfold run. linear_handlers.
  cbn. rewrite Ec. cbn. rewrite Ec. cbn. rewrite Href. cbn.
  repeat split.
Qed.


(** Events other than a new calibration keep the scale factor, and every
    measurement they add is taken with it. *)
Lemma linear_step_keeps_factor (base : list (Measurement num)) (factor : num)
  (e : Linear.Event num) (s : Linear.State num) :
  linearStartsCalibration e = false ->
  Linear.isCalibrationMode s = false ->
  Linear.calibrationFactor s = factor ->
  (forall m, In m (Linear.measurements s) ->
             In m base \/ measuredWith factor m) ->
  let s' := fst (Linear.handle e s) in
  Linear.isCalibrationMode s' = false /\
  Linear.calibrationFactor s' = factor /\
  (forall m, In m (Linear.measurements s') ->
             In m base \/ measuredWith factor m).
Proof.
  intros He Hmode Hf Hms.
  destruct e; try discriminate He; cbn [Linear.handle];
    linear_handlers; cbn.
  - repeat split; auto.
  - repeat split; auto.
  - destruct mode, cam; cbn; try destruct (Linear.isCalibrated s); cbn;
      repeat split; auto.
  - destruct (Linear.canvas s); cbn; repeat split; auto.
  - destruct (Linear.isMeasuring s), (Linear.canvas s); cbn;
      try (repeat split; auto; fail).
    rewrite Hmode. cbn.
    destruct (List.length (Linear.measurementPoints s ++ _) =? 2)%nat eqn:El;
      cbn; try (repeat split; auto; fail).
    apply length_snoc_2 in El as [q1 Hq1].
    rewrite Hq1. cbn.
    repeat split; auto.
    intros m [Hm|[<-|[]]]%in_app_or; auto.
    right. cbn. eexists _, _. split; [reflexivity|]. now rewrite Hf.
  - destruct (Linear.isCalibrated s), (Linear.currentMode s) as [[]|],
      (Linear.isMeasuring s); cbn; repeat split; auto.
  - repeat split; auto. intros m [].
  - destruct (List.length (Linear.measurements s) =? 0)%nat; cbn;
      repeat split; auto.
  - repeat split; auto. intros m [].
  - repeat split; auto.
Qed.

Lemma linear_run_keeps_factor (base : list (Measurement num)) (factor : num)
  (evs : list (Linear.Event num)) :
  forallb (fun e => negb (linearStartsCalibration e)) evs = true ->
  forall s : Linear.State num,
  Linear.isCalibrationMode s = false ->
  Linear.calibrationFactor s = factor ->
  (forall m, In m (Linear.measurements s) ->
             In m base \/ measuredWith factor m) ->
  let s' := fst (run (map Linear.handle evs) s) in
  Linear.calibrationFactor s' = factor /\
  (forall m, In m (Linear.measurements s') ->
             In m base \/ measuredWith factor m).
Proof.
  induction evs as [|e evs IH]; intros Hevs s Hmode Hf Hms.
  - cbn. auto.
  - cbn in Hevs. apply andb_prop in Hevs as [He Hevs].
    apply negb_true_iff in He.
    destruct (@linear_step_keeps_factor base factor e s He Hmode Hf Hms)
      as (Hmode' & Hf' & Hms').
    specialize (IH Hevs _ Hmode' Hf' Hms').
    cbn [map run]. unfold andThen.
    destruct (Linear.handle e s) as [s1 e1]. cbn [fst] in *.
    destruct (run (map Linear.handle evs) s1) as [s2 e2]. exact IH.
Qed.



End LinearFacts.

(** ** The OpenCV variant *)

Ltac opencv_handlers :=
  cbv beta delta
    [OpenCV.selectMode OpenCV.initializePrecisionMode OpenCV.initializeARMode
     OpenCV.initializeBasicMode OpenCV.initializeCamera OpenCV.setupCanvas
     OpenCV.onOpenCvReady OpenCV.startPrecisionCalibration
     OpenCV.handleCanvasClick OpenCV.handleCalibrationClick
     OpenCV.handleMeasurementClick OpenCV.completePrecisionCalibration
     OpenCV.computePerspective OpenCV.calculatePreciseDistance
     OpenCV.calculateDistanceWithPerspectiveCorrection
     OpenCV.calculateBasicDistance OpenCV.toggleMeasurement
     OpenCV.startMeasuring OpenCV.stopMeasuring OpenCV.undoLastPoint
     OpenCV.clearMeasurements OpenCV.exportMeasurements
     OpenCV.startNewMeasurement OpenCV.showRecalibration OpenCV.showSettings
     OpenCV.goBack OpenCV.resetCalibration OpenCV.resetMeasurementState
     OpenCV.showBasicCalibration
     when andThen modify emit ifS skip try_catch] in *.


Section OpenCVFacts.

Context {num : Type} `{JSNumber num}.
Context {Mat : Type}.
Variable cv : OpenCVjs num Mat.
Local Open Scope js_scope.

(** Without calibration a canvas click adds no measurement, and if it
    completes the calibration it also ends the measuring. *)
Lemma opencv_uncalibrated_click (s : OpenCV.State num Mat) (x y : num)
  (now : Z) :
  OpenCV.isCalibrated s = false ->
  let s' := fst (OpenCV.handleCanvasClick cv x y now s) in
  OpenCV.measurements s' = OpenCV.measurements s /\
  (OpenCV.isCalibrated s' = false \/ OpenCV.isMeasuring s' = false).
Proof.
  intros Hcal. opencv_handlers. rewrite ?Hcal.
  branches; auto; congruence.
Qed.



(** What [completePrecisionCalibration] does with four corners, OpenCV.js
    ready and a reference object: one call asks OpenCV.js for the transform
    of the four corners onto the rectangle of the reference dimensions times
    ten, and the matrix of the application is the answer. *)
Lemma opencv_calibration_call (s : OpenCV.State num Mat)
  (c1 c2 c3 c4 : CalibrationPoint num) (reference : ReferenceObject num) :
  OpenCV.calibrationPoints s = [c1; c2; c3; c4] ->
  OpenCV.isOpenCVReady s = true ->
  OpenCV.referenceObject s = Some reference ->
  let src := corners c1 c2 c3 c4 in
  let dst := rectangle10 (to_number (ref_width reference))
                         (to_number (ref_height reference)) in
  let r := OpenCV.completePrecisionCalibration cv s in
  transformCalls (snd r) = [CvGetPerspectiveTransform src dst] /\
  OpenCV.perspectiveMatrix (fst r) = getPerspectiveTransform cv src dst /\
  (forall M, getPerspectiveTransform cv src dst = Some M ->
     OpenCV.isCalibrated (fst r) = true /\
     OpenCV.isCalibrationMode (fst r) = false /\
     OpenCV.isMeasuring (fst r) = false /\
     OpenCV.calibrationPoints (fst r) = [] /\
     OpenCV.currentStep (fst r) = OpenCV.currentStep s /\
     OpenCV.measurements (fst r) = OpenCV.measurements s /\
     exists data, OpenCV.calibrationData (fst r) = Some data /\
                  OpenCV.scale data = of_Z 10 /\
                  OpenCV.cd_perspectiveMatrix data = M).
Proof.
  intros Hpts Hready Href src dst r. subst r src dst.
  opencv_handlers. rewrite Hpts, Hready. cbn. rewrite Href. cbn. rewrite ?Hpts. cbn.
  unfold corners, rectangle10, OpenCV.dstPoints.
  destruct (getPerspectiveTransform cv _ _) as [M|] eqn:EM; cbn.
  - split; [reflexivity|]. split; [reflexivity|].
    intros M' [= <-]. repeat split. eexists. cbn. repeat split.
  - split; [reflexivity|]. split; [reflexivity|]. discriminate.
Qed.

Lemma opencv_step_calibrated (e : OpenCV.Event num)
  (s : OpenCV.State num Mat) :
  opencvCalibrated cv s ->
  opencvCalibrated cv (fst (OpenCV.handle cv e s)).
Proof.
  unfold opencvCalibrated. intros Hs.
  remember s as s0 eqn:Es in Hs.
  destruct e; cbn [OpenCV.handle]; opencv_handlers;
    branches; try discriminate; subst s0; keep_up Hs; keep_up_goal;
    try exact Hs;
    intros M' [= <-]; split; eauto.
Qed.

Lemma opencv_reachable_calibrated (s : OpenCV.State num Mat) :
  opencvReachable cv s -> opencvCalibrated cv s.
Proof.
  induction 1 as [|s e Hs IH].
  - intros M. discriminate.
  - now apply opencv_step_calibrated.
Qed.

(** With a matrix and in precision mode, the second measurement click maps
    the two points through OpenCV.js and divides the distance of the images
    by ten. *)
Lemma opencv_precise_measurement (s : OpenCV.State num Mat) (p1 : Point num)
  (x y : num) (now : Z) (M : Mat) (d : list num) :
  opencvCalibrated cv s ->
  OpenCV.isMeasuring s = true -> OpenCV.canvas s <> None ->
  OpenCV.isCalibrationMode s = false -> OpenCV.isCalibrated s = true ->
  OpenCV.currentMode s = Some OpenCV.precision ->
  OpenCV.perspectiveMatrix s = Some M ->
  OpenCV.measurementPoints s = [p1] ->
  perspectiveTransform cv [p_x p1; p_y p1; x; y] M = Some d ->
  let r := OpenCV.handleCanvasClick cv x y now s in
  transformCalls (snd r) = [CvPerspectiveTransform [p_x p1; p_y p1; x; y] M] /\
  (exists src dst, getPerspectiveTransform cv src dst = Some M) /\
  exists m, OpenCV.measurements (fst r) = OpenCV.measurements s ++ [m] /\
            m_distance m =
              euclid (data32F d 0) (data32F d 1) (data32F d 2) (data32F d 3)
              / of_Z 10.
Proof.
  intros Hinv Hmeas Hcanvas Hmode Hcal Hprec HM Hpts Hd r. subst r.
  destruct (Hinv M HM) as (Hfrom & data & Hdata & Hscale).
  destruct (OpenCV.canvas s) as [c|] eqn:Ec; [|congruence].
  opencv_handlers. rewrite Hmeas, Ec, Hmode. cbn.
  rewrite Hpts. cbn. rewrite Hcal, Hprec, HM. cbn. rewrite ?Hpts, ?HM. cbn.
  rewrite Hd, Hdata. cbn.
  split; [reflexivity|]. split; [exact Hfrom|].
  eexists. split; [reflexivity|]. cbn. now rewrite Hscale.
Qed.


(** A calibration click at step 4 records the corner tagged 4 and hands
    over to [completePrecisionCalibration] without advancing the step. *)
Lemma opencv_fourth_click (s : OpenCV.State num Mat) (x y : num) (t : Z) :
  OpenCV.isMeasuring s = true -> OpenCV.canvas s <> None ->
  OpenCV.isCalibrationMode s = true -> OpenCV.currentStep s = 4 ->
  OpenCV.handleCanvasClick cv x y t s =
  OpenCV.completePrecisionCalibration cv
    (s <| OpenCV.calibrationPoints :=
            OpenCV.calibrationPoints s ++ [corner x y 4] |>).
Proof.
  intros Hmeas Hcanvas Hmode Hstep.
  destruct (OpenCV.canvas s) as [c|] eqn:Ec; [|congruence].
  cbv beta delta
    [OpenCV.handleCanvasClick OpenCV.handleCalibrationClick
     when andThen modify emit ifS skip].
  rewrite Hmeas, Ec, Hmode. cbn -[Nat.ltb OpenCV.completePrecisionCalibration].
  rewrite Hstep. cbn -[OpenCV.completePrecisionCalibration]. unfold corner.
  match goal with |- (let (_, _) := ?X in _) = _ => destruct X end.
  reflexivity.
Qed.




End OpenCVFacts.

(** ** The hybrid variant *)

Ltac hybrid_handlers :=
  cbv beta delta
    [Hybrid.selectMode Hybrid.initializePrecisionMode
     Hybrid.initializeBasicMode Hybrid.initializeCamera Hybrid.setupCanvas
     Hybrid.onOpenCVReady Hybrid.onOpenCVFailed Hybrid.loadingTimeout
     Hybrid.startPrecisionCalibration Hybrid.startBasicCalibration
     Hybrid.handleCanvasClick Hybrid.handleCalibrationClick
     Hybrid.handlePrecisionCalibrationClick Hybrid.handleBasicCalibrationClick
     Hybrid.handleMeasurementClick Hybrid.completePrecisionCalibration
     Hybrid.computePerspective Hybrid.completeBasicCalibration
     Hybrid.completeCalibration Hybrid.calculateDistance
     Hybrid.calculatePreciseDistance Hybrid.calculateEnhancedBasicDistance
     Hybrid.storeMeasurement Hybrid.toggleMeasurement Hybrid.startMeasuring
     Hybrid.stopMeasuring Hybrid.undoLastPoint Hybrid.clearMeasurements
     Hybrid.exportMeasurements Hybrid.startNewMeasurement
     Hybrid.showRecalibration Hybrid.goBack Hybrid.resetCalibration
     Hybrid.deletePerspectiveMatrix Hybrid.resetMeasurementState
     when andThen modify emit ifS skip try_catch] in *.

Section HybridFacts.

Context {num : Type} `{JSNumber num}.
Context {Mat : Type}.
Variable cv : OpenCVjs num Mat.
Local Open Scope js_scope.

(** Without calibration a canvas click adds no measurement, and if it
    completes the calibration it also ends the measuring. *)
Lemma hybrid_uncalibrated_click (s : Hybrid.State num Mat) (x y : num)
  (now : Z) :
  Hybrid.isCalibrated s = false ->
  let s' := fst (Hybrid.handleCanvasClick cv x y now s) in
  Hybrid.measurements s' = Hybrid.measurements s /\
  (Hybrid.isCalibrated s' = false \/ Hybrid.isMeasuring s' = false).
Proof.
  intros Hcal. hybrid_handlers.
  branches; auto;
    try (rewrite Hcal in *; cbn in *; rewrite ?orb_true_r in *; discriminate);
    congruence.
Qed.



(** What [completePrecisionCalibration] does with four corners, OpenCV.js
    ready and a reference object: one call asks OpenCV.js for the transform
    of the four corners onto the rectangle of the reference dimensions times
    ten, and its answer becomes the matrix of the application. *)
Lemma hybrid_calibration_call (s : Hybrid.State num Mat)
  (c1 c2 c3 c4 : CalibrationPoint num) (reference : ReferenceObject num) :
  Hybrid.calibrationPoints s = [c1; c2; c3; c4] ->
  Hybrid.isOpenCVReady s = true ->
  Hybrid.referenceObject s = Some reference ->
  let src := corners c1 c2 c3 c4 in
  let dst := rectangle10 (to_number (ref_width reference))
                         (to_number (ref_height reference)) in
  let r := Hybrid.completePrecisionCalibration cv s in
  transformCalls (snd r) = [CvGetPerspectiveTransform src dst] /\
  (forall M, getPerspectiveTransform cv src dst = Some M ->
     Hybrid.perspectiveMatrix (fst r) = Some M /\
     Hybrid.isCalibrated (fst r) = true /\
     Hybrid.isCalibrationMode (fst r) = false /\
     Hybrid.isMeasuring (fst r) = false /\
     Hybrid.calibrationPoints (fst r) = [] /\
     Hybrid.currentStep (fst r) = Hybrid.currentStep s /\
     Hybrid.measurements (fst r) = Hybrid.measurements s /\
     exists data, Hybrid.calibrationData (fst r) = Some data /\
                  Hybrid.cd_mode data = "precision" /\
                  Hybrid.cd_scale data = Some (of_Z 10)) /\
  (getPerspectiveTransform cv src dst = None ->
     Hybrid.perspectiveMatrix (fst r) = Hybrid.perspectiveMatrix s /\
     Hybrid.currentStep (fst r) = Hybrid.currentStep s /\
     Hybrid.measurements (fst r) = Hybrid.measurements s /\
     (Hybrid.canvas s <> None ->
      Hybrid.isCalibrated (fst r) = true /\
      Hybrid.isCalibrationMode (fst r) = false /\
      Hybrid.calibrationPoints (fst r) = [])).
Proof.
  intros Hpts Hready Href src dst r. subst r src dst.
  hybrid_handlers. rewrite Hpts, Hready. cbn. rewrite Href. cbn.
  rewrite ?Hpts. cbn.
  unfold corners, rectangle10, Hybrid.dstPoints.
  destruct (getPerspectiveTransform cv _ _) as [M|] eqn:EM; cbn.
  - split; [reflexivity|]. split; [|discriminate].
    intros M' [= <-]. repeat split. eexists. cbn. repeat split.
  - rewrite Hpts, Href. cbn.
    destruct (Hybrid.canvas s) as [cnv|]; cbn.
    + split; [reflexivity|]. split; [discriminate|]. repeat split.
    + split; [reflexivity|]. split; [discriminate|]. intros _.
      repeat split; congruence.
Qed.

Lemma hybrid_step_calibrated (e : Hybrid.Event num)
  (s : Hybrid.State num Mat) :
  hybridCalibrated cv s ->
  hybridCalibrated cv (fst (Hybrid.handle cv e s)).
Proof.
  unfold hybridCalibrated. intros [HM Hdata].
  remember s as s0 eqn:Es in HM, Hdata.
  destruct e; cbn [Hybrid.handle]; hybrid_handlers;
    branches; try discriminate; subst s0;
    keep_up HM; keep_up Hdata; keep_up_goal;
    (split; [try exact HM|try exact Hdata]);
    try (intros M' [= <-]; eauto; fail);
    try (intros data' [= <-]; cbn; solve [auto|discriminate]);
    try discriminate.
Qed.

Lemma hybrid_reachable_calibrated (s : Hybrid.State num Mat) :
  hybridReachable cv s -> hybridCalibrated cv s.
Proof.
  induction 1 as [|s e Hs IH].
  - split; intros ?; discriminate.
  - now apply hybrid_step_calibrated.
Qed.

(** With a matrix and calibration data in precision mode, the second
    measurement click maps the two points through OpenCV.js and divides the
    distance of the images by ten. *)
Lemma hybrid_precise_measurement (s : Hybrid.State num Mat) (p1 : Point num)
  (x y : num) (now : Z) (M : Mat) (d : list num)
  (data : Hybrid.CalibrationData num Mat) :
  hybridCalibrated cv s ->
  Hybrid.isMeasuring s = true -> Hybrid.canvas s <> None ->
  Hybrid.isCalibrationMode s = false -> Hybrid.isCalibrated s = true ->
  Hybrid.calibrationData s = Some data ->
  Hybrid.cd_mode data = "precision" ->
  Hybrid.perspectiveMatrix s = Some M ->
  Hybrid.measurementPoints s = [p1] ->
  perspectiveTransform cv [p_x p1; p_y p1; x; y] M = Some d ->
  let r := Hybrid.handleCanvasClick cv x y now s in
  transformCalls (snd r) = [CvPerspectiveTransform [p_x p1; p_y p1; x; y] M] /\
  (exists src dst, getPerspectiveTransform cv src dst = Some M) /\
  exists m, Hybrid.measurements (fst r) = Hybrid.measurements s ++ [m] /\
            m_distance m =
              euclid (data32F d 0) (data32F d 1) (data32F d 2) (data32F d 3)
              / of_Z 10.
Proof.
  intros [Hfrom Hscale] Hmeas Hcanvas Hmode Hcal Hdata Hprec HM Hpts Hd r.
  subst r.
  specialize (Hfrom M HM). specialize (Hscale data Hdata Hprec).
  destruct (Hybrid.canvas s) as [c|] eqn:Ec; [|congruence].
  hybrid_handlers.
  repeat (progress (rewrite ?Hmeas, ?Ec, ?Hmode, ?Hpts, ?Hcal, ?Hdata,
                      ?Hprec, ?HM, ?Hd; cbn)).
  split; [reflexivity|]. split; [exact Hfrom|].
  eexists. split; [reflexivity|]. cbn. now rewrite Hscale.
Qed.






(** The first click of a basic calibration records the point. *)
Lemma hybrid_basic_first_click (s : Hybrid.State num Mat) (x y : num)
  (t : Z) :
  Hybrid.isMeasuring s = true -> Hybrid.canvas s <> None ->
  Hybrid.isCalibrationMode s = true ->
  Hybrid.currentMode s <> Some Hybrid.precision
  \/ Hybrid.isOpenCVReady s = false ->
  Hybrid.calibrationPoints s = [] ->
  let s' := fst (Hybrid.handleCanvasClick cv x y t s) in
  Hybrid.calibrationPoints s' = [corner x y (Hybrid.currentStep s)] /\
  Hybrid.isMeasuring s' = true /\ Hybrid.canvas s' = Hybrid.canvas s /\
  Hybrid.isCalibrationMode s' = true /\
  Hybrid.currentMode s' = Hybrid.currentMode s /\
  Hybrid.isOpenCVReady s' = Hybrid.isOpenCVReady s /\
  Hybrid.referenceObject s' = Hybrid.referenceObject s /\
  Hybrid.measurements s' = Hybrid.measurements s.
Proof.
  intros Hmeas Hcanvas Hmode Hbasic Hpts.
  destruct (Hybrid.canvas s) as [c|] eqn:Ec; [|congruence].
  cbv beta delta
    [Hybrid.handleCanvasClick Hybrid.handleCalibrationClick
     Hybrid.handleBasicCalibrationClick
     when andThen modify emit ifS skip].
  rewrite Hmeas, Ec, Hmode. cbn. rewrite Hpts. cbn.
  destruct Hbasic as [Hm|Hr].
  - destruct (Hybrid.currentMode s) as [[]|] eqn:Em; try congruence;
      cbn; repeat split; congruence.
  - rewrite Hr. destruct (Hybrid.currentMode s) as [[]|] eqn:Em;
      cbn; repeat split; congruence.
Qed.

(** The second click of a basic calibration completes it: the scale is
    the size of the reference object over the pixel distance of the two
    points, times the perspective factor. *)
Lemma hybrid_basic_second_click (s : Hybrid.State num Mat)
  (c1 : CalibrationPoint num) (x y : num) (t : Z)
  (reference : ReferenceObject num) (cnv : Canvas num) :
  Hybrid.isMeasuring s = true -> Hybrid.canvas s = Some cnv ->
  Hybrid.isCalibrationMode s = true ->
  Hybrid.currentMode s <> Some Hybrid.precision
  \/ Hybrid.isOpenCVReady s = false ->
  Hybrid.calibrationPoints s = [c1] ->
  Hybrid.referenceObject s = Some reference ->
  let s' := fst (Hybrid.handleCanvasClick cv x y t s) in
  let c2 := corner x y (Hybrid.currentStep s) in
  Hybrid.isCalibrated s' = true /\
  Hybrid.isCalibrationMode s' = false /\
  Hybrid.calibrationPoints s' = [] /\
  Hybrid.measurements s' = Hybrid.measurements s /\
  Hybrid.perspectiveMatrix s' = Hybrid.perspectiveMatrix s /\
  exists data,
    Hybrid.calibrationData s' = Some data /\
    Hybrid.cd_mode data = "enhanced_basic" /\
    Hybrid.cd_calibrationFactor data =
      Some (to_number (or_else (ref_width reference) (ref_diameter reference))
            / euclid (c_x c1) (c_y c1) x y
            * Hybrid.perspectiveFactor cnv c1 c2) /\
    Hybrid.cd_distanceCorrection data = Some (Hybrid.distanceRatio cnv c1 c2).
Proof.
  intros Hmeas Ec Hmode Hbasic Hpts Href.
  cbv beta delta
    [Hybrid.handleCanvasClick Hybrid.handleCalibrationClick
     Hybrid.handleBasicCalibrationClick Hybrid.completeBasicCalibration
     Hybrid.completeCalibration
     when andThen modify emit ifS skip].
  rewrite Hmeas, Ec, Hmode. cbn. rewrite Hpts. cbn.
  destruct Hbasic as [Hm|Hr].
  - destruct (Hybrid.currentMode s) as [[]|] eqn:Em; try congruence;
      cbn; rewrite Href, Ec; cbn; repeat split;
      eexists; cbn; repeat split.
  - rewrite Hr. destruct (Hybrid.currentMode s) as [[]|] eqn:Em;
      cbn; rewrite Href, Ec; cbn; repeat split;
      eexists; cbn; repeat split.
Qed.

(** Selecting the precision mode while OpenCV.js is not ready says so and
    initializes the basic mode. *)
Lemma hybrid_select_precision_fallback (s : Hybrid.State num Mat)
  (cam : option (Canvas num)) :
  Hybrid.isOpenCVReady s = false ->
  Hybrid.selectMode Hybrid.precision cam s =
  (fst (Hybrid.initializeBasicMode cam
          (s <| Hybrid.currentMode := Some Hybrid.precision |>)),
   ShowMessage "OpenCV.js not available. Using enhanced basic mode instead."
   :: snd (Hybrid.initializeBasicMode cam
             (s <| Hybrid.currentMode := Some Hybrid.precision |>))).
Proof.
  intros Hready.
  cbv beta delta [Hybrid.selectMode when andThen modify emit ifS skip].
  cbn -[Hybrid.initializeBasicMode]. rewrite Hready.
  cbn -[Hybrid.initializeBasicMode].
  destruct (Hybrid.initializeBasicMode cam _). reflexivity.
Qed.

(** Without a matrix the distance calculation goes to the enhanced basic
    computation. *)
Lemma hybrid_dispatch_without_matrix (s : Hybrid.State num Mat) (now : Z)
  (data : Hybrid.CalibrationData num Mat) :
  Hybrid.perspectiveMatrix s = None ->
  Hybrid.calibrationData s = Some data ->
  List.length (Hybrid.measurementPoints s) = 2 ->
  Hybrid.isCalibrated s = true ->
  Hybrid.calculateDistance cv now s =
  try_catch (Hybrid.calculateEnhancedBasicDistance now)
    (emit (ShowError "Distance calculation failed. Please try again.")) s.
Proof.
  intros HM Hdata Hlen Hcal.
  unfold Hybrid.calculateDistance, try_catch.
  rewrite Hlen, Hcal, Hdata, HM. cbn.
  destruct (Hybrid.cd_mode data =? "precision"); reflexivity.
Qed.

(** In a state that has had nothing from OpenCV.js no handler calls it, and
    the state stays so as long as OpenCV.js is not ready. *)
Lemma hybrid_step_without_cv (e : Hybrid.Event num)
  (s : Hybrid.State num Mat) :
  hybridWithoutCv s ->
  noCvCall (snd (Hybrid.handle cv e s)) /\
  (Hybrid.isOpenCVReady (fst (Hybrid.handle cv e s)) = false ->
   hybridWithoutCv (fst (Hybrid.handle cv e s))).
Proof.
  unfold hybridWithoutCv, noCvCall. intros (Hready & HM & Hdata).
  remember s as s0 eqn:Es in Hdata.
  destruct e; cbn [Hybrid.handle]; hybrid_handlers;
    rewrite ?Hready, ?HM; cbn;
    branches; try discriminate; try congruence; subst s0;
    keep_up Hdata;
    (split; [reflexivity|]); intros Hr; try discriminate Hr;
    repeat split; try assumption; try congruence;
    try (intros data' [= <-]; reflexivity);
    try (intros data' Hd'; apply Hdata; keep_up_goal; congruence).
Qed.

Lemma hybrid_ready_stays (e : Hybrid.Event num) (s : Hybrid.State num Mat) :
  Hybrid.isOpenCVReady s = true ->
  Hybrid.isOpenCVReady (fst (Hybrid.handle cv e s)) = true.
Proof.
  intros Hready.
  destruct e; cbn [Hybrid.handle]; hybrid_handlers; branches; congruence.
Qed.

Lemma hybrid_reachable_without_cv (s : Hybrid.State num Mat) :
  hybridReachable cv s -> Hybrid.isOpenCVReady s = false ->
  hybridWithoutCv s.
Proof.
  induction 1 as [|s e Hs IH]; intros Hready.
  - repeat split. intros data. discriminate.
  - destruct (Hybrid.isOpenCVReady s) eqn:Es.
    + rewrite (hybrid_ready_stays e s Es) in Hready. discriminate.
    + now apply hybrid_step_without_cv; [apply IH|].
Qed.

End HybridFacts.

(** ** Exact arithmetic: bounds and non-finite values *)

Section ExactFacts.

Local Open Scope R_scope.









(** Every reference object of the tables has a positive real-world size. *)
Lemma linear_reference_size (key : string) (r : ReferenceObject xreal) :
  Linear.referenceObjects key = Some r ->
  exists v, 0 < v /\
    or_else (ref_width r) (ref_diameter r) = Some (Fin v).
Proof.
  unfold Linear.referenceObjects.
  repeat (destruct (String.eqb key _);
          [intros [= <-]; unfold rectangle, disc, or_else;
           cbn [ref_width ref_diameter];
           eexists; split; [|xreal; reflexivity]; lra|]).
  discriminate.
Qed.

Lemma hybrid_reference_size (key : string) (r : ReferenceObject xreal) :
  Hybrid.referenceObjects key = Some r ->
  exists v, 0 < v /\
    or_else (ref_width r) (ref_diameter r) = Some (Fin v).
Proof.
  unfold Hybrid.referenceObjects.
  repeat (destruct (String.eqb key _);
          [intros [= <-]; unfold rectangle, disc, or_else;
           cbn [ref_width ref_diameter];
           eexists; split; [|xreal; reflexivity]; lra|]).
  discriminate.
Qed.

End ExactFacts.

(** ** Calibration on a single pixel *)

Section SamePixel.

Local Open Scope R_scope.

(** A measurement taken with an infinite scale factor is not finite. *)
Lemma measuredWith_infinite (m : Measurement xreal) :
  measuredWith PInf m -> is_finite (m_distance m) = false.
Proof.
  intros (q1 & q2 & _ & Hd). rewrite Hd.
  now apply xreal_mul_not_finite_r.
Qed.

(** Two calibration clicks on one pixel leave the linear variant
    calibrated with an infinite scale factor. *)
Lemma linear_same_pixel (s0 : Linear.State xreal) (x y : R) (t1 t2 : Z)
  (reference : ReferenceObject xreal) :
  Linear.canvas s0 <> None ->
  Linear.referenceObjects (referenceKey (Linear.referenceSelect s0))
    = Some reference ->
  let s1 := fst (run [Linear.startCalibration;
                      Linear.handleCanvasClick (Fin x) (Fin y) t1;
                      Linear.handleCanvasClick (Fin x) (Fin y) t2] s0) in
  Linear.isCalibrated s1 = true /\ Linear.isCalibrationMode s1 = false /\
  Linear.calibrationFactor s1 = PInf /\
  Linear.measurements s1 = Linear.measurements s0.
Proof.
  intros Hc Href s1.
  destruct (@linear_calibrate xreal _ s0 (Fin x) (Fin y) t1 (Fin x) (Fin y) t2
              reference Hc Href) as (Hcal & Hmode & Hf & Hms).
  fold s1 in Hcal, Hmode, Hf, Hms.
  repeat split; try assumption.
  rewrite Hf. unfold pixelDistance. cbn [p_x p_y].
  rewrite xreal_euclid_same.
  destruct (linear_reference_size _ Href) as (v & Hv & ->).
  cbn [to_number]. now apply xreal_div_pos_zero.
Qed.

(** Two basic calibration clicks on one pixel leave the hybrid variant
    calibrated with a scale factor that is not finite. *)
Lemma hybrid_same_pixel {Mat : Type} (cv : OpenCVjs xreal Mat)
  (s0 : Hybrid.State xreal Mat) (x y : R) (t1 t2 : Z)
  (reference : ReferenceObject xreal) :
  Hybrid.canvas s0 <> None ->
  Hybrid.currentMode s0 <> Some Hybrid.precision
  \/ Hybrid.isOpenCVReady s0 = false ->
  Hybrid.referenceObjects (referenceKey (Hybrid.basicReferenceSelect s0))
    = Some reference ->
  let s1 := fst (run [Hybrid.startBasicCalibration;
                      Hybrid.handleCanvasClick cv (Fin x) (Fin y) t1;
                      Hybrid.handleCanvasClick cv (Fin x) (Fin y) t2] s0) in
  Hybrid.isCalibrated s1 = true /\
  Hybrid.measurements s1 = Hybrid.measurements s0 /\
  exists data f,
    Hybrid.calibrationData s1 = Some data /\
    Hybrid.cd_mode data = "enhanced_basic" /\
    Hybrid.cd_calibrationFactor data = Some f /\
    is_finite f = false.
Proof.
  intros Hc Hbasic Href s1.
  destruct (Hybrid.canvas s0) as [cnv|] eqn:Ec; [|congruence].
  destruct (hybrid_reference_size _ Href) as (v & Hv & Hsize).
  set (sa := fst (Hybrid.startBasicCalibration s0)).
  set (sb := fst (Hybrid.handleCanvasClick cv (Fin x) (Fin y) t1 sa)).
  assert (Hs1 : s1 = fst (Hybrid.handleCanvasClick cv (Fin x) (Fin y) t2 sb)).
  { subst s1 sb sa. unfold run, andThen, skip.
    destruct (Hybrid.startBasicCalibration s0) as [sa ea]. cbn [fst].
    destruct (Hybrid.handleCanvasClick cv (Fin x) (Fin y) t1 sa) as [sb eb].
    cbn [fst].
    destruct (Hybrid.handleCanvasClick cv (Fin x) (Fin y) t2 sb).
    reflexivity. }
  destruct (@hybrid_basic_first_click xreal _ Mat cv sa (Fin x) (Fin y) t1)
    as (Hp & Hm & Hcv & Hcm & Hmo & Hre & Hrf & Hms);
    try reflexivity; try (subst sa; cbn; congruence).
  fold sb in Hp, Hm, Hcv, Hcm, Hmo, Hre, Hrf, Hms.
  destruct (@hybrid_basic_second_click xreal _ Mat cv sb
              (corner (Fin x) (Fin y) (Hybrid.currentStep sa))
              (Fin x) (Fin y) t2 reference cnv)
    as (Hcal & _ & _ & Hms' & _ & data & Hdata & Hdm & Hdf & _);
    try assumption.
  - rewrite Hcv. exact Ec.
  - rewrite Hmo, Hre. exact Hbasic.
  - rewrite Hrf. subst sa. cbn. exact Href.
  - rewrite <- Hs1 in Hcal, Hms', Hdata.
    split; [exact Hcal|]. split; [now rewrite Hms', Hms|].
    eexists data, _. split; [exact Hdata|]. split; [exact Hdm|].
    split; [exact Hdf|].
    apply xreal_mul_not_finite_l.
    rewrite Hsize. unfold corner. cbn [c_x c_y to_number].
    rewrite xreal_euclid_same.
    now rewrite xreal_div_pos_zero.
Qed.

(** With a scale factor that is not finite, the second measurement click
    of the enhanced basic mode stores a distance that is not finite. *)
Lemma hybrid_measure_not_finite {Mat : Type} (cv : OpenCVjs xreal Mat)
  (s : Hybrid.State xreal Mat) (p1 : Point xreal) (x y : xreal) (now : Z)
  (data : Hybrid.CalibrationData xreal Mat) (f : xreal) :
  Hybrid.isMeasuring s = true -> Hybrid.canvas s <> None ->
  Hybrid.isCalibrationMode s = false -> Hybrid.isCalibrated s = true ->
  Hybrid.measurementPoints s = [p1] ->
  Hybrid.calibrationData s = Some data ->
  Hybrid.cd_mode data = "enhanced_basic" ->
  Hybrid.cd_calibrationFactor data = Some f -> is_finite f = false ->
  exists m,
    Hybrid.measurements (fst (Hybrid.handleCanvasClick cv x y now s)) =
      Hybrid.measurements s ++ [m] /\
    is_finite (m_distance m) = false.
Proof.
  intros Hmeas Hc Hmode Hcal Hpts Hdata Hbasic Hf Hinf.
  destruct (Hybrid.canvas s) as [cnv|] eqn:Ec; [|congruence].
  hybrid_handlers.
  repeat (progress (rewrite ?Hmeas, ?Ec, ?Hmode, ?Hpts, ?Hcal, ?Hdata,
                      ?Hbasic, ?Hf;
                    cbn -[num_mul pixelDistance Hybrid.correction
                          Hybrid.corrects])).
  destruct (Hybrid.perspectiveMatrix s);
    cbn -[num_mul pixelDistance Hybrid.correction Hybrid.corrects];
    rewrite ?Hpts, ?Hdata;
    cbn -[num_mul pixelDistance Hybrid.correction Hybrid.corrects];
    destruct (Hybrid.corrects data);
    rewrite ?Ec;
    cbn -[num_mul pixelDistance Hybrid.correction Hybrid.corrects];
    eexists; (split; [reflexivity|]); cbn [m_distance]; rewrite ?Hf;
    cbn [to_number];
    auto using xreal_mul_not_finite_l, xreal_mul_not_finite_r.
Qed.

End SamePixel.

(** ** The claims of the specification *)

Lemma run_snoc {State Effect : Type} (hs : list (Handler State Effect))
  (h : Handler State Effect) (s : State) :
  fst (run (hs ++ [h]) s) = fst (h (fst (run hs s))).
Proof.
  revert s. induction hs as [|h0 hs IH]; intros s; cbn; unfold andThen.
  - destruct (h s). reflexivity.
  - destruct (h0 s) as [s1 e1]. specialize (IH s1).
    destruct (run (hs ++ [h]) s1), (run hs s1). exact IH.
Qed.

Lemma opencv_run_reachable {num : Type} `{JSNumber num} {Mat : Type}
  (cv : OpenCVjs num Mat) (evs : list (OpenCV.Event num)) :
  opencvReachable cv (fst (run (map (OpenCV.handle cv) evs) OpenCV.constructor)).
Proof.
  induction evs as [|e evs IH] using rev_ind.
  - constructor.
  - rewrite map_app. cbn [map]. rewrite run_snoc. now constructor.
Qed.

Lemma hybrid_run_reachable {num : Type} `{JSNumber num} {Mat : Type}
  (cv : OpenCVjs num Mat) (evs : list (Hybrid.Event num)) :
  hybridReachable cv (fst (run (map (Hybrid.handle cv) evs) Hybrid.constructor)).
Proof.
  induction evs as [|e evs IH] using rev_ind.
  - constructor.
  - rewrite map_app. cbn [map]. rewrite run_snoc. now constructor.
Qed.

(** C1, as the specification words it, fails in the two-point linear
    variant: in AR mode the measure button starts measuring without a
    calibration, and two clicks 50 pixels apart append a measurement of
    50 (the scale factor is still the 1 of the constructor). *)
Lemma C1_linear_measures_uncalibrated :
  let s : Linear.State PrimFloat.float :=
    fst (run (map Linear.handle
                [Linear.SelectMode Linear.ar (Some fullHD);
                 Linear.ToggleMeasurement]) Linear.constructor) in
  let s' :=
    fst (run [Linear.handleCanvasClick (of_Z 0) (of_Z 0) 1;
              Linear.handleCanvasClick (of_Z 30) (of_Z 40) 2] s) in
  Linear.isCalibrated s = false /\ Linear.measurements s = [] /\
  Linear.isCalibrated s' = false /\
  map m_distance (Linear.measurements s') = [of_Z 50].
Proof. vm_compute. repeat split. Qed.

(** C1. Without a completed calibration the distance calculation of the
    OpenCV variant and of the hybrid variant does nothing, and a pair of
    canvas clicks leaves the measurements as they were, whatever the two
    points; the two-point linear variant refuses to start measuring without
    a calibration in camera mode only. *)
Theorem C1_uncalibrated_no_measurement {num : Type} `{JSNumber num}
  {Mat : Type} (cv : OpenCVjs num Mat) (x1 y1 x2 y2 : num) (t1 t2 : Z) :
  (forall s : OpenCV.State num Mat,
     OpenCV.isCalibrated s = false ->
     OpenCV.calculatePreciseDistance cv t2 s = (s, []) /\
     OpenCV.measurements
       (fst (run [OpenCV.handleCanvasClick cv x1 y1 t1;
                  OpenCV.handleCanvasClick cv x2 y2 t2] s))
     = OpenCV.measurements s) /\
  (forall s : Hybrid.State num Mat,
     Hybrid.isCalibrated s = false ->
     Hybrid.calculateDistance cv t2 s = (s, []) /\
     Hybrid.measurements
       (fst (run [Hybrid.handleCanvasClick cv x1 y1 t1;
                  Hybrid.handleCanvasClick cv x2 y2 t2] s))
     = Hybrid.measurements s) /\
  (forall s : Linear.State num,
     Linear.isCalibrated s = false ->
     Linear.currentMode s = Some Linear.camera ->
     Linear.toggleMeasurement s = (s, [ShowModal calibrationModal])).
Proof.
  split; [|split].
  - intros s Hcal. split.
    + unfold OpenCV.calculatePreciseDistance. rewrite Hcal.
      now destruct (OpenCV.measurementPoints s) as [|? [|? [|? ?]]].
    + cbn [run]. unfold andThen at 1.
      destruct (opencv_uncalibrated_click cv s x1 y1 t1 Hcal) as [Hm1 Hor].
      destruct (OpenCV.handleCanvasClick cv x1 y1 t1 s) as [s1 e1].
      cbn [fst] in *. unfold andThen, skip.
      destruct Hor as [Hcal1|Hmeas1].
      * destruct (opencv_uncalibrated_click cv s1 x2 y2 t2 Hcal1) as [Hm2 _].
        destruct (OpenCV.handleCanvasClick cv x2 y2 t2 s1) as [s2 e2].
        cbn [fst] in *. congruence.
      * unfold OpenCV.handleCanvasClick, when, ifS, skip.
        rewrite Hmeas1. cbn. exact Hm1.
  - intros s Hcal. split.
    + unfold Hybrid.calculateDistance. rewrite Hcal.
      now rewrite orb_true_r.
    + cbn [run]. unfold andThen at 1.
      destruct (hybrid_uncalibrated_click cv s x1 y1 t1 Hcal) as [Hm1 Hor].
      destruct (Hybrid.handleCanvasClick cv x1 y1 t1 s) as [s1 e1].
      cbn [fst] in *. unfold andThen, skip.
      destruct Hor as [Hcal1|Hmeas1].
      * destruct (hybrid_uncalibrated_click cv s1 x2 y2 t2 Hcal1) as [Hm2 _].
        destruct (Hybrid.handleCanvasClick cv x2 y2 t2 s1) as [s2 e2].
        cbn [fst] in *. congruence.
      * unfold Hybrid.handleCanvasClick, when, ifS, skip.
        rewrite Hmeas1. cbn. exact Hm1.
  - intros s Hcal Hmode. unfold Linear.toggleMeasurement.
    now rewrite Hcal, Hmode.
Qed.

Lemma C1_uncalibrated_no_measurement_witness :
  let x1 : PrimFloat.float := of_Z 0 in
  let x2 : PrimFloat.float := of_Z 30 in
  let y2 : PrimFloat.float := of_Z 40 in
  let so : OpenCV.State PrimFloat.float _ :=
    fst (run (map (OpenCV.handle doublingCv)
                [OpenCV.OpenCvReady;
                 OpenCV.SelectMode OpenCV.basic (Some fullHD)])
           OpenCV.constructor) in
  let sh : Hybrid.State PrimFloat.float _ :=
    fst (run (map (Hybrid.handle doublingCv)
                [Hybrid.OpenCVReady;
                 Hybrid.SelectMode Hybrid.basic (Some fullHD)])
           Hybrid.constructor) in
  let sl : Linear.State PrimFloat.float :=
    fst (Linear.selectMode Linear.camera (Some fullHD) Linear.constructor) in
  (OpenCV.isCalibrated so = false /\
   OpenCV.measurements
     (fst (run [OpenCV.handleCanvasClick doublingCv x1 x1 1;
                OpenCV.handleCanvasClick doublingCv x2 y2 2] so))
   = OpenCV.measurements so) /\
  (Hybrid.isCalibrated sh = false /\
   Hybrid.measurements
     (fst (run [Hybrid.handleCanvasClick doublingCv x1 x1 1;
                Hybrid.handleCanvasClick doublingCv x2 y2 2] sh))
   = Hybrid.measurements sh) /\
  (Linear.isCalibrated sl = false /\
   Linear.currentMode sl = Some Linear.camera /\
   Linear.toggleMeasurement sl = (sl, [ShowModal calibrationModal])).
Proof.
  intros x1 x2 y2 so sh sl.
  destruct (C1_uncalibrated_no_measurement doublingCv x1 x1 x2 y2 1 2)
    as (Ho & Hh & Hl).
  split; [|split].
  - split; [reflexivity|]. apply (Ho so). reflexivity.
  - split; [reflexivity|]. apply (Hh sh). reflexivity.
  - split; [reflexivity|]. split; [reflexivity|].
    apply (Hl sl); reflexivity.
Defined.



(** C3. The application holds the perspective transform as a value of the
    library only.  Precision calibration makes one call of
    [cv.getPerspectiveTransform], with the four clicked corners and the
    rectangle (0,0), (W*10,0), (W*10,H*10), (0,H*10) of the reference
    dimensions, and keeps the answer as its matrix.  Precision measurement
    makes one call of [cv.perspectiveTransform] on the two clicked points
    with that matrix, which came from the library, and the millimetre
    distance is the Euclidean distance of the two images divided by 10. *)
Theorem C3_transform_is_delegated {num : Type} `{JSNumber num} {Mat : Type}
  (cv : OpenCVjs num Mat) :
  (forall (s : OpenCV.State num Mat) (c1 c2 c3 c4 : CalibrationPoint num)
          (reference : ReferenceObject num),
     OpenCV.calibrationPoints s = [c1; c2; c3; c4] ->
     OpenCV.isOpenCVReady s = true ->
     OpenCV.referenceObject s = Some reference ->
     let src := corners c1 c2 c3 c4 in
     let dst := rectangle10 (to_number (ref_width reference))
                            (to_number (ref_height reference)) in
     let r := OpenCV.completePrecisionCalibration cv s in
     transformCalls (snd r) = [CvGetPerspectiveTransform src dst] /\
     OpenCV.perspectiveMatrix (fst r) = getPerspectiveTransform cv src dst) /\
  (forall (s : OpenCV.State num Mat) (p1 : Point num) (x y : num) (now : Z)
          (M : Mat) (d : list num),
     opencvReachable cv s ->
     OpenCV.isMeasuring s = true -> OpenCV.canvas s <> None ->
     OpenCV.isCalibrationMode s = false -> OpenCV.isCalibrated s = true ->
     OpenCV.currentMode s = Some OpenCV.precision ->
     OpenCV.perspectiveMatrix s = Some M ->
     OpenCV.measurementPoints s = [p1] ->
     perspectiveTransform cv [p_x p1; p_y p1; x; y] M = Some d ->
     let r := OpenCV.handleCanvasClick cv x y now s in
     transformCalls (snd r)
       = [CvPerspectiveTransform [p_x p1; p_y p1; x; y] M] /\
     (exists src dst, getPerspectiveTransform cv src dst = Some M) /\
     exists m,
       OpenCV.measurements (fst r) = OpenCV.measurements s ++ [m] /\
       m_distance m =
         (euclid (data32F d 0) (data32F d 1) (data32F d 2) (data32F d 3)
          / of_Z 10)%js) /\
  (forall (s : Hybrid.State num Mat) (c1 c2 c3 c4 : CalibrationPoint num)
          (reference : ReferenceObject num) (M : Mat),
     Hybrid.calibrationPoints s = [c1; c2; c3; c4] ->
     Hybrid.isOpenCVReady s = true ->
     Hybrid.referenceObject s = Some reference ->
     let src := corners c1 c2 c3 c4 in
     let dst := rectangle10 (to_number (ref_width reference))
                            (to_number (ref_height reference)) in
     let r := Hybrid.completePrecisionCalibration cv s in
     transformCalls (snd r) = [CvGetPerspectiveTransform src dst] /\
     (getPerspectiveTransform cv src dst = Some M ->
      Hybrid.perspectiveMatrix (fst r) = Some M)) /\
  (forall (s : Hybrid.State num Mat) (p1 : Point num) (x y : num) (now : Z)
          (M : Mat) (d : list num) (data : Hybrid.CalibrationData num Mat),
     hybridReachable cv s ->
     Hybrid.isMeasuring s = true -> Hybrid.canvas s <> None ->
     Hybrid.isCalibrationMode s = false -> Hybrid.isCalibrated s = true ->
     Hybrid.calibrationData s = Some data ->
     Hybrid.cd_mode data = "precision" ->
     Hybrid.perspectiveMatrix s = Some M ->
     Hybrid.measurementPoints s = [p1] ->
     perspectiveTransform cv [p_x p1; p_y p1; x; y] M = Some d ->
     let r := Hybrid.handleCanvasClick cv x y now s in
     transformCalls (snd r)
       = [CvPerspectiveTransform [p_x p1; p_y p1; x; y] M] /\
     (exists src dst, getPerspectiveTransform cv src dst = Some M) /\
     exists m,
       Hybrid.measurements (fst r) = Hybrid.measurements s ++ [m] /\
       m_distance m =
         (euclid (data32F d 0) (data32F d 1) (data32F d 2) (data32F d 3)
          / of_Z 10)%js).
Proof.
  split; [|split; [|split]].
  - intros s c1 c2 c3 c4 reference Hpts Hready Href src dst r.
    destruct (opencv_calibration_call cv s Hpts Hready Href) as (Hc & HM & _).
    split; assumption.
  - intros s p1 x y now M d Hs.
    apply opencv_precise_measurement.
    now apply opencv_reachable_calibrated.
  - intros s c1 c2 c3 c4 reference M Hpts Hready Href src dst r.
    destruct (hybrid_calibration_call cv s Hpts Hready Href) as (Hc & HM & _).
    split; [exact Hc|]. intros HS. now apply HM.
  - intros s p1 x y now M d data Hs.
    apply hybrid_precise_measurement.
    now apply hybrid_reachable_calibrated.
Qed.

Lemma C3_transform_is_delegated_witness :
  let click (x y t : Z) : OpenCV.Event PrimFloat.float :=
    OpenCV.CanvasClick (of_Z x) (of_Z y) t in
  let evs :=
    [OpenCV.OpenCvReady; OpenCV.SelectMode OpenCV.precision (Some fullHD);
     OpenCV.StartPrecisionCalibration;
     click 100 100 1; click 500 100 2; click 500 400 3; click 100 400 4;
     OpenCV.ToggleMeasurement; click 0 0 5]%Z in
  let s := fst (run (map (OpenCV.handle doublingCv) evs) OpenCV.constructor) in
  let r := OpenCV.handleCanvasClick doublingCv (of_Z 30) (of_Z 40) 6 s in
  let hclick (x y t : Z) : Hybrid.Event PrimFloat.float :=
    Hybrid.CanvasClick (of_Z x) (of_Z y) t in
  let hevs :=
    [Hybrid.OpenCVReady; Hybrid.SelectMode Hybrid.precision (Some fullHD);
     Hybrid.StartPrecisionCalibration;
     hclick 100 100 1; hclick 500 100 2; hclick 500 400 3; hclick 100 400 4;
     Hybrid.ToggleMeasurement; hclick 0 0 5]%Z in
  let sh :=
    fst (run (map (Hybrid.handle doublingCv) hevs) Hybrid.constructor) in
  let rh := Hybrid.handleCanvasClick doublingCv (of_Z 30) (of_Z 40) 6 sh in
  (OpenCV.isCalibrated s = true /\
   exists m, OpenCV.measurements (fst r) = OpenCV.measurements s ++ [m] /\
             m_distance m = of_Z 10) /\
  (Hybrid.isCalibrated sh = true /\
   exists m, Hybrid.measurements (fst rh) = Hybrid.measurements sh ++ [m] /\
             m_distance m = of_Z 10).
Proof.
  intros click evs s r hclick hevs sh rh.
  destruct (C3_transform_is_delegated (num := PrimFloat.float) doublingCv)
    as (_ & Ho & _ & Hh).
  split.
  - split; [reflexivity|].
    destruct (Ho s {| p_x := of_Z 0; p_y := of_Z 0; p_timestamp := 5 |}
                (of_Z 30) (of_Z 40) 6%Z
                (corners (corner (of_Z 100) (of_Z 100) 1)
                         (corner (of_Z 500) (of_Z 100) 2)
                         (corner (of_Z 500) (of_Z 400) 3)
                         (corner (of_Z 100) (of_Z 400) 4),
                 rectangle10 (decimal 856 10) (decimal 5398 100))
                [of_Z 0; of_Z 0; of_Z 60; of_Z 80])
      as (_ & _ & m & Hm & Hd);
      try (vm_compute; reflexivity).
    + apply opencv_run_reachable.
    + vm_compute. discriminate.
    + exists m. split; [exact Hm|]. rewrite Hd. vm_compute. reflexivity.
  - split; [reflexivity|].
    assert (Hdata : exists data, Hybrid.calibrationData sh = Some data /\
                                 Hybrid.cd_mode data = "precision")
      by (vm_compute; eexists; split; reflexivity).
    destruct Hdata as (data & Hdata & Hmode).
    destruct (Hh sh {| p_x := of_Z 0; p_y := of_Z 0; p_timestamp := 5 |}
                (of_Z 30) (of_Z 40) 6%Z
                (corners (corner (of_Z 100) (of_Z 100) 1)
                         (corner (of_Z 500) (of_Z 100) 2)
                         (corner (of_Z 500) (of_Z 400) 3)
                         (corner (of_Z 100) (of_Z 400) 4),
                 rectangle10 (decimal 856 10) (decimal 5398 100))
                [of_Z 0; of_Z 0; of_Z 60; of_Z 80] data)
      as (_ & _ & m & Hm & Hd);
      try (vm_compute; reflexivity); try assumption.
    + apply hybrid_run_reachable.
    + vm_compute. discriminate.
    + exists m. split; [exact Hm|]. rewrite Hd. vm_compute. reflexivity.
Defined.

(** C4, as the specification words it, fails: the failure flag and the
    absence of a matrix do not make the hybrid variant fall back.  After the
    loading timer has set the failure flag and the library has then reported
    ready, the flag is set and there is no matrix, yet selecting precision
    mode opens the precision calibration and the four corner clicks call
    into the library. *)
Lemma C4_precision_after_failure :
  let s : Hybrid.State PrimFloat.float _ :=
    fst (run (map (Hybrid.handle doublingCv)
                [Hybrid.LoadingTimeout; Hybrid.OpenCVReady])
           Hybrid.constructor) in
  let click (x y t : Z) : Hybrid.Event PrimFloat.float :=
    Hybrid.CanvasClick (of_Z x) (of_Z y) t in
  let calibration :=
    [Hybrid.SelectMode Hybrid.precision (Some fullHD);
     Hybrid.StartPrecisionCalibration;
     click 100 100 1; click 500 100 2; click 500 400 3; click 100 400 4]%Z in
  Hybrid.openCVFailed s = true /\ Hybrid.perspectiveMatrix s = None /\
  snd (Hybrid.selectMode Hybrid.precision (Some fullHD) s)
    = [ShowModal precisionCalibrationModal] /\
  existsb is_cv_call
    (snd (run (map (Hybrid.handle doublingCv) calibration) s)) = true.
Proof. vm_compute. repeat split. Qed.

(** C4. In the hybrid variant the fallback hangs on the ready flag and on
    the matrix.  While OpenCV.js has not reported ready, selecting precision
    mode announces the fallback and initializes the basic mode; in every
    state the application can then be in there is no matrix and no event
    makes a call into OpenCV.js.  Whenever there is no matrix, the distance
    calculation of a calibrated application with two points runs the
    enhanced basic computation. *)
Theorem C4_fallback_without_opencv {num : Type} `{JSNumber num} {Mat : Type}
  (cv : OpenCVjs num Mat) :
  (forall (s : Hybrid.State num Mat) (cam : option (Canvas num)),
     Hybrid.isOpenCVReady s = false ->
     let s1 := s <| Hybrid.currentMode := Some Hybrid.precision |> in
     Hybrid.selectMode Hybrid.precision cam s =
     (fst (Hybrid.initializeBasicMode cam s1),
      ShowMessage "OpenCV.js not available. Using enhanced basic mode instead."
      :: snd (Hybrid.initializeBasicMode cam s1))) /\
  (forall (s : Hybrid.State num Mat) (now : Z)
          (data : Hybrid.CalibrationData num Mat),
     Hybrid.perspectiveMatrix s = None ->
     Hybrid.calibrationData s = Some data ->
     List.length (Hybrid.measurementPoints s) = 2 ->
     Hybrid.isCalibrated s = true ->
     Hybrid.calculateDistance cv now s =
     try_catch (Hybrid.calculateEnhancedBasicDistance now)
       (emit (ShowError "Distance calculation failed. Please try again.")) s) /\
  (forall s : Hybrid.State num Mat,
     hybridReachable cv s -> Hybrid.isOpenCVReady s = false ->
     Hybrid.perspectiveMatrix s = None /\
     forall e : Hybrid.Event num, noCvCall (snd (Hybrid.handle cv e s))).
Proof.
  split; [|split].
  - intros s cam Hready. now apply hybrid_select_precision_fallback.
  - intros s now data. now apply hybrid_dispatch_without_matrix.
  - intros s Hs Hready.
    pose proof (hybrid_reachable_without_cv Hs Hready) as Hw.
    split; [apply Hw|].
    intros e. now apply hybrid_step_without_cv.
Qed.

Lemma C4_fallback_without_opencv_witness :
  let click (x y t : Z) : Hybrid.Event PrimFloat.float :=
    Hybrid.CanvasClick (of_Z x) (of_Z y) t in
  let evs :=
    [Hybrid.LoadingTimeout; Hybrid.SelectMode Hybrid.precision (Some fullHD);
     Hybrid.StartBasicCalibration; click 100 100 1; click 400 500 2;
     Hybrid.ToggleMeasurement; click 0 0 3]%Z in
  let s := fst (run (map (Hybrid.handle doublingCv) evs) Hybrid.constructor) in
  Hybrid.isOpenCVReady s = false /\
  Hybrid.perspectiveMatrix s = None /\
  noCvCall (snd (Hybrid.handle doublingCv (click 30 40 4)%Z s)) /\
  List.length (Hybrid.measurements
                 (fst (Hybrid.handle doublingCv (click 30 40 4)%Z s))) = 1%nat /\
  snd (Hybrid.selectMode Hybrid.precision (Some fullHD) s) =
    [ShowMessage "OpenCV.js not available. Using enhanced basic mode instead.";
     ShowModal basicCalibrationModal].
Proof.
  intros click evs s.
  destruct (C4_fallback_without_opencv (num := PrimFloat.float) doublingCv)
    as (Hselect & _ & Hreach).
  assert (Hready : Hybrid.isOpenCVReady s = false) by reflexivity.
  destruct (Hreach s (hybrid_run_reachable doublingCv evs) Hready)
    as [Hnone Hcalls].
  split; [exact Hready|]. split; [exact Hnone|].
  split; [apply Hcalls|]. split; [reflexivity|].
  rewrite (Hselect s (Some fullHD) Hready). reflexivity.
Defined.











(** In the linear variant a measuring click on a pending point with an
    infinite scale factor appends a measurement whose distance is not
    finite. *)
Lemma linear_measure_not_finite (s : Linear.State xreal) (p1 : Point xreal)
  (x y : xreal) (now : Z) :
  Linear.isMeasuring s = true -> Linear.canvas s <> None ->
  Linear.isCalibrationMode s = false ->
  Linear.measurementPoints s = [p1] ->
  Linear.calibrationFactor s = PInf ->
  exists m,
    Linear.measurements (fst (Linear.handleCanvasClick x y now s)) =
      Linear.measurements s ++ [m] /\
    is_finite (m_distance m) = false.
Proof.
  intros Hmeas Hcanvas Hmode Hpts Hf.
  destruct (Linear.canvas s) as [c|] eqn:Ec; [|congruence].
  cbv beta delta
    [Linear.handleCanvasClick Linear.calculateDistance Linear.completeCalibration
     when andThen modify emit ifS skip].
  rewrite Hmeas, Ec. cbn -[num_mul pixelDistance is_finite].
  rewrite Hmode, Hpts. cbn -[num_mul pixelDistance is_finite].
  eexists. split; [reflexivity|].
  cbn -[num_mul pixelDistance is_finite]. rewrite Hf.
  now apply xreal_mul_not_finite_r.
Qed.

(** C9. Two-point calibration has no guard on the two clicks.  When both
    land on one pixel their pixel distance is zero; the linear variant is
    left calibrated with an infinite scale factor, and until a new
    calibration every measurement it adds has a distance that is not finite;
    the enhanced basic calibration of the hybrid variant is left calibrated
    with a scale factor that is not finite, and with such a factor a
    measurement with a distance that is not finite is added. *)
Theorem C9_same_pixel_calibration (x y : R) (t1 t2 : Z) :
  pixelDistance {| p_x := Fin x; p_y := Fin y; p_timestamp := t1 |}
                {| p_x := Fin x; p_y := Fin y; p_timestamp := t2 |} = Fin 0 /\
  (forall (s0 : Linear.State xreal) (reference : ReferenceObject xreal),
     Linear.canvas s0 <> None ->
     Linear.referenceObjects (referenceKey (Linear.referenceSelect s0))
       = Some reference ->
     let s1 := fst (run [Linear.startCalibration;
                         Linear.handleCanvasClick (Fin x) (Fin y) t1;
                         Linear.handleCanvasClick (Fin x) (Fin y) t2] s0) in
     Linear.isCalibrated s1 = true /\
     Linear.calibrationFactor s1 = Infinity /\
     is_finite (Linear.calibrationFactor s1) = false /\
     forall evs : list (Linear.Event xreal),
       forallb (fun e => negb (linearStartsCalibration e)) evs = true ->
       let s2 := fst (run (map Linear.handle evs) s1) in
       Linear.calibrationFactor s2 = Infinity /\
       forall m, In m (Linear.measurements s2) ->
                 In m (Linear.measurements s0)
                 \/ is_finite (m_distance m) = false) /\
  (forall (s : Linear.State xreal) (p1 : Point xreal) (x' y' : xreal)
          (now : Z),
     Linear.isMeasuring s = true -> Linear.canvas s <> None ->
     Linear.isCalibrationMode s = false ->
     Linear.measurementPoints s = [p1] ->
     Linear.calibrationFactor s = Infinity ->
     exists m,
       Linear.measurements (fst (Linear.handleCanvasClick x' y' now s)) =
         Linear.measurements s ++ [m] /\
       is_finite (m_distance m) = false) /\
  (forall (Mat : Type) (cv : OpenCVjs xreal Mat) (s0 : Hybrid.State xreal Mat)
          (reference : ReferenceObject xreal),
     Hybrid.canvas s0 <> None ->
     Hybrid.currentMode s0 <> Some Hybrid.precision
     \/ Hybrid.isOpenCVReady s0 = false ->
     Hybrid.referenceObjects (referenceKey (Hybrid.basicReferenceSelect s0))
       = Some reference ->
     let s1 := fst (run [Hybrid.startBasicCalibration;
                         Hybrid.handleCanvasClick cv (Fin x) (Fin y) t1;
                         Hybrid.handleCanvasClick cv (Fin x) (Fin y) t2] s0) in
     Hybrid.isCalibrated s1 = true /\
     exists data f,
       Hybrid.calibrationData s1 = Some data /\
       Hybrid.cd_mode data = "enhanced_basic" /\
       Hybrid.cd_calibrationFactor data = Some f /\
       is_finite f = false) /\
  (forall (Mat : Type) (cv : OpenCVjs xreal Mat) (s : Hybrid.State xreal Mat)
          (p1 : Point xreal) (x' y' : xreal) (now : Z)
          (data : Hybrid.CalibrationData xreal Mat) (f : xreal),
     Hybrid.isMeasuring s = true -> Hybrid.canvas s <> None ->
     Hybrid.isCalibrationMode s = false -> Hybrid.isCalibrated s = true ->
     Hybrid.measurementPoints s = [p1] ->
     Hybrid.calibrationData s = Some data ->
     Hybrid.cd_mode data = "enhanced_basic" ->
     Hybrid.cd_calibrationFactor data = Some f -> is_finite f = false ->
     exists m,
       Hybrid.measurements (fst (Hybrid.handleCanvasClick cv x' y' now s)) =
         Hybrid.measurements s ++ [m] /\
       is_finite (m_distance m) = false).
Proof.
  split; [apply xreal_euclid_same|].
  split; [|split; [|split]].
  - intros s0 reference Hcanvas Href s1.
    destruct (linear_same_pixel s0 x y t1 t2 Hcanvas Href)
      as (Hcal & Hmode & Hf & Hms).
    fold s1 in Hcal, Hmode, Hf, Hms.
    split; [exact Hcal|]. split; [exact Hf|].
    split; [now rewrite Hf|].
    intros evs Hevs s2.
    destruct (linear_run_keeps_factor (Linear.measurements s0) evs Hevs s1
                Hmode Hf) as [Hf2 Hms2].
    { intros m Hm. left. now rewrite <- Hms. }
    split; [exact Hf2|].
    intros m Hm. destruct (Hms2 m Hm) as [Hin|Hinf]; [now left|].
    right. now apply measuredWith_infinite.
  - intros s p1 x' y' now. apply linear_measure_not_finite.
  - intros Mat cv s0 reference Hcanvas Hbasic Href s1.
    destruct (hybrid_same_pixel cv s0 x y t1 t2 Hcanvas Hbasic Href)
      as (Hcal & _ & Hdata).
    split; assumption.
  - intros Mat cv s p1 x' y' now data f.
    apply hybrid_measure_not_finite.
Qed.

Lemma C9_same_pixel_calibration_witness :
  let s0 : Linear.State xreal :=
    Linear.constructor <| Linear.canvas := Some fullHD |> in
  let s1 := fst (run [Linear.startCalibration;
                      Linear.handleCanvasClick (Fin 5) (Fin 7) 1;
                      Linear.handleCanvasClick (Fin 5) (Fin 7) 2] s0) in
  let evs := [Linear.ToggleMeasurement;
              Linear.CanvasClick (Fin 0) (Fin 0) 3;
              Linear.CanvasClick (Fin 30) (Fin 40) 4] in
  let s2 := fst (run (map Linear.handle evs) s1) in
  Linear.canvas s0 = Some fullHD /\
  Linear.isCalibrated s1 = true /\
  Linear.calibrationFactor s1 = Infinity /\
  forall m, In m (Linear.measurements s2) ->
            In m (Linear.measurements s0) \/ is_finite (m_distance m) = false.
Proof.
  intros s0 s1 evs s2.
  assert (Hcanvas : Linear.canvas s0 = Some fullHD) by reflexivity.
  assert (Hsome : Linear.canvas s0 <> None)
    by (rewrite Hcanvas; discriminate).
  destruct (C9_same_pixel_calibration 5 7 1 2) as (_ & Hl & _).
  destruct (Hl s0 (rectangle "Credit Card" (decimal 856 10)
                     (decimal 5398 100)) Hsome eq_refl)
    as (Hcal & Hf & _ & Hrest).
  split; [exact Hcanvas|]. split; [exact Hcal|]. split; [exact Hf|].
  apply (Hrest evs eq_refl).
Defined.

(** The same-pixel calibration in floating point: the scale factor of the
    linear variant is infinite, and the next measurement has an infinite
    distance. *)
Example same_pixel_in_floating_point :
  let s1 : Linear.State PrimFloat.float :=
    fst (run (map Linear.handle
                [Linear.SelectMode Linear.camera (Some fullHD);
                 Linear.StartCalibration;
                 Linear.CanvasClick (of_Z 5) (of_Z 7) 1;
                 Linear.CanvasClick (of_Z 5) (of_Z 7) 2])
           Linear.constructor) in
  let s2 :=
    fst (run (map Linear.handle
                [Linear.ToggleMeasurement;
                 Linear.CanvasClick (of_Z 0) (of_Z 0) 3;
                 Linear.CanvasClick (of_Z 30) (of_Z 40) 4]) s1) in
  Linear.isCalibrated s1 = true /\
  Linear.calibrationFactor s1 = Infinity /\
  map m_distance (Linear.measurements s2) = [Infinity].
Proof. vm_compute. repeat split. Qed.

(** C10. The claim fails in the OpenCV variant: [calculatePreciseDistance]
    returns early when the application is not calibrated, and leaves early
    through its [catch] when OpenCV.js throws, without emptying the pending
    points.  A recalibration request while measuring clears the calibration
    and keeps the measuring on: the next three clicks leave three pending
    points and no measurement.  With a library that delivers the matrix and
    then throws on the transform, three clicks after a calibration leave
    three pending points as well. *)
Theorem C10_three_pending_points :
  let click (x y t : Z) : OpenCV.Event PrimFloat.float :=
    OpenCV.CanvasClick (of_Z x) (of_Z y) t in
  let calibration :=
    [OpenCV.OpenCvReady; OpenCV.SelectMode OpenCV.precision (Some fullHD);
     OpenCV.StartPrecisionCalibration;
     click 100 100 1; click 500 100 2; click 500 400 3; click 100 400 4;
     OpenCV.ToggleMeasurement]%Z in
  let three := [click 0 0 5; click 30 40 6; click 60 80 7]%Z in
  let s :=
    fst (run (map (OpenCV.handle doublingCv)
                (calibration ++ OpenCV.ShowRecalibration :: three))
           OpenCV.constructor) in
  let s' :=
    fst (run (map (OpenCV.handle lostTransformCv) (calibration ++ three))
           OpenCV.constructor) in
  opencvReachable doublingCv s /\
  List.length (OpenCV.measurementPoints s) = 3 /\
  OpenCV.measurements s = [] /\
  opencvReachable lostTransformCv s' /\
  List.length (OpenCV.measurementPoints s') = 3 /\
  OpenCV.measurements s' = [].
Proof.
  intros click calibration three s s'.
  split; [apply opencv_run_reachable|].
  split; [reflexivity|]. split; [reflexivity|].
  split; [apply opencv_run_reachable|].
  split; reflexivity.
Qed.


(** * Further properties of the handlers *)

(** ** The two-point linear variant *)

(** No key adds a measurement or touches the calibration, the canvas or the
    unit; the stored measurements go only with Ctrl+C or Cmd+C; and a key
    pressed in an input field or a select does nothing at all. *)
Theorem linear_keyboard_shortcuts {num : Type} `{JSNumber num}
  (event : Linear.KeyboardEvent) (now : Z) (s : Linear.State num) :
  let s' := fst (Linear.handleKeyboard event now s) in
  Linear.isCalibrated s' = Linear.isCalibrated s /\
  Linear.calibrationFactor s' = Linear.calibrationFactor s /\
  Linear.canvas s' = Linear.canvas s /\
  Linear.currentUnit s' = Linear.currentUnit s /\
  (Linear.measurements s' = Linear.measurements s \/
   Linear.measurements s' = [] /\ Linear.code event = "KeyC" /\
   (Linear.ctrlKey event || Linear.metaKey event) = true) /\
  (Linear.target_tagName event = "INPUT"
   \/ Linear.target_tagName event = "SELECT" ->
   Linear.handleKeyboard event now s = (s, [])).
Proof.
  unfold Linear.handleKeyboard.
  destruct (String.eqb_spec (Linear.target_tagName event) "INPUT") as [Hi|Hi];
    [cbn; repeat split; auto|].
  destruct (String.eqb_spec (Linear.target_tagName event) "SELECT") as [Hs|Hs];
    [cbn; repeat split; auto|].
  cbn [orb].
  assert (Hno : Linear.target_tagName event = "INPUT"
                \/ Linear.target_tagName event = "SELECT" -> False)
    by (intros [?|?]; contradiction).
  destruct (String.eqb_spec (Linear.code event) "Space") as [Hc|_].
  { linear_handlers. branches; repeat split; auto; intros; now exfalso. }
  destruct (String.eqb_spec (Linear.code event) "Escape") as [Hc|_].
  { linear_handlers. cbn. repeat split; auto; intros; now exfalso. }
  destruct (String.eqb_spec (Linear.code event) "KeyC") as [Hc|_].
  { linear_handlers.
    destruct (Linear.ctrlKey event || Linear.metaKey event) eqn:Hmod; cbn;
      repeat split; auto; intros; now exfalso. }
  destruct (String.eqb_spec (Linear.code event) "KeyE") as [Hc|_].
  { linear_handlers.
    destruct (Linear.ctrlKey event || Linear.metaKey event) eqn:Hmod; cbn;
      [|repeat split; auto; intros; now exfalso].
    destruct (List.length (Linear.measurements s) =? 0)%nat; cbn;
      repeat split; auto; intros; now exfalso. }
  destruct (String.eqb_spec (Linear.code event) "F1") as [Hc|_];
    cbn; repeat split; auto; intros; now exfalso.
Qed.

Lemma linear_keyboard_shortcuts_witness :
  let event := {| Linear.target_tagName := "INPUT"; Linear.code := "Escape";
                  Linear.ctrlKey := false; Linear.metaKey := false |} in
  let s : Linear.State PrimFloat.float :=
    fst (run (map Linear.handle
                [Linear.SelectMode Linear.ar (Some fullHD);
                 Linear.ToggleMeasurement]) Linear.constructor) in
  Linear.handleKeyboard event 1 s = (s, []).
Proof.
  intros event s.
  apply (linear_keyboard_shortcuts event 1 s). left. reflexivity.
Defined.

(** No event clears the calibration flag of the linear variant: a
    calibration outlives the return to the mode selection, a change of mode
    and the clearing of the measurements. *)
Theorem linear_calibration_persists {num : Type} `{JSNumber num}
  (evs : list (Linear.Event num)) (s : Linear.State num) :
  Linear.isCalibrated s = true ->
  Linear.isCalibrated (fst (run (map Linear.handle evs) s)) = true.
Proof.
  revert s. induction evs as [|e evs IH]; intros s Hcal; [exact Hcal|].
  cbn [map run]. unfold andThen.
  assert (Hstep : Linear.isCalibrated (fst (Linear.handle e s)) = true).
  { destruct e; cbn [Linear.handle]; linear_handlers; branches; auto;
      congruence. }
  destruct (Linear.handle e s) as [s1 e1]. cbn [fst] in Hstep.
  specialize (IH s1 Hstep).
  destruct (run (map Linear.handle evs) s1). exact IH.
Qed.

Lemma linear_calibration_persists_witness :
  let s : Linear.State PrimFloat.float :=
    fst (run (map Linear.handle
                [Linear.SelectMode Linear.camera (Some fullHD);
                 Linear.StartCalibration;
                 Linear.CanvasClick (of_Z 100) (of_Z 100) 1;
                 Linear.CanvasClick (of_Z 400) (of_Z 500) 2])
           Linear.constructor) in
  let evs := [Linear.GoBack; Linear.SelectMode Linear.ar None;
              Linear.ClearMeasurements] in
  Linear.isCalibrated s = true /\
  Linear.currentMode (fst (run (map Linear.handle evs) s)) = Some Linear.ar /\
  Linear.isCalibrated (fst (run (map Linear.handle evs) s)) = true.
Proof.
  intros s evs.
  assert (Hcal : Linear.isCalibrated s = true) by reflexivity.
  split; [exact Hcal|]. split; [reflexivity|].
  apply (linear_calibration_persists evs s Hcal).
Defined.

(** As long as the reference select holds a key of the table, the linear
    variant never has more than one pending point between two events:
    the second point is consumed by the calibration or by the distance
    calculation. *)
Theorem linear_one_pending_point {num : Type} `{JSNumber num}
  (evs : list (Linear.Event num)) :
  forallb linearKnownKey evs = true ->
  List.length
    (Linear.measurementPoints
       (fst (run (map Linear.handle evs) Linear.constructor))) <= 1.
Proof.
  intros Hevs.
  assert (Hinv : forall s : Linear.State num,
            List.length (Linear.measurementPoints s) <= 1 ->
            Linear.referenceObjects (referenceKey (Linear.referenceSelect s))
              <> None ->
            List.length
              (Linear.measurementPoints
                 (fst (run (map Linear.handle evs) s))) <= 1).
  { induction evs as [|e evs IH]; intros s Hlen Href; [exact Hlen|].
    cbn [forallb] in Hevs. apply andb_prop in Hevs as [He Hevs].
    cbn [map run]. unfold andThen.
    assert (Hstep :
              List.length
                (Linear.measurementPoints (fst (Linear.handle e s))) <= 1 /\
              Linear.referenceObjects
                (referenceKey
                   (Linear.referenceSelect (fst (Linear.handle e s))))
                <> None).
    { destruct e; cbn [Linear.handle]; linear_handlers;
        try (branches; auto; cbn; auto; lia).
      - split; [exact Hlen|].
        change (Linear.referenceObjects (num := num) (referenceKey (Some key))
                <> None).
        unfold linearKnownKey in He.
        destruct (Linear.referenceObjects (referenceKey (Some key)));
          [discriminate|discriminate He].
      - destruct (Linear.isMeasuring s), (Linear.canvas s); cbn; auto.
        destruct (Linear.referenceObjects
                    (referenceKey (Linear.referenceSelect s))) eqn:Er;
          [|congruence].
        destruct (Linear.measurementPoints s) as [|p1 [|p2 l]];
          cbn in Hlen; try lia; cbn.
        + destruct (Linear.isCalibrationMode s); cbn; rewrite ?Er;
            split; auto; discriminate.
        + destruct (Linear.isCalibrationMode s); cbn; rewrite ?Er; cbn;
            split; auto; discriminate. }
    destruct Hstep as [Hlen1 Href1].
    destruct (Linear.handle e s) as [s1 e1]. cbn [fst] in Hlen1, Href1.
    specialize (IH Hevs s1 Hlen1 Href1).
    destruct (run (map Linear.handle evs) s1). exact IH. }
  apply Hinv; [cbn; lia|]. cbn. discriminate.
Qed.

Lemma linear_one_pending_point_witness :
  let evs : list (Linear.Event PrimFloat.float) :=
    [Linear.ReferenceChange "quarter";
     Linear.SelectMode Linear.camera (Some fullHD);
     Linear.StartCalibration;
     Linear.CanvasClick (of_Z 100) (of_Z 100) 1;
     Linear.CanvasClick (of_Z 400) (of_Z 500) 2;
     Linear.ToggleMeasurement;
     Linear.CanvasClick (of_Z 0) (of_Z 0) 3] in
  List.length
    (Linear.measurementPoints
       (fst (run (map Linear.handle evs) Linear.constructor))) = 1 /\
  List.length
    (Linear.measurementPoints
       (fst (run (map Linear.handle evs) Linear.constructor))) <= 1.
Proof.
  intros evs. split; [reflexivity|].
  apply (linear_one_pending_point evs). reflexivity.
Defined.


(** With a reference key that is not in the table, the two calibration
    clicks of the linear variant calibrate nothing and say nothing: both
    points stay pending in calibration mode, and a third click makes three. *)
Theorem linear_unknown_reference {num : Type} `{JSNumber num}
  (s0 : Linear.State num) (x1 y1 : num) (t1 : Z) (x2 y2 : num) (t2 : Z)
  (x3 y3 : num) (t3 : Z) :
  Linear.canvas s0 <> None ->
  Linear.referenceObjects (referenceKey (Linear.referenceSelect s0)) = None ->
  let p1 := {| p_x := x1; p_y := y1; p_timestamp := t1 |} in
  let p2 := {| p_x := x2; p_y := y2; p_timestamp := t2 |} in
  let p3 := {| p_x := x3; p_y := y3; p_timestamp := t3 |} in
  let r := run [Linear.startCalibration;
                Linear.handleCanvasClick x1 y1 t1;
                Linear.handleCanvasClick x2 y2 t2] s0 in
  let s2 := fst (Linear.handleCanvasClick x3 y3 t3 (fst r)) in
  Linear.isCalibrated (fst r) = Linear.isCalibrated s0 /\
  Linear.calibrationFactor (fst r) = Linear.calibrationFactor s0 /\
  Linear.isCalibrationMode (fst r) = true /\
  Linear.measurementPoints (fst r) = [p1; p2] /\
  snd r = snd (Linear.startCalibration s0) /\
  Linear.isCalibrated s2 = Linear.isCalibrated s0 /\
  Linear.measurementPoints s2 = [p1; p2; p3].
Proof.
  intros Hc Href p1 p2 p3 r s2. subst s2 r.
  destruct (Linear.canvas s0) as [c|] eqn:Ec; [|congruence].
  unfold run. linear_handlers.
  cbn. rewrite Ec. cbn. rewrite Ec. cbn. rewrite Href. cbn. rewrite Ec. cbn.
  repeat split.
Qed.

Lemma linear_unknown_reference_witness :
  let s0 : Linear.State PrimFloat.float :=
    fst (run (map Linear.handle
                [Linear.SelectMode Linear.camera (Some fullHD);
                 Linear.ReferenceChange "custom"]) Linear.constructor) in
  let s1 := fst (run [Linear.startCalibration;
                      Linear.handleCanvasClick (of_Z 100) (of_Z 100) 1;
                      Linear.handleCanvasClick (of_Z 400) (of_Z 500) 2] s0) in
  Linear.canvas s0 = Some fullHD /\
  Linear.isCalibrated s1 = false /\
  List.length (Linear.measurementPoints s1) = 2.
Proof.
  intros s0 s1.
  assert (Hcanvas : Linear.canvas s0 = Some fullHD) by reflexivity.
  assert (Hsome : Linear.canvas s0 <> None)
    by (rewrite Hcanvas; discriminate).
  destruct (linear_unknown_reference s0 (of_Z 100) (of_Z 100) 1
              (of_Z 400) (of_Z 500) 2 (of_Z 0) (of_Z 0) 3 Hsome eq_refl)
    as (Hcal & _ & _ & Hpts & _).
  split; [exact Hcanvas|]. split; [exact Hcal|].
  unfold s1. now rewrite Hpts.
Defined.





(** ** The three variants *)

(** Closes a case in which a list would be itself with one more element,
    or empty with one more element. *)
Ltac no_append :=
  match goal with
  | E : ?l = ?l ++ [_] |- _ =>
      apply (f_equal (@List.length _)) in E; rewrite length_app in E;
      cbn in E; lia
  | E : [] = _ ++ [_] |- _ => symmetry in E; now apply app_cons_not_nil in E
  end.

(** An event that appends a measurement ends the measuring: no point is
    left pending and the application is no longer measuring, so that the
    next measurement needs a new start. *)
Theorem measurement_ends_measuring {num : Type} `{JSNumber num} {Mat : Type}
  (cv : OpenCVjs num Mat) :
  (forall (e : Linear.Event num) (s : Linear.State num) (m : Measurement num),
     let s' := fst (Linear.handle e s) in
     Linear.measurements s' = Linear.measurements s ++ [m] ->
     Linear.isMeasuring s' = false /\ Linear.measurementPoints s' = []) /\
  (forall (e : OpenCV.Event num) (s : OpenCV.State num Mat)
          (m : Measurement num),
     let s' := fst (OpenCV.handle cv e s) in
     OpenCV.measurements s' = OpenCV.measurements s ++ [m] ->
     OpenCV.isMeasuring s' = false /\ OpenCV.measurementPoints s' = []) /\
  (forall (e : Hybrid.Event num) (s : Hybrid.State num Mat)
          (m : Measurement num),
     let s' := fst (Hybrid.handle cv e s) in
     Hybrid.measurements s' = Hybrid.measurements s ++ [m] ->
     Hybrid.isMeasuring s' = false /\ Hybrid.measurementPoints s' = []).
Proof.
  split; [|split].
  - intros e s m.
    destruct e; cbn [Linear.handle]; linear_handlers; branches;
      intros Hm; try no_append; auto.
  - intros e s m.
    destruct e; cbn [OpenCV.handle]; opencv_handlers; branches;
      intros Hm; try no_append; auto.
  - intros e s m.
    destruct e; cbn [Hybrid.handle]; hybrid_handlers; branches;
      intros Hm; try no_append; auto.
Qed.

Lemma measurement_ends_measuring_witness :
  let s : Linear.State PrimFloat.float :=
    fst (run (map Linear.handle
                [Linear.SelectMode Linear.ar (Some fullHD);
                 Linear.ToggleMeasurement;
                 Linear.CanvasClick (of_Z 0) (of_Z 0) 1])
           Linear.constructor) in
  let s' := fst (Linear.handle (Linear.CanvasClick (of_Z 30) (of_Z 40) 2) s) in
  Linear.isMeasuring s = true /\
  List.length (Linear.measurements s') = 1 /\
  Linear.isMeasuring s' = false /\ Linear.measurementPoints s' = [].
Proof.
  intros s s'. split; [reflexivity|]. split; [reflexivity|].
  assert (Happ : exists m, Linear.measurements s'
                           = Linear.measurements s ++ [m])
    by (vm_compute; eexists; reflexivity).
  destruct Happ as [m Happ].
  apply (proj1 (measurement_ends_measuring (num := PrimFloat.float)
                  doublingCv)
           (Linear.CanvasClick (of_Z 30) (of_Z 40) 2) s m Happ).
Defined.

(** Clearing the measurements leaves nothing to export: no measurement and
    no pending point are left, the measuring is off, the calibration is as
    it was, and an export right after reports the error and downloads
    nothing. *)
Theorem clear_then_export {num : Type} `{JSNumber num} {Mat : Type}
  (now : Z) :
  (forall s : Linear.State num,
     let s1 := fst (Linear.clearMeasurements s) in
     Linear.measurements s1 = [] /\ Linear.measurementPoints s1 = [] /\
     Linear.isMeasuring s1 = false /\
     Linear.isCalibrated s1 = Linear.isCalibrated s /\
     Linear.calibrationFactor s1 = Linear.calibrationFactor s /\
     Linear.exportMeasurements now s1
       = (s1, [ShowError "No measurements to export"])) /\
  (forall s : OpenCV.State num Mat,
     let s1 := fst (OpenCV.clearMeasurements s) in
     OpenCV.measurements s1 = [] /\ OpenCV.measurementPoints s1 = [] /\
     OpenCV.isMeasuring s1 = false /\
     OpenCV.isCalibrated s1 = OpenCV.isCalibrated s /\
     OpenCV.calibrationData s1 = OpenCV.calibrationData s /\
     OpenCV.perspectiveMatrix s1 = OpenCV.perspectiveMatrix s /\
     OpenCV.exportMeasurements now s1
       = (s1, [ShowError "No measurements to export"])) /\
  (forall s : Hybrid.State num Mat,
     let s1 := fst (Hybrid.clearMeasurements s) in
     Hybrid.measurements s1 = [] /\ Hybrid.measurementPoints s1 = [] /\
     Hybrid.isMeasuring s1 = false /\
     Hybrid.isCalibrated s1 = Hybrid.isCalibrated s /\
     Hybrid.calibrationData s1 = Hybrid.calibrationData s /\
     Hybrid.perspectiveMatrix s1 = Hybrid.perspectiveMatrix s /\
     Hybrid.exportMeasurements now s1
       = (s1, [ShowError "No measurements to export"])).
Proof.
  split; [|split]; intros s; cbn; repeat split.
Qed.

(** A measuring click that does not bring the pending points to two is
    taken back by the undo button: the state is what it was before the
    click. *)
Theorem click_then_undo {num : Type} `{JSNumber num} {Mat : Type}
  (cv : OpenCVjs num Mat) (x y : num) (now : Z) :
  (forall s : OpenCV.State num Mat,
     OpenCV.isMeasuring s = true -> OpenCV.canvas s <> None ->
     OpenCV.isCalibrationMode s = false ->
     List.length (OpenCV.measurementPoints s) <> 1 ->
     fst (OpenCV.undoLastPoint (fst (OpenCV.handleCanvasClick cv x y now s)))
     = s) /\
  (forall s : Hybrid.State num Mat,
     Hybrid.isMeasuring s = true -> Hybrid.canvas s <> None ->
     Hybrid.isCalibrationMode s = false ->
     List.length (Hybrid.measurementPoints s) <> 1 ->
     fst (Hybrid.undoLastPoint (fst (Hybrid.handleCanvasClick cv x y now s)))
     = s).
Proof.
  split.
  - intros s Hmeas Hcanvas Hmode Hlen.
    destruct (OpenCV.canvas s) as [c|] eqn:Ec; [|congruence].
    cbv beta delta
      [OpenCV.handleCanvasClick OpenCV.handleMeasurementClick
       OpenCV.undoLastPoint when andThen modify emit ifS skip].
    rewrite Hmeas, Ec, Hmode. cbn -[Nat.eqb Nat.ltb removelast].
    assert (Hne : (List.length
                     (OpenCV.measurementPoints s ++
                      [{| p_x := x; p_y := y; p_timestamp := now |}])
                   =? 2)%nat = false).
    { apply Nat.eqb_neq. rewrite length_app. cbn. lia. }
    rewrite Hne. cbn -[Nat.ltb removelast].
    assert (Hpos : (0 <? List.length
                           (OpenCV.measurementPoints s ++
                            [{| p_x := x; p_y := y; p_timestamp := now |}]))%nat
                   = true).
    { apply Nat.ltb_lt. rewrite length_app. cbn. lia. }
    rewrite Hpos. cbn -[removelast]. rewrite removelast_last.
    destruct s; reflexivity.
  - intros s Hmeas Hcanvas Hmode Hlen.
    destruct (Hybrid.canvas s) as [c|] eqn:Ec; [|congruence].
    cbv beta delta
      [Hybrid.handleCanvasClick Hybrid.handleMeasurementClick
       Hybrid.undoLastPoint when andThen modify emit ifS skip].
    rewrite Hmeas, Ec, Hmode. cbn -[Nat.eqb Nat.ltb removelast].
    assert (Hne : (List.length
                     (Hybrid.measurementPoints s ++
                      [{| p_x := x; p_y := y; p_timestamp := now |}])
                   =? 2)%nat = false).
    { apply Nat.eqb_neq. rewrite length_app. cbn. lia. }
    rewrite Hne. cbn -[Nat.ltb removelast].
    assert (Hpos : (0 <? List.length
                           (Hybrid.measurementPoints s ++
                            [{| p_x := x; p_y := y; p_timestamp := now |}]))%nat
                   = true).
    { apply Nat.ltb_lt. rewrite length_app. cbn. lia. }
    rewrite Hpos. cbn -[removelast]. rewrite removelast_last.
    destruct s; reflexivity.
Qed.


(** ** The OpenCV variant *)

(** Precision mode and AR mode need the library: selected before OpenCV.js
    is ready they report that it is still loading and go back to the mode
    selection, without opening the camera. *)
Theorem opencv_precision_needs_library {num : Type} `{JSNumber num}
  {Mat : Type} (mode : OpenCV.Mode) (cam : option (Canvas num))
  (s : OpenCV.State num Mat) :
  mode <> OpenCV.basic -> OpenCV.isOpenCVReady s = false ->
  let r := OpenCV.selectMode mode cam s in
  In (ShowError "OpenCV.js is still loading. Please wait and try again.")
     (snd r) /\
  OpenCV.currentMode (fst r) = None /\
  OpenCV.canvas (fst r) = OpenCV.canvas s /\
  OpenCV.isMeasuring (fst r) = false /\
  OpenCV.measurementPoints (fst r) = [] /\
  OpenCV.isCalibrated (fst r) = false /\
  OpenCV.perspectiveMatrix (fst r) = None /\
  OpenCV.measurements (fst r) = OpenCV.measurements s.
Proof.
  intros Hmode Hready r. subst r.
  destruct mode; [| |congruence];
    opencv_handlers; cbn; rewrite Hready; cbn;
    destruct (OpenCV.perspectiveMatrix s); cbn; repeat split; auto.
Qed.

Lemma opencv_precision_needs_library_witness :
  let r := OpenCV.selectMode (num := PrimFloat.float) (Mat := unit)
             OpenCV.ar (Some fullHD) OpenCV.constructor in
  OpenCV.currentMode (fst r) = None /\ OpenCV.canvas (fst r) = None.
Proof.
  intros r.
  destruct (@opencv_precision_needs_library PrimFloat.float _ unit
              OpenCV.ar (Some fullHD) OpenCV.constructor)
    as (_ & Hmode & Hcanvas & _); [discriminate|reflexivity|].
  split; [exact Hmode|exact Hcanvas].
Defined.

Lemma opencv_step_of_one_piece {num : Type} `{JSNumber num} {Mat : Type}
  (cv : OpenCVjs num Mat) (e : OpenCV.Event num) (s : OpenCV.State num Mat) :
  opencvOfOnePiece s -> opencvOfOnePiece (fst (OpenCV.handle cv e s)).
Proof.
  unfold opencvOfOnePiece. intros Hs.
  destruct (OpenCV.isCalibrated s) eqn:Ecal,
    (OpenCV.perspectiveMatrix s) eqn:Emat,
    (OpenCV.calibrationData s) eqn:Edata; try contradiction;
    destruct e; cbn [OpenCV.handle]; opencv_handlers;
    branches; try exact I; try assumption; try congruence.
Qed.

(** The calibration of the OpenCV variant is of one piece in every state
    the application can be in: it is calibrated exactly when it holds a
    matrix and exactly when it holds calibration data, and only with
    OpenCV.js ready. *)
Theorem opencv_calibration_of_one_piece {num : Type} `{JSNumber num}
  {Mat : Type} (cv : OpenCVjs num Mat) (s : OpenCV.State num Mat) :
  opencvReachable cv s ->
  (OpenCV.isCalibrated s = true <-> OpenCV.perspectiveMatrix s <> None) /\
  (OpenCV.isCalibrated s = true <-> OpenCV.calibrationData s <> None) /\
  (OpenCV.isCalibrated s = true -> OpenCV.isOpenCVReady s = true).
Proof.
  intros Hs.
  assert (Hone : opencvOfOnePiece s).
  { induction Hs as [|s e Hs IH]; [exact I|].
    now apply opencv_step_of_one_piece. }
  unfold opencvOfOnePiece in Hone.
  destruct (OpenCV.isCalibrated s), (OpenCV.perspectiveMatrix s),
    (OpenCV.calibrationData s); try contradiction;
    repeat split; intros; try discriminate; try congruence; auto.
Qed.

Lemma opencv_calibration_of_one_piece_witness :
  let click (x y t : Z) : OpenCV.Event PrimFloat.float :=
    OpenCV.CanvasClick (of_Z x) (of_Z y) t in
  let evs :=
    [OpenCV.OpenCvReady; OpenCV.SelectMode OpenCV.precision (Some fullHD);
     OpenCV.StartPrecisionCalibration;
     click 100 100 1; click 500 100 2; click 500 400 3; click 100 400 4]%Z in
  let s := fst (run (map (OpenCV.handle doublingCv) evs) OpenCV.constructor) in
  OpenCV.isCalibrated s = true /\ OpenCV.perspectiveMatrix s <> None /\
  OpenCV.calibrationData s <> None.
Proof.
  intros click evs s.
  destruct (opencv_calibration_of_one_piece
              (opencv_run_reachable doublingCv evs))
    as ([Hmat _] & [Hdata _] & _).
  assert (Hcal : OpenCV.isCalibrated s = true) by reflexivity.
  split; [exact Hcal|]. split; [exact (Hmat Hcal)|exact (Hdata Hcal)].
Defined.


(** Canvas clicks never calibrate a state whose step counter is not ahead
    of the recorded corners. *)
Lemma opencv_click_behind {num : Type} `{JSNumber num} {Mat : Type}
  (cv : OpenCVjs num Mat) (s : OpenCV.State num Mat) (x y : num) (now : Z) :
  OpenCV.currentStep s <= List.length (OpenCV.calibrationPoints s) ->
  let s' := fst (OpenCV.handleCanvasClick cv x y now s) in
  OpenCV.currentStep s' <= List.length (OpenCV.calibrationPoints s') /\
  OpenCV.isCalibrated s' = OpenCV.isCalibrated s /\
  OpenCV.perspectiveMatrix s' = OpenCV.perspectiveMatrix s.
Proof.
  intros Hstep. opencv_handlers.
  branches;
    repeat match goal with
           | E : _ ++ [_] = _ |- _ =>
               apply (f_equal (@List.length _)) in E;
               rewrite length_app in E; cbn in E
           | E : (_ <? _)%nat = true |- _ => apply Nat.ltb_lt in E
           | E : (_ <? _)%nat = false |- _ => apply Nat.ltb_ge in E
           | E : (_ <=? _)%nat = true |- _ => apply Nat.leb_le in E
           | E : (_ <=? _)%nat = false |- _ => apply Nat.leb_gt in E
           end;
    try (exfalso; lia);
    repeat split; rewrite ?length_app; cbn; try lia; auto; try congruence.
Qed.

(** A calibration that fails at the fourth corner, because the reference
    key is not in the table or because OpenCV.js throws, reports the
    failure and resets the calibration, but stays in calibration mode with
    the step counter at 0.  From there on no number of canvas clicks
    calibrates: the calibration has to be started again. *)
Theorem opencv_failed_calibration {num : Type} `{JSNumber num} {Mat : Type}
  (cv : OpenCVjs num Mat) (s : OpenCV.State num Mat)
  (c1 c2 c3 : CalibrationPoint num) (x y : num) (now : Z) :
  OpenCV.isMeasuring s = true -> OpenCV.canvas s <> None ->
  OpenCV.isCalibrationMode s = true -> OpenCV.currentStep s = 4 ->
  OpenCV.calibrationPoints s = [c1; c2; c3] ->
  OpenCV.isOpenCVReady s = true ->
  (OpenCV.referenceObject s = None \/
   forall src dst, getPerspectiveTransform cv src dst = None) ->
  let r := OpenCV.handleCanvasClick cv x y now s in
  In (ShowError
        "Calibration failed. Please try again with clearer corner points.")
     (snd r) /\
  OpenCV.isCalibrated (fst r) = false /\
  OpenCV.perspectiveMatrix (fst r) = None /\
  OpenCV.calibrationData (fst r) = None /\
  OpenCV.calibrationPoints (fst r) = [] /\
  OpenCV.currentStep (fst r) = 0 /\
  OpenCV.isCalibrationMode (fst r) = true /\
  OpenCV.isMeasuring (fst r) = true /\
  forall clicks : list (OpenCV.Event num),
    forallb opencvIsClick clicks = true ->
    OpenCV.isCalibrated
      (fst (run (map (OpenCV.handle cv) clicks) (fst r))) = false.
Proof.
  intros Hmeas Hcanvas Hmode Hstep Hpts Hready Hfail r.
  assert (Hr : In (ShowError
                "Calibration failed. Please try again with clearer corner points.")
                (snd r) /\
               OpenCV.isCalibrated (fst r) = false /\
               OpenCV.perspectiveMatrix (fst r) = None /\
               OpenCV.calibrationData (fst r) = None /\
               OpenCV.calibrationPoints (fst r) = [] /\
               OpenCV.currentStep (fst r) = 0 /\
               OpenCV.isCalibrationMode (fst r) = true /\
               OpenCV.isMeasuring (fst r) = true).
  { subst r. rewrite (opencv_fourth_click cv s x y now Hmeas Hcanvas Hmode Hstep).
    unfold OpenCV.completePrecisionCalibration.
    cbn [OpenCV.calibrationPoints OpenCV.isOpenCVReady set
         OpenCV.set_calibrationPoints].
    rewrite Hpts, Hready. cbn [app].
    unfold try_catch, OpenCV.computePerspective.
    cbn [OpenCV.referenceObject OpenCV.calibrationPoints set
         OpenCV.set_calibrationPoints].
    destruct Hfail as [Href|Hthrow].
    - rewrite Href. cbn. rewrite Hmode, Hmeas. repeat split; auto.
    - destruct (OpenCV.referenceObject s); [rewrite Hthrow|];
        cbn; rewrite Hmode, Hmeas; repeat split; auto 10. }
  destruct Hr as (Herr & Hcal & Hmat & Hdata & Hp & Hk & Hm & Hme).
  repeat (split; [assumption|]).
  intros clicks Hclicks.
  assert (Hrun : forall s1 : OpenCV.State num Mat,
            OpenCV.currentStep s1 <= List.length (OpenCV.calibrationPoints s1) ->
            OpenCV.isCalibrated
              (fst (run (map (OpenCV.handle cv) clicks) s1))
            = OpenCV.isCalibrated s1).
  { induction clicks as [|e clicks IH]; intros s1 Hs1; [reflexivity|].
    cbn [forallb] in Hclicks. apply andb_prop in Hclicks as [He Hclicks].
    destruct e; try discriminate He.
    cbn [map run OpenCV.handle]. unfold andThen.
    destruct (opencv_click_behind cv s1 x0 y0 now0 Hs1) as (Hs2 & Hc2 & _).
    destruct (OpenCV.handleCanvasClick cv x0 y0 now0 s1) as [s2 e2].
    cbn [fst] in Hs2, Hc2.
    specialize (IH Hclicks s2 Hs2).
    destruct (run (map (OpenCV.handle cv) clicks) s2). cbn [fst] in *.
    congruence. }
  rewrite Hrun; [exact Hcal|]. rewrite Hk, Hp. cbn. lia.
Qed.

Lemma opencv_failed_calibration_witness :
  let click (x y t : Z) : OpenCV.Event PrimFloat.float :=
    OpenCV.CanvasClick (of_Z x) (of_Z y) t in
  let evs :=
    [OpenCV.OpenCvReady; OpenCV.ReferenceChange "custom";
     OpenCV.SelectMode OpenCV.precision (Some fullHD);
     OpenCV.StartPrecisionCalibration;
     click 100 100 1; click 500 100 2; click 500 400 3]%Z in
  let s := fst (run (map (OpenCV.handle doublingCv) evs) OpenCV.constructor) in
  let r := OpenCV.handleCanvasClick doublingCv (of_Z 100) (of_Z 400) 4 s in
  let again := [click 100 100 5; click 500 100 6; click 500 400 7;
                click 100 400 8; click 100 400 9]%Z in
  OpenCV.referenceObject s = None /\
  OpenCV.isCalibrated (fst r) = false /\
  OpenCV.isCalibrated
    (fst (run (map (OpenCV.handle doublingCv) again) (fst r))) = false.
Proof.
  intros click evs s r again.
  assert (Href : OpenCV.referenceObject s = None) by reflexivity.
  assert (Hcanvas : OpenCV.canvas s <> None) by (vm_compute; discriminate).
  destruct (opencv_failed_calibration doublingCv s
              (c1 := corner (of_Z 100) (of_Z 100) 1)
              (c2 := corner (of_Z 500) (of_Z 100) 2)
              (c3 := corner (of_Z 500) (of_Z 400) 3)
              (of_Z 100) (of_Z 400) 4
              eq_refl Hcanvas eq_refl eq_refl eq_refl eq_refl
              (or_introl Href))
    as (_ & Hcal & _ & _ & _ & _ & _ & _ & Hagain).
  split; [exact Href|]. split; [exact Hcal|].
  apply (Hagain again). reflexivity.
Defined.


(** ** The library at work: exceptions, matrices, progress *)

Lemma opencv_reachable_of_one_piece {num : Type} `{JSNumber num}
  {Mat : Type} (cv : OpenCVjs num Mat) (s : OpenCV.State num Mat) :
  opencvReachable cv s -> opencvOfOnePiece s.
Proof.
  induction 1 as [|s e Hs IH]; [exact I|].
  now apply opencv_step_of_one_piece.
Qed.

(** A calibrated hybrid application has calibration data. *)
Lemma hybrid_reachable_has_data {num : Type} `{JSNumber num} {Mat : Type}
  (cv : OpenCVjs num Mat) (s : Hybrid.State num Mat) :
  hybridReachable cv s ->
  Hybrid.isCalibrated s = true -> Hybrid.calibrationData s <> None.
Proof.
  induction 1 as [|s e Hs IH]; [discriminate|].
  destruct (Hybrid.isCalibrated s) eqn:Ecal;
    [specialize (IH eq_refl)|clear IH];
    destruct (Hybrid.calibrationData s) eqn:Edata; try contradiction;
    destruct e; cbn [Hybrid.handle]; hybrid_handlers;
    branches; intros; try discriminate; try congruence.
Qed.

(** An exception of [cv.perspectiveTransform] during a measurement is
    caught: the failure is reported, nothing is stored, the two temporary
    matrices stay undeleted and both points stay pending. *)
Theorem transform_exception_is_caught {num : Type} `{JSNumber num}
  {Mat : Type} (cv : OpenCVjs num Mat) (p1 : Point num) (x y : num)
  (now : Z) (M : Mat) :
  perspectiveTransform cv [p_x p1; p_y p1; x; y] M = None ->
  let p2 := {| p_x := x; p_y := y; p_timestamp := now |} in
  let effects : list (Effect num Mat) :=
    [CvMatFromArray 2 1 [p_x p1; p_y p1; x; y]; CvNewMat;
     CvPerspectiveTransform [p_x p1; p_y p1; x; y] M;
     ShowError "Distance calculation failed. Please try again."] in
  (forall s : OpenCV.State num Mat,
     OpenCV.isMeasuring s = true -> OpenCV.canvas s <> None ->
     OpenCV.isCalibrationMode s = false -> OpenCV.isCalibrated s = true ->
     OpenCV.currentMode s = Some OpenCV.precision ->
     OpenCV.perspectiveMatrix s = Some M ->
     OpenCV.measurementPoints s = [p1] ->
     OpenCV.handleCanvasClick cv x y now s =
     (s <| OpenCV.measurementPoints := [p1; p2] |>, effects)) /\
  (forall (s : Hybrid.State num Mat) (data : Hybrid.CalibrationData num Mat),
     Hybrid.isMeasuring s = true -> Hybrid.canvas s <> None ->
     Hybrid.isCalibrationMode s = false -> Hybrid.isCalibrated s = true ->
     Hybrid.calibrationData s = Some data ->
     Hybrid.cd_mode data = "precision" ->
     Hybrid.perspectiveMatrix s = Some M ->
     Hybrid.measurementPoints s = [p1] ->
     Hybrid.handleCanvasClick cv x y now s =
     (s <| Hybrid.measurementPoints := [p1; p2] |>, effects)) /\
  temporariesCreated effects = 2 /\ temporariesDeleted effects = 0.
Proof.
  intros Hthrow p2 effects. split; [|split; [|split; reflexivity]].
  - intros s Hmeas Hcanvas Hmode Hcal Hprec HM Hpts.
    destruct (OpenCV.canvas s) as [c|] eqn:Ec; [|congruence].
    opencv_handlers. rewrite Hmeas, Ec, Hmode. cbn.
    rewrite Hpts. cbn. rewrite Hcal, Hprec, HM. cbn. rewrite ?Hpts, ?HM. cbn.
    rewrite Hthrow. reflexivity.
  - intros s data Hmeas Hcanvas Hmode Hcal Hdata Hprec HM Hpts.
    destruct (Hybrid.canvas s) as [c|] eqn:Ec; [|congruence].
    hybrid_handlers. rewrite Hmeas, Ec, Hmode. cbn.
    rewrite Hpts. cbn. rewrite Hcal. cbn. rewrite Hdata, Hprec. cbn.
    rewrite HM. cbn. rewrite ?Hpts, ?HM. cbn.
    rewrite Hthrow. reflexivity.
Qed.

Lemma transform_exception_is_caught_witness :
  let click (x y t : Z) : OpenCV.Event PrimFloat.float :=
    OpenCV.CanvasClick (of_Z x) (of_Z y) t in
  let evs :=
    [OpenCV.OpenCvReady; OpenCV.SelectMode OpenCV.precision (Some fullHD);
     OpenCV.StartPrecisionCalibration;
     click 100 100 1; click 500 100 2; click 500 400 3; click 100 400 4;
     OpenCV.ToggleMeasurement; click 0 0 5]%Z in
  let s :=
    fst (run (map (OpenCV.handle lostTransformCv) evs) OpenCV.constructor) in
  let r := OpenCV.handleCanvasClick lostTransformCv (of_Z 30) (of_Z 40) 6 s in
  OpenCV.isCalibrated s = true /\
  OpenCV.measurements (fst r) = [] /\
  List.length (OpenCV.measurementPoints (fst r)) = 2.
Proof.
  intros click evs s r.
  assert (Hcal : OpenCV.isCalibrated s = true) by reflexivity.
  assert (Hcanvas : OpenCV.canvas s <> None) by (vm_compute; discriminate).
  assert (HM : exists M, OpenCV.perspectiveMatrix s = Some M)
    by (vm_compute; eexists; reflexivity).
  destruct HM as [M HM].
  destruct (@transform_exception_is_caught PrimFloat.float _ _
              lostTransformCv
              {| p_x := of_Z 0; p_y := of_Z 0; p_timestamp := 5 |}
              (of_Z 30) (of_Z 40) 6%Z M eq_refl) as (Ho & _).
  split; [exact Hcal|].
  unfold r.
  rewrite (Ho s eq_refl Hcanvas eq_refl Hcal eq_refl HM eq_refl).
  split; reflexivity.
Defined.

(** A matrix that is deleted is dropped: whenever handling an event
    deletes a perspective matrix, it is the matrix the application held,
    and the application holds none afterwards. *)
Theorem deleted_matrix_is_dropped {num : Type} `{JSNumber num} {Mat : Type}
  (cv : OpenCVjs num Mat) (M : Mat) :
  (forall (e : OpenCV.Event num) (s : OpenCV.State num Mat),
     In (CvDeleteMatrix M) (snd (OpenCV.handle cv e s)) ->
     OpenCV.perspectiveMatrix s = Some M /\
     OpenCV.perspectiveMatrix (fst (OpenCV.handle cv e s)) = None) /\
  (forall (e : Hybrid.Event num) (s : Hybrid.State num Mat),
     In (CvDeleteMatrix M) (snd (Hybrid.handle cv e s)) ->
     Hybrid.perspectiveMatrix s = Some M /\
     Hybrid.perspectiveMatrix (fst (Hybrid.handle cv e s)) = None).
Proof.
  split.
  - intros e s.
    destruct e; cbn [OpenCV.handle]; opencv_handlers; branches;
      intros Hin; cbn in Hin;
      repeat match goal with
             | E : _ \/ _ |- _ => destruct E
             | E : False |- _ => contradiction
             | E : _ = CvDeleteMatrix _ |- _ => first [discriminate E | injection E as ->]
             end;
      auto.
  - intros e s.
    destruct e; cbn [Hybrid.handle]; hybrid_handlers; branches;
      intros Hin; cbn in Hin;
      repeat match goal with
             | E : _ \/ _ |- _ => destruct E
             | E : False |- _ => contradiction
             | E : _ = CvDeleteMatrix _ |- _ => first [discriminate E | injection E as ->]
             end;
      auto.
Qed.


Lemma deleted_matrix_is_dropped_witness :
  let click (x y t : Z) : Hybrid.Event PrimFloat.float :=
    Hybrid.CanvasClick (of_Z x) (of_Z y) t in
  let evs :=
    [Hybrid.OpenCVReady; Hybrid.SelectMode Hybrid.precision (Some fullHD);
     Hybrid.StartPrecisionCalibration;
     click 100 100 1; click 500 100 2; click 500 400 3; click 100 400 4]%Z in
  let s := fst (run (map (Hybrid.handle doublingCv) evs) Hybrid.constructor) in
  exists M,
    Hybrid.perspectiveMatrix s = Some M /\
    In (CvDeleteMatrix M) (snd (Hybrid.handle doublingCv Hybrid.GoBack s)) /\
    Hybrid.perspectiveMatrix (fst (Hybrid.handle doublingCv Hybrid.GoBack s))
      = None.
Proof.
  intros click evs s.
  assert (HM : exists M,
            In (CvDeleteMatrix M)
               (snd (Hybrid.handle doublingCv Hybrid.GoBack s)))
    by (vm_compute; eexists; left; reflexivity).
  destruct HM as [M HM]. exists M.
  destruct (proj2 (deleted_matrix_is_dropped doublingCv M) Hybrid.GoBack s HM)
    as [Hheld Hnone].
  split; [exact Hheld|]. split; [exact HM|exact Hnone].
Defined.

(** Asking for a recalibration drops the matrix in both variants with the
    library; the hybrid variant deletes it, the OpenCV variant lets go of it
    without deleting it. *)
Theorem recalibration_and_the_matrix {num : Type} `{JSNumber num}
  {Mat : Type} (M : Mat) :
  (forall s : OpenCV.State num Mat,
     OpenCV.currentMode s = Some OpenCV.precision ->
     OpenCV.perspectiveMatrix s = Some M ->
     OpenCV.perspectiveMatrix (fst (OpenCV.showRecalibration s)) = None /\
     OpenCV.isCalibrated (fst (OpenCV.showRecalibration s)) = false /\
     existsb is_cv_call (snd (OpenCV.showRecalibration s)) = false) /\
  (forall s : Hybrid.State num Mat,
     Hybrid.perspectiveMatrix s = Some M ->
     Hybrid.perspectiveMatrix (fst (Hybrid.showRecalibration s)) = None /\
     Hybrid.isCalibrated (fst (Hybrid.showRecalibration s)) = false /\
     In (CvDeleteMatrix M) (snd (Hybrid.showRecalibration s))).
Proof.
  split.
  - intros s Hmode HM. unfold OpenCV.showRecalibration. rewrite Hmode.
    cbn. repeat split.
  - intros s HM. unfold Hybrid.showRecalibration.
    destruct (Hybrid.currentMode s) as [[]|], (Hybrid.isOpenCVReady s);
      hybrid_handlers; cbn; rewrite HM; cbn; repeat split; auto.
Qed.

Lemma recalibration_and_the_matrix_witness :
  let click (x y t : Z) : OpenCV.Event PrimFloat.float :=
    OpenCV.CanvasClick (of_Z x) (of_Z y) t in
  let evs :=
    [OpenCV.OpenCvReady; OpenCV.SelectMode OpenCV.precision (Some fullHD);
     OpenCV.StartPrecisionCalibration;
     click 100 100 1; click 500 100 2; click 500 400 3; click 100 400 4]%Z in
  let s := fst (run (map (OpenCV.handle doublingCv) evs) OpenCV.constructor) in
  OpenCV.isCalibrated s = true /\
  OpenCV.perspectiveMatrix (fst (OpenCV.showRecalibration s)) = None /\
  existsb is_cv_call (snd (OpenCV.showRecalibration s)) = false.
Proof.
  intros click evs s.
  assert (HM : exists M, OpenCV.perspectiveMatrix s = Some M)
    by (vm_compute; eexists; reflexivity).
  destruct HM as [M HM].
  destruct (proj1 (recalibration_and_the_matrix (num := PrimFloat.float) M)
              s eq_refl HM) as (Hnone & _ & Hcalls).
  split; [reflexivity|]. split; [exact Hnone|exact Hcalls].
Defined.

(** As long as the library answers, handling an event deletes every
    temporary matrix it creates, in every state the OpenCV variant can be
    in and in every state of the hybrid variant. *)
Theorem temporaries_are_deleted {num : Type} `{JSNumber num} {Mat : Type}
  (cv : OpenCVjs num Mat) :
  answers cv ->
  (forall (e : OpenCV.Event num) (s : OpenCV.State num Mat),
     opencvReachable cv s ->
     temporariesCreated (snd (OpenCV.handle cv e s))
     = temporariesDeleted (snd (OpenCV.handle cv e s))) /\
  (forall (e : Hybrid.Event num) (s : Hybrid.State num Mat),
     temporariesCreated (snd (Hybrid.handle cv e s))
     = temporariesDeleted (snd (Hybrid.handle cv e s))).
Proof.
  intros [Hget Happly]. split.
  - intros e s Hs. apply opencv_reachable_of_one_piece in Hs.
    unfold opencvOfOnePiece in Hs.
    destruct (OpenCV.isCalibrated s) eqn:Ecal,
      (OpenCV.perspectiveMatrix s) eqn:Emat,
      (OpenCV.calibrationData s) eqn:Edata; try contradiction;
      destruct e; cbn [OpenCV.handle]; opencv_handlers;
      branches; try reflexivity; try congruence;
      exfalso;
      match goal with
      | E : getPerspectiveTransform _ _ _ = None |- _ => now apply Hget in E
      | E : perspectiveTransform _ _ _ = None |- _ => now apply Happly in E
      end.
  - intros e s.
    destruct e; cbn [Hybrid.handle]; hybrid_handlers;
      branches; try reflexivity; try congruence;
      exfalso;
      match goal with
      | E : getPerspectiveTransform _ _ _ = None |- _ => now apply Hget in E
      | E : perspectiveTransform _ _ _ = None |- _ => now apply Happly in E
      end.
Qed.


Lemma temporaries_are_deleted_witness :
  let click (x y t : Z) : OpenCV.Event PrimFloat.float :=
    OpenCV.CanvasClick (of_Z x) (of_Z y) t in
  let evs :=
    [OpenCV.OpenCvReady; OpenCV.SelectMode OpenCV.precision (Some fullHD);
     OpenCV.StartPrecisionCalibration;
     click 100 100 1; click 500 100 2; click 500 400 3; click 100 400 4;
     OpenCV.ToggleMeasurement; click 0 0 5]%Z in
  let s := fst (run (map (OpenCV.handle doublingCv) evs) OpenCV.constructor) in
  let es := snd (OpenCV.handle doublingCv (click 30 40 6)%Z s) in
  temporariesCreated es = 2 /\ temporariesCreated es = temporariesDeleted es.
Proof.
  intros click evs s es.
  assert (Hans : answers (doublingCv (num := PrimFloat.float)))
    by (split; intros; discriminate).
  split; [vm_compute; reflexivity|].
  exact (proj1 (temporaries_are_deleted Hans) (click 30 40 6)%Z s
           (opencv_run_reachable doublingCv evs)).
Defined.

(** When OpenCV.js throws at the fourth corner, the hybrid variant reports
    it and calibrates in the enhanced basic way on the first two corners:
    the scale is the reference size over their pixel distance, times the
    perspective factor; the two temporary matrices stay undeleted. *)
Theorem hybrid_calibration_falls_back {num : Type} `{JSNumber num}
  {Mat : Type} (cv : OpenCVjs num Mat) (s : Hybrid.State num Mat)
  (c1 c2 c3 c4 : CalibrationPoint num) (reference : ReferenceObject num)
  (cnv : Canvas num) :
  Hybrid.calibrationPoints s = [c1; c2; c3; c4] ->
  Hybrid.isOpenCVReady s = true ->
  Hybrid.referenceObject s = Some reference ->
  Hybrid.canvas s = Some cnv ->
  getPerspectiveTransform cv (corners c1 c2 c3 c4)
    (rectangle10 (to_number (ref_width reference))
                 (to_number (ref_height reference))) = None ->
  let r := Hybrid.completePrecisionCalibration cv s in
  In (ShowError "Precision calibration failed. Using enhanced basic mode.")
     (snd r) /\
  Hybrid.isCalibrated (fst r) = true /\
  Hybrid.isCalibrationMode (fst r) = false /\
  Hybrid.perspectiveMatrix (fst r) = Hybrid.perspectiveMatrix s /\
  Hybrid.calibrationData (fst r) =
    Some {| Hybrid.cd_calibrationFactor :=
              Some (to_number (or_else (ref_width reference)
                                       (ref_diameter reference))
                    / euclid (c_x c1) (c_y c1) (c_x c2) (c_y c2)
                    * Hybrid.perspectiveFactor cnv c1 c2)%js;
            Hybrid.cd_perspectiveMatrix := None;
            Hybrid.cd_referenceObject := reference;
            Hybrid.cd_scale := None;
            Hybrid.cd_mode := "enhanced_basic";
            Hybrid.cd_distanceCorrection :=
              Some (Hybrid.distanceRatio cnv c1 c2) |} /\
  temporariesCreated (snd r) = 2 /\ temporariesDeleted (snd r) = 0.
Proof.
  intros Hpts Hready Href Hcanvas Hthrow r. subst r.
  unfold corners, rectangle10 in Hthrow.
  hybrid_handlers. rewrite Hpts, Hready. cbn. rewrite Href. cbn.
  rewrite ?Hpts. cbn. unfold Hybrid.dstPoints. rewrite Hthrow.
  rewrite Hpts, Href, Hcanvas. cbn.
  repeat split; auto.
Qed.


Lemma hybrid_calibration_falls_back_witness :
  let click (x y t : Z) : Hybrid.Event PrimFloat.float :=
    Hybrid.CanvasClick (of_Z x) (of_Z y) t in
  let cv : OpenCVjs PrimFloat.float unit :=
    {| getPerspectiveTransform := fun _ _ => None;
       perspectiveTransform := fun _ _ => None |} in
  let evs :=
    [Hybrid.OpenCVReady; Hybrid.SelectMode Hybrid.precision (Some fullHD);
     Hybrid.StartPrecisionCalibration;
     click 100 100 1; click 500 100 2; click 500 400 3]%Z in
  let s := fst (run (map (Hybrid.handle cv) evs) Hybrid.constructor) in
  let s4 := s <| Hybrid.calibrationPoints :=
                   Hybrid.calibrationPoints s
                   ++ [corner (of_Z 100) (of_Z 400) 4] |> in
  let r := Hybrid.completePrecisionCalibration cv s4 in
  Hybrid.isCalibrated s = false /\
  Hybrid.isCalibrated (fst r) = true /\
  Hybrid.perspectiveMatrix (fst r) = None.
Proof.
  intros click cv evs s s4 r.
  destruct (hybrid_calibration_falls_back cv s4
              (c1 := corner (of_Z 100) (of_Z 100) 1)
              (c2 := corner (of_Z 500) (of_Z 100) 2)
              (c3 := corner (of_Z 500) (of_Z 400) 3)
              (c4 := corner (of_Z 100) (of_Z 400) 4)
              (reference := rectangle "Credit Card" (decimal 856 10)
                              (decimal 5398 100))
              (cnv := fullHD)
              eq_refl eq_refl eq_refl eq_refl eq_refl)
    as (_ & Hcal & _ & Hmat & _).
  split; [reflexivity|]. split; [exact Hcal|].
  unfold r. rewrite Hmat. reflexivity.
Defined.

(** With the library answering, the second measuring click of a calibrated
    application always stores a measurement of the pending point and the
    click: in every state the OpenCV variant or the hybrid variant can be
    in, no call is missing its data. *)
Theorem calibrated_click_measures {num : Type} `{JSNumber num} {Mat : Type}
  (cv : OpenCVjs num Mat) (p1 : Point num) (x y : num) (now : Z) :
  answers cv ->
  let p2 := {| p_x := x; p_y := y; p_timestamp := now |} in
  (forall s : OpenCV.State num Mat,
     opencvReachable cv s ->
     OpenCV.isMeasuring s = true -> OpenCV.canvas s <> None ->
     OpenCV.isCalibrationMode s = false -> OpenCV.isCalibrated s = true ->
     OpenCV.measurementPoints s = [p1] ->
     exists m,
       OpenCV.measurements (fst (OpenCV.handleCanvasClick cv x y now s))
         = OpenCV.measurements s ++ [m] /\
       m_points m = [p1; p2]) /\
  (forall s : Hybrid.State num Mat,
     hybridReachable cv s ->
     Hybrid.isMeasuring s = true -> Hybrid.canvas s <> None ->
     Hybrid.isCalibrationMode s = false -> Hybrid.isCalibrated s = true ->
     Hybrid.measurementPoints s = [p1] ->
     exists m,
       Hybrid.measurements (fst (Hybrid.handleCanvasClick cv x y now s))
         = Hybrid.measurements s ++ [m] /\
       m_points m = [p1; p2]).
Proof.
  intros [Hget Happly] p2. split.
  - intros s Hs Hmeas Hcanvas Hmode Hcal Hpts.
    apply opencv_reachable_of_one_piece in Hs.
    unfold opencvOfOnePiece in Hs. rewrite Hcal in Hs.
    destruct (OpenCV.perspectiveMatrix s) as [M|] eqn:EM; [|contradiction].
    destruct (OpenCV.calibrationData s) as [data|] eqn:Edata;
      [|contradiction].
    destruct (OpenCV.canvas s) as [c|] eqn:Ec; [|congruence].
    opencv_handlers. rewrite Hmeas, Ec, Hmode. cbn.
    rewrite Hpts. cbn. rewrite Hcal. cbn.
    destruct (OpenCV.currentMode s) as [[]|]; rewrite ?EM; cbn;
      rewrite ?Hpts, ?EM, ?Edata; cbn;
      try (eexists; split; reflexivity).
    destruct (perspectiveTransform cv _ M) as [d|] eqn:Ed;
      [|now apply Happly in Ed].
    rewrite ?Edata. cbn. eexists; split; reflexivity.
  - intros s Hs Hmeas Hcanvas Hmode Hcal Hpts.
    pose proof (hybrid_reachable_has_data Hs Hcal) as Hdata.
    destruct (Hybrid.calibrationData s) as [data|] eqn:Edata;
      [|contradiction].
    destruct (Hybrid.canvas s) as [c|] eqn:Ec; [|congruence].
    hybrid_handlers. rewrite Hmeas, Ec, Hmode. cbn.
    rewrite Hpts. cbn. rewrite Hcal. cbn. rewrite Edata.
    destruct (String.eqb (Hybrid.cd_mode data) "precision");
      [destruct (Hybrid.perspectiveMatrix s) as [M|] eqn:EM|];
      cbn; rewrite ?Hpts, ?EM, ?Edata, ?Ec; cbn.
    + destruct (perspectiveTransform cv _ M) as [d|] eqn:Ed;
        [|now apply Happly in Ed].
      cbn. eexists; split; reflexivity.
    + destruct (Hybrid.corrects data); rewrite ?Ec; cbn;
        eexists; split; reflexivity.
    + destruct (Hybrid.corrects data); rewrite ?Ec; cbn;
        eexists; split; reflexivity.
Qed.

Lemma calibrated_click_measures_witness :
  let click (x y t : Z) : Hybrid.Event PrimFloat.float :=
    Hybrid.CanvasClick (of_Z x) (of_Z y) t in
  let evs :=
    [Hybrid.SelectMode Hybrid.basic (Some fullHD);
     Hybrid.StartBasicCalibration; click 100 100 1; click 400 500 2;
     Hybrid.ToggleMeasurement; click 0 0 3]%Z in
  let s := fst (run (map (Hybrid.handle doublingCv) evs) Hybrid.constructor) in
  Hybrid.isCalibrated s = true /\
  exists m,
    Hybrid.measurements
      (fst (Hybrid.handleCanvasClick doublingCv (of_Z 30) (of_Z 40) 4 s))
      = Hybrid.measurements s ++ [m] /\
    m_points m = [{| p_x := of_Z 0; p_y := of_Z 0; p_timestamp := 3 |};
                  {| p_x := of_Z 30; p_y := of_Z 40; p_timestamp := 4 |}].
Proof.
  intros click evs s.
  assert (Hans : answers (doublingCv (num := PrimFloat.float)))
    by (split; intros; discriminate).
  assert (Hcanvas : Hybrid.canvas s <> None) by (vm_compute; discriminate).
  split; [reflexivity|].
  apply (proj2 (calibrated_click_measures
                  {| p_x := of_Z 0; p_y := of_Z 0; p_timestamp := 3 |}
                  (of_Z 30) (of_Z 40) 4 Hans) s
           (hybrid_run_reachable doublingCv evs) eq_refl Hcanvas eq_refl
           eq_refl eq_refl).
Defined.

Lemma click_then_undo_witness :
  let evs :=
    [OpenCV.OpenCvReady; OpenCV.SelectMode OpenCV.precision (Some fullHD);
     OpenCV.StartPrecisionCalibration;
     OpenCV.CanvasClick (of_Z 100) (of_Z 100) 1;
     OpenCV.CanvasClick (of_Z 500) (of_Z 100) 2;
     OpenCV.CanvasClick (of_Z 500) (of_Z 400) 3;
     OpenCV.CanvasClick (of_Z 100) (of_Z 400) 4;
     OpenCV.ToggleMeasurement] in
  let s : OpenCV.State PrimFloat.float _ :=
    fst (run (map (OpenCV.handle doublingCv) evs) OpenCV.constructor) in
  OpenCV.isMeasuring s = true /\
  List.length
    (OpenCV.measurementPoints
       (fst (OpenCV.handleCanvasClick doublingCv (of_Z 0) (of_Z 0) 5 s))) = 1 /\
  fst (OpenCV.undoLastPoint
         (fst (OpenCV.handleCanvasClick doublingCv (of_Z 0) (of_Z 0) 5 s)))
  = s.
Proof.
  intros evs s.
  assert (Hcanvas : OpenCV.canvas s <> None) by (vm_compute; discriminate).
  assert (Hlen : List.length (OpenCV.measurementPoints s) <> 1)
    by (vm_compute; discriminate).
  split; [reflexivity|]. split; [reflexivity|].
  apply (proj1 (click_then_undo doublingCv (of_Z 0) (of_Z 0) 5) s
           eq_refl Hcanvas eq_refl Hlen).
Defined.


(** ** The enhanced basic mode of the hybrid variant *)










(** ** From the click to the canvas *)



(** While the canvas is displayed with width zero, no click has a finite
    horizontal canvas coordinate. *)
Theorem click_on_collapsed_canvas (W Ht left top h cx cy : R) :
  (0 < W)%R ->
  is_finite
    (fst (canvasCoordinates
            {| canvas_width := Fin W; canvas_height := Fin Ht |}
            {| rect_left := Fin left; rect_top := Fin top;
               rect_width := Fin 0; rect_height := Fin h |}
            (Fin cx) (Fin cy))) = false.
Proof.
  intros HW. unfold canvasCoordinates.
  cbn [canvas_width canvas_height rect_left rect_top rect_width rect_height
       fst].
  rewrite xreal_div_pos_zero by exact HW.
  xreal; reflexivity.
Qed.

Lemma click_on_collapsed_canvas_witness :
  is_finite
    (fst (canvasCoordinates fullHD
            {| rect_left := Fin 0; rect_top := Fin 0;
               rect_width := Fin 0; rect_height := Fin 0 |}
            (Fin 5) (Fin 5))) = false.
Proof.
  apply (@click_on_collapsed_canvas 1920 1080 0 0 0 5 5). lra.
Defined.

(** ** The summary of an export *)



